(** * MIAFF backend: the customs tax simulation engine and the profitability
      aggregator

    Shallow embedding of
    - [src/services/simulation.service.ts]   (multi-country engine, module [Multi]),
    - the USD-only [simulate]                (module [Usd]),
    - [services/analisis.service.ts]         (profit figures, module [Analisis]).

    The engine code is written once, over an interface [Number] of the
    JavaScript number operations it uses.  Two instances are given:
    - [FloatNumber]: IEEE binary64 through the kernel's primitive floats,
      the arithmetic the TypeScript code runs on.  Statements that hold by
      the structure of the code are proved for every instance, this one
      included, and the concrete scenarios are replayed with it.
    - [QNumber]: exact rationals, the decimal reading of the specification
      (amounts are decimal values, [round2] lands on the 1/100 grid).  The
      theorems on order, sign, bases and composition are proved for it.  It
      departs from binary64 in three ways: it has no NaN, no infinities and
      no overflow; a product that lies exactly on a half cent can round the
      other way (50.25 x 0.06 gives 3.02 here, 3.01 in binary64); and sums
      of rounded amounts stay on the cent grid here, whereas a sum of
      doubles does not.  A theorem stated for it is a statement on decimal
      values, equal to the cent but not bit for bit to what the code
      returns at ordinary amounts.

    Optional fields ([x?: T], [T | null]) are [option]s; a [throw] is the
    [Throw] outcome; the database reads of the resolver and of the
    aggregator are outside the model, their rows are inputs. *)

From Stdlib Require Import ZArith QArith Qabs Qround Floats.
From Stdlib Require Import Bool String List Lia.
Import ListNotations.

Set Implicit Arguments.

(* ------------------------------------------------------------------ *)
(** * JavaScript numbers *)

Class Number (num : Type) : Type := {
  of_Z : Z -> num;                 (* an integer literal *)
  add : num -> num -> num;         (* a + b *)
  sub : num -> num -> num;         (* a - b *)
  mul : num -> num -> num;         (* a * b *)
  div : num -> num -> num;         (* a / b *)
  ltb : num -> num -> bool;        (* a < b *)
  leb : num -> num -> bool;        (* a <= b *)
  math_round : num -> num;         (* Math.round(a) *)
  math_min : num -> num -> num;    (* Math.min(a, b) *)
  to_fixed2 : num -> num           (* parseFloat(a.toFixed(2)) *)
}.

Section JsNumber.
Context {num : Type} `{Number num}.

Definition zero : num := of_Z 0.

(** A decimal literal [m / k], k a power of ten: [dec 16 100] is [0.16]. *)
Definition dec (m k : Z) : num := div (of_Z m) (of_Z k).

(** [Number.EPSILON], 2^-52. *)
Definition EPSILON : num := div (of_Z 1) (of_Z (2 ^ 52)).

(** [a > b]. *)
Definition gtb (a b : num) : bool := ltb b a.

(** ToBoolean on a number: false for 0 (and NaN), true otherwise. *)
Definition truthy (a : num) : bool := ltb a zero || ltb zero a.

(** [a === b] on numbers. *)
Definition strict_eqb (a b : num) : bool := leb a b && leb b a.

(** [a ?? d] on an optional number. *)
Definition nullish (a : option num) (d : num) : num :=
  match a with Some x => x | None => d end.

End JsNumber.

(** ToBoolean on an optional boolean. *)
Definition truthy_bool (b : option bool) : bool :=
  match b with Some true => true | _ => false end.

Definition is_some {A : Type} (a : option A) : bool :=
  match a with Some _ => true | None => false end.

(** Result of a function that may [throw new Error(msg)]. *)
Inductive outcome (A : Type) : Type :=
| Ok (a : A)
| Throw (msg : string).
Arguments Ok {A} a.
Arguments Throw {A} msg.

(* ------------------------------------------------------------------ *)
(** ** Exact rationals *)

Definition Qltb (a b : Q) : bool := negb (Qle_bool b a).

(** [Math.round]: the nearest integer, ties towards +infinity. *)
Definition Qmath_round (a : Q) : Q := inject_Z (Qfloor (a + (1 # 2))).

Definition Qmath_min (a b : Q) : Q := if Qle_bool a b then a else b.

(** [toFixed(2)] works on the absolute value, picks the larger of two
    equally near candidates and restores the sign: the number of hundredths. *)
Definition hundredths (a : Q) : Z :=
  if Qltb a 0
  then (- Qfloor (- a * 100 + (1 # 2)))%Z
  else Qfloor (a * 100 + (1 # 2)).

Definition Qto_fixed2 (a : Q) : Q := inject_Z (hundredths a) / 100.

#[export] Instance QNumber : Number Q | 0 := {|
  of_Z := inject_Z;
  add := Qplus;
  sub := Qminus;
  mul := Qmult;
  div := Qdiv;
  ltb := Qltb;
  leb := Qle_bool;
  math_round := Qmath_round;
  math_min := Qmath_min;
  to_fixed2 := Qto_fixed2
|}.

(* ------------------------------------------------------------------ *)
(** ** IEEE binary64 *)

Module F64.
(** The double nearest to an integer (round to nearest, ties to even;
    infinite beyond the largest double), at any magnitude. *)
Definition of_Z (z : Z) : float := SF2Prim (binary_normalize prec emax z 0 false).

(** The double nearest to the fraction [n / d].  The quotient is taken
    exactly on 64 bits more than [d] has, with a last bit that records a
    non-zero remainder, so the single rounding to 53 bits sees on which side
    of a halfway point the fraction lies. *)
Definition of_ratio (n : Z) (d : positive) : float :=
  let k := (Z.log2 (Zpos d) + 64)%Z in
  let a := (Z.abs n * 2 ^ k)%Z in
  let q := (a / Zpos d)%Z in
  let sticky := if (a mod Zpos d =? 0)%Z then 0%Z else 1%Z in
  let m := (2 * q + sticky)%Z in
  SF2Prim (binary_normalize prec emax (if (n <? 0)%Z then (- m)%Z else m)
             (- (k + 1)) false).

(** The exact value of a finite float. *)
Definition exact (s : bool) (m : positive) (e : Z) : Q :=
  let mz := if s then Zneg m else Zpos m in
  match e with
  | Z0 => inject_Z mz
  | Zpos _ => inject_Z (mz * 2 ^ e)
  | Zneg p => Qmake mz (2 ^ p)
  end.

Definition to_Q (x : float) : option Q :=
  match Prim2SF x with
  | S754_zero _ => Some 0%Q
  | S754_finite s m e => Some (exact s m e)
  | S754_infinity _ | S754_nan => None
  end.

Definition is_nan (x : float) : bool := negb (PrimFloat.eqb x x).

(** [Math.round]: the integer nearest to the exact value, ties towards
    +infinity; zeros, infinities and NaN are returned as they are, and a
    result of zero keeps the sign of the argument ([Math.round(-0.3)] is
    [-0]). *)
Definition math_round (x : float) : float :=
  match Prim2SF x with
  | S754_finite s m e =>
      let n := Qfloor (exact s m e + (1 # 2)) in
      if (n =? 0)%Z then (if s then PrimFloat.neg_zero else PrimFloat.zero)
      else of_Z n
  | S754_zero _ | S754_infinity _ | S754_nan => x
  end.

Definition math_min (a b : float) : float :=
  if is_nan a then a
  else if is_nan b then b
  else if PrimFloat.ltb b a then b
  else if PrimFloat.ltb a b then a
  else if PrimFloat.ltb (PrimFloat.div PrimFloat.one b) PrimFloat.zero then b
  else a.

(** [parseFloat(x.toFixed(2))].  Below 10^21 in magnitude [toFixed] writes
    the integer n nearest to 100 |x| (exactly, ties to the larger n) as a
    decimal with two places, after a minus sign when x < 0, and
    [parseFloat] reads the nearest double back; [-0] is written without a
    sign, a negative x that rounds to no hundredth at all gives [-0].  From
    10^21 up, and for the infinities and NaN, the text is the one of
    [String(x)], which reads back as x. *)
Definition to_fixed2 (x : float) : float :=
  match Prim2SF x with
  | S754_zero _ => PrimFloat.zero
  | S754_finite s m e =>
      let q := exact s m e in
      if Qle_bool (inject_Z (10 ^ 21)) (Qabs q) then x
      else
        let n := hundredths q in
        if (n =? 0)%Z then (if s then PrimFloat.neg_zero else PrimFloat.zero)
        else of_ratio n 100
  | S754_infinity _ | S754_nan => x
  end.
End F64.

#[export] Instance FloatNumber : Number float | 10 := {|
  of_Z := F64.of_Z;
  add := PrimFloat.add;
  sub := PrimFloat.sub;
  mul := PrimFloat.mul;
  div := PrimFloat.div;
  ltb := PrimFloat.ltb;
  leb := PrimFloat.leb;
  math_round := F64.math_round;
  math_min := F64.math_min;
  to_fixed2 := F64.to_fixed2
|}.

(* ------------------------------------------------------------------ *)
(** * Types shared by the two engines *)

Inductive ImporterProfile : Type :=
| normal | first_import | no_habido | public | amazon.

Definition ImporterProfile_eqb (a b : ImporterProfile) : bool :=
  match a, b with
  | normal, normal | first_import, first_import | no_habido, no_habido
  | public, public | amazon, amazon => true
  | _, _ => false
  end.

(** [profile === p] on an optional profile. *)
Definition profile_is (profile : option ImporterProfile) (p : ImporterProfile) : bool :=
  match profile with Some q => ImporterProfile_eqb q p | None => false end.

Inductive RemedyType : Type := AD | CVD.

(* ------------------------------------------------------------------ *)
(** * Multi-country engine: [src/services/simulation.service.ts] *)

Module Multi.

Inductive IscSystem : Type :=
| sys_none | sys_ad_valorem | sys_especifico | sys_publico | sys_mixed.

Inductive RemedyMode : Type := mode_ad_valorem | mode_specific.

Inductive RemedySource : Type := src_db | src_override.

Section Engine.
Context {num : Type} `{Number num}.

Record SimulationOverrides : Type := {
  adValoremRate : option num;
  antidumpingUsd : option num;
  countervailingUsd : option num;
  perceptionRate : option num;
  sdaUsd : option num
}.

(** [fxRate] is declared mandatory, yet the guard of [simulate] tests it:
    an absent rate is representable and is what the guard rejects. *)
Record SimulationInput : Type := {
  hs10 : string;
  originCountry : string;
  useFTA : option bool;
  currency : option string;
  fxRate : option num;
  cif : option num;
  fob : option num;
  freight : option num;
  insurance : option num;
  quantity : option num;
  quantityUnit : option string;
  isUsed : option bool;
  importerProfile : option ImporterProfile;
  alcoholDegree : option num
}.

(** One entry of [params.bands]; a field that is not a number is [None]. *)
Record Band : Type := {
  max_abv : option num;
  specific_per_l_pen : option num
}.

(** [iscRule.params]: [bands] is [None] when it is not an array. *)
Record IscParams : Type := { bands : option (list Band) }.

Record IscRule : Type := {
  system : IscSystem;
  adValRate : option num;
  specificAmount : option num;
  unit : option string;
  params : option IscParams
}.

Record TradeRemedy : Type := {
  tr_type : RemedyType;
  tr_mode : RemedyMode;
  rateOrAmount : num;
  tr_unit : option string
}.

Record Permit : Type := { authority : string; note : option string }.

Record AdminFees : Type := { uit : num; sdaRate : num; thresholdUIT : num }.

Record RuleProfile : Type := {
  tariffId : Z;
  prof_hs10 : string;
  description : string;
  mfnRate : num;
  ftaRate : option num;
  iscRule : option IscRule;
  vatExempt : bool;
  tradeRemedies : list TradeRemedy;
  permits : list Permit;
  adminFees : AdminFees
}.

Record Arancel : Type := {
  arancel_rate : num; arancel_base : num; arancel_amount : num
}.

Record AdValDetail : Type := { adv_rate : num; adv_base : num; adv_amount : num }.

Record SpecificDetail : Type := {
  sp_unit : string; sp_qty : num; sp_perUnit : num; sp_amount : num
}.

(** The [iscDetail] object: [mode] plus the breakdown fields that the
    taken branch assigns. *)
Record IscDetail : Type := {
  det_mode : string;
  det_ad_val : option AdValDetail;
  det_especifico : option SpecificDetail;
  det_specific : option SpecificDetail
}.

Record Isc : Type := { isc_mode : string; isc_details : IscDetail; isc_total : num }.

Record RemedyItem : Type := {
  item_type : RemedyType;
  item_mode : RemedyMode;
  item_amount : num;
  item_source : RemedySource
}.

Record TradeRemedies : Type := {
  tr_applied : bool; tr_items : list RemedyItem; tr_total : num
}.

Record Igv : Type := {
  igv_base : num; igv_igv16 : num; igv_ipm2 : num; igv_total : num;
  igv_rate : num; igv_amount : num; igv_exempt : bool
}.

Record Percepcion : Type := {
  perc_rate : num; perc_base : num; perc_amount : num; perc_rule : string
}.

Record Sda : Type := { sda_applies : bool; sda_amount : num }.

Record SimulationResult : Type := {
  cif_pen : num;
  arancel : Arancel;
  isc : Isc;
  trade_remedies : TradeRemedies;
  igv : Igv;
  percepcion : Percepcion;
  sda : Sda;
  deuda_aduanera : num;
  pago_en_frontera : num;
  notes : list string
}.

Definition round2 (n : num) : num :=
  div (math_round (mul (add n EPSILON) (of_Z 100))) (of_Z 100).

(** [params.bands.find(b => typeof b.max_abv === 'number' && deg <= b.max_abv)] *)
Definition band_matches (deg : num) (b : Band) : bool :=
  match max_abv b with Some m => leb deg m | None => false end.

Definition pickIscSpecificFromBands (params : option IscParams)
    (alcoholDegree : option num) : option num :=
  match params with
  | None => None
  | Some p =>
      match bands p with
      | None => None
      | Some bs =>
          let deg := nullish alcoholDegree zero in
          match find (band_matches deg) bs with
          | None => None
          | Some band => specific_per_l_pen band
          end
      end
  end.

Definition defaultPerception (profile : option ImporterProfile)
    (isUsed : option bool) : num * string :=
  if profile_is profile public || profile_is profile amazon
  then (zero, "Excluido por régimen especial"%string)
  else if profile_is profile first_import || profile_is profile no_habido
  then (dec 10 100, "Primera importación/No habido"%string)
  else if truthy_bool isUsed then (dec 5 100, "Bien usado"%string)
  else (dec 35 1000, "Régimen general"%string).

(** [overrides?.field] *)
Definition ov {A : Type} (overrides : option SimulationOverrides)
    (field : SimulationOverrides -> option A) : option A :=
  match overrides with Some o => field o | None => None end.

(** The customs value in USD, before the guard. *)
Definition cifUSD_of (input : SimulationInput) : num :=
  nullish (cif input)
    (add (add (nullish (fob input) zero) (nullish (freight input) zero))
         (nullish (insurance input) zero)).

(** The body of the loop over [prof.tradeRemedies]: the running total and
    the item list. *)
Definition remedy_step (cifPEN : num) (quantity : option num)
    (acc : num * list RemedyItem) (r : TradeRemedy) : num * list RemedyItem :=
  let '(adcvdTotal, adcvdItems) := acc in
  match tr_mode r with
  | mode_ad_valorem =>
      let amt := round2 (mul cifPEN (rateOrAmount r)) in
      (add adcvdTotal amt,
       adcvdItems ++ [{| item_type := tr_type r; item_mode := tr_mode r;
                         item_amount := amt; item_source := src_db |}])
  | mode_specific =>
      let qty := nullish quantity zero in
      let amt := round2 (mul qty (rateOrAmount r)) in
      (add adcvdTotal amt,
       adcvdItems ++ [{| item_type := tr_type r; item_mode := tr_mode r;
                         item_amount := amt; item_source := src_db |}])
  end.

(** [if (overrides?.xUsd && overrides.xUsd > 0) { ... }] *)
Definition remedy_override (ty : RemedyType) (usd : option num) (fx : num)
    (acc : num * list RemedyItem) : num * list RemedyItem :=
  let '(adcvdTotal, adcvdItems) := acc in
  match usd with
  | Some u =>
      if truthy u && gtb u zero then
        let amt := round2 (mul u fx) in
        (add adcvdTotal amt,
         adcvdItems ++ [{| item_type := ty; item_mode := mode_specific;
                           item_amount := amt; item_source := src_override |}])
      else acc
  | None => acc
  end.

Definition permit_note (p : Permit) : string :=
  ("Permiso: " ++ authority p ++
   match note p with
   | Some (String _ _ as s) => " - " ++ s
   | _ => ""
   end)%string.
(** The ISC stage: [(iscTotal, iscDetail)]. *)
Definition isc_stage (input : SimulationInput) (prof : RuleProfile)
    (cifPEN dArancel : num) : num * IscDetail :=
  let none_detail :=
    {| det_mode := "none"; det_ad_val := None; det_especifico := None;
       det_specific := None |} in
  match iscRule prof with
  | None => (zero, none_detail)
  | Some rule =>
      let baseISC := add cifPEN dArancel in
      match system rule with
      | sys_ad_valorem =>
          let rate := nullish (adValRate rule) zero in
          let amount := round2 (mul baseISC rate) in
          (amount,
           {| det_mode := "ad_valorem";
              det_ad_val := Some {| adv_rate := rate; adv_base := round2 baseISC;
                                    adv_amount := amount |};
              det_especifico := None; det_specific := None |})
      | sys_especifico =>
          let qty := nullish (quantity input) zero in
          let unit := match unit rule with Some u => u | None => "UN"%string end in
          let perUnit := nullish (specificAmount rule) zero in
          let amount := round2 (mul qty perUnit) in
          (amount,
           {| det_mode := "especifico"; det_ad_val := None;
              det_especifico := Some {| sp_unit := unit; sp_qty := qty;
                                        sp_perUnit := perUnit; sp_amount := amount |};
              det_specific := None |})
      | sys_mixed =>
          let qty := nullish (quantity input) zero in
          let unit := match unit rule with Some u => u | None => "UN"%string end in
          let bandPerUnit := pickIscSpecificFromBands (params rule) (alcoholDegree input) in
          let perUnit := nullish bandPerUnit (nullish (specificAmount rule) zero) in
          let espec := round2 (mul qty perUnit) in
          let adRate := nullish (adValRate rule) zero in
          let adv := round2 (mul (add cifPEN dArancel) adRate) in
          (add espec adv,
           {| det_mode := "mixed";
              det_ad_val := Some {| adv_rate := adRate;
                                    adv_base := round2 (add cifPEN dArancel);
                                    adv_amount := adv |};
              det_especifico := None;
              det_specific := Some {| sp_unit := unit; sp_qty := qty;
                                      sp_perUnit := perUnit; sp_amount := espec |} |})
      | sys_none | sys_publico => (zero, none_detail)
      end
  end.

(** Arancel: the applied ad-valorem rate and the note it leaves
    (preferencia TLC o override). *)
Definition duty_stage (input : SimulationInput) (prof : RuleProfile)
    (overrides : option SimulationOverrides) : num * list string :=
  let advalRate :=
    match ftaRate prof with
    | Some fta => if truthy_bool (useFTA input) then math_min (mfnRate prof) fta
                  else mfnRate prof
    | None => mfnRate prof
    end in
  match ov overrides adValoremRate with
  | Some a => (a, ["Arancel ad-valorem tomado de overrides."%string])
  | None =>
      match ftaRate prof with
      | Some fta =>
          if truthy_bool (useFTA input) && ltb fta (mfnRate prof)
          then (advalRate, ["Se aplicó preferencia arancelaria (TLC)."%string])
          else (advalRate, [])
      | None => (advalRate, [])
      end
  end.

(** AD/CVD: desde BD + overrides (USD -> PEN): [(adcvdTotal, adcvdItems)]. *)
Definition remedies_stage (input : SimulationInput) (prof : RuleProfile)
    (overrides : option SimulationOverrides) (cifPEN fx : num)
    : num * list RemedyItem :=
  let fromDb :=
    fold_left (remedy_step cifPEN (quantity input)) (tradeRemedies prof) (zero, []) in
  let withAd := remedy_override AD (ov overrides antidumpingUsd) fx fromDb in
  remedy_override CVD (ov overrides countervailingUsd) fx withAd.

(** SDA: si hay override, úsalo; si no, regla UIT: [(sdaApplies, sdaAmt)]. *)
Definition sda_stage (prof : RuleProfile) (overrides : option SimulationOverrides)
    (cifPEN fx : num) : bool * num :=
  match ov overrides sdaUsd with
  | Some s => (gtb s zero, round2 (mul s fx))
  | None =>
      let sdaApplies :=
        gtb cifPEN (mul (uit (adminFees prof)) (thresholdUIT (adminFees prof))) in
      (sdaApplies,
       if sdaApplies
       then round2 (mul (uit (adminFees prof)) (sdaRate (adminFees prof)))
       else zero)
  end.

(** Everything [simulate] does once the guard has passed, [cifUSD] and the
    exchange rate being at hand. *)
Definition simulate_body (input : SimulationInput) (prof : RuleProfile)
    (overrides : option SimulationOverrides) (cifUSD fx : num) : SimulationResult :=
  let cifPEN := round2 (mul cifUSD fx) in
  (* Arancel (preferencia TLC o override) *)
  let '(advalRate, notes1) := duty_stage input prof overrides in
  let dArancel := round2 (mul cifPEN advalRate) in
  (* ISC *)
  let '(iscTotal, iscDetail) := isc_stage input prof cifPEN dArancel in
  (* AD/CVD *)
  let '(adcvdTotal, adcvdItems) := remedies_stage input prof overrides cifPEN fx in
  (* IGV/IPM: base = CIF + Arancel + ISC (NO incluye AD/CVD) *)
  let igvBase := round2 (add (add cifPEN dArancel) iscTotal) in
  let igv16 := if vatExempt prof then zero else round2 (mul igvBase (dec 16 100)) in
  let ipm2 := if vatExempt prof then zero else round2 (mul igvBase (dec 2 100)) in
  let igvTot := round2 (add igv16 ipm2) in
  let notes2 :=
    if vatExempt prof
    then notes1 ++ ["Subpartida exonerada de IGV/IPM vigente."%string]
    else notes1 in
  (* Percepción: base = igvBase + IGV16 + IPM2 + AD + CVD *)
  let percDefault := defaultPerception (importerProfile input) (isUsed input) in
  let percRate := nullish (ov overrides perceptionRate) (fst percDefault) in
  let percRule :=
    match ov overrides perceptionRate with
    | Some _ => if strict_eqb percRate zero then "Percepción override: 0%"%string
                else "Percepción override"%string
    | None => snd percDefault
    end in
  let percepBase := round2 (add (add (add igvBase igv16) ipm2) adcvdTotal) in
  let percepAmt := round2 (mul percepBase percRate) in
  (* SDA *)
  let '(sdaApplies, sdaAmt) := sda_stage prof overrides cifPEN fx in
  (* Totales *)
  let deuda :=
    round2 (add (add (add (add dArancel iscTotal) igvTot) adcvdTotal) sdaAmt) in
  let pagoFrontera := round2 (add deuda percepAmt) in
  (* Notas permisos *)
  let notes3 := notes2 ++ map permit_note (permits prof) in
  {| cif_pen := cifPEN;
     arancel := {| arancel_rate := advalRate; arancel_base := cifPEN;
                   arancel_amount := dArancel |};
     isc := {| isc_mode := det_mode iscDetail; isc_details := iscDetail;
               isc_total := iscTotal |};
     trade_remedies := {| tr_applied := negb (Nat.eqb (length adcvdItems) 0);
                          tr_items := adcvdItems; tr_total := adcvdTotal |};
     igv := {| igv_base := igvBase; igv_igv16 := igv16; igv_ipm2 := ipm2;
               igv_total := igvTot; igv_rate := dec 18 100;
               igv_amount := igvTot; igv_exempt := vatExempt prof |};
     percepcion := {| perc_rate := percRate; perc_base := percepBase;
                      perc_amount := percepAmt; perc_rule := percRule |};
     sda := {| sda_applies := sdaApplies; sda_amount := sdaAmt |};
     deuda_aduanera := deuda;
     pago_en_frontera := pagoFrontera;
     notes := notes3 |}.

(** Simulación principal. *)
Definition simulate (input : SimulationInput) (prof : RuleProfile)
    (overrides : option SimulationOverrides) : outcome SimulationResult :=
  (* CIF en USD -> PEN *)
  let cifUSD := cifUSD_of input in
  match fxRate input with
  | Some fx =>
      if negb (truthy cifUSD) || negb (truthy fx)
      then Throw "CIF o (FOB/Flete/Seguro) y fxRate son obligatorios."
      else Ok (simulate_body input prof overrides cifUSD fx)
  | None => Throw "CIF o (FOB/Flete/Seguro) y fxRate son obligatorios."
  end.
End Engine.

Arguments SimulationOverrides : clear implicits.
Arguments SimulationInput : clear implicits.
Arguments Band : clear implicits.
Arguments IscParams : clear implicits.
Arguments IscRule : clear implicits.
Arguments TradeRemedy : clear implicits.
Arguments Permit : clear implicits.
Arguments AdminFees : clear implicits.
Arguments RuleProfile : clear implicits.
Arguments Arancel : clear implicits.
Arguments AdValDetail : clear implicits.
Arguments SpecificDetail : clear implicits.
Arguments IscDetail : clear implicits.
Arguments Isc : clear implicits.
Arguments RemedyItem : clear implicits.
Arguments TradeRemedies : clear implicits.
Arguments Igv : clear implicits.
Arguments Percepcion : clear implicits.
Arguments Sda : clear implicits.
Arguments SimulationResult : clear implicits.
End Multi.

(* ------------------------------------------------------------------ *)
(** * USD-only engine: the second [simulate] (todo en USD) *)

Module Usd.

Section Engine.
Context {num : Type} `{Number num}.

Record SimulationOverrides : Type := {
  igvEnabled : bool;
  iscEnabled : bool;
  perceptionEnabled : bool;
  iscRate : option num;
  antidumpingUsd : option num;
  countervailingUsd : option num;
  perceptionRate : option num;
  sdaUsd : option num
}.

Record SimulationInput : Type := {
  hs10 : string;
  fxRate : option num;
  cif : option num;
  fob : option num;
  freight : option num;
  insurance : option num;
  importerProfile : option ImporterProfile;
  isUsed : option bool
}.

Record RuleProfile : Type := {
  prof_hs10 : string;
  description : string;
  adValoremRate : num;
  igvRate : num;
  ipmRate : num
}.

(** The [details] text of the ISC stage; the one built by a template
    literal keeps the interpolated rate. *)
Inductive IscDetails : Type :=
| isc_tasa (rate : num)          (* `ISC % sobre (CIF + A/V), tasa=${rate}` *)
| isc_text (text : string).

Record Arancel : Type := {
  arancel_rate : num; arancel_base : num; arancel_amount : num
}.

Record Isc : Type := { isc_applied : bool; isc_total : num; isc_details : IscDetails }.

Record RemedyItem : Type := { item_type : RemedyType; item_amount : num }.

Record TradeRemedies : Type := {
  tr_applied : bool; tr_items : list RemedyItem; tr_total : num
}.

Record Igv : Type := {
  igv_applied : bool; igv_exempt : bool; igv_base : num; igv_igv16 : num;
  igv_ipm2 : num; igv_total : num; igv_details : string
}.

Record Percepcion : Type := {
  perc_applied : bool; perc_rate : num; perc_base : num; perc_amount : num;
  perc_rule : string
}.

Record Sda : Type := { sda_applied : bool; sda_amount : num }.

Record SimulationResult : Type := {
  cif_pen : num;                   (* ahora representa USD *)
  arancel : Arancel;
  isc : Isc;
  trade_remedies : TradeRemedies;
  igv : Igv;
  percepcion : Percepcion;
  sda : Sda;
  deuda_aduanera : num;
  pago_en_frontera : num;
  notes : list string
}.

Definition r2 (n : num) : num :=
  div (math_round (mul (add n EPSILON) (of_Z 100))) (of_Z 100).

(** The customs value in USD, before the guard. *)
Definition cifUsd_of (input : SimulationInput) : num :=
  nullish (cif input)
    (add (add (nullish (fob input) zero) (nullish (freight input) zero))
         (nullish (insurance input) zero)).

(** [if (o.xUsd) { const a = r2(o.xUsd); remediesTotal += a; items.push(..) }] *)
Definition remedy_override (ty : RemedyType) (usd : option num)
    (acc : num * list RemedyItem) : num * list RemedyItem :=
  let '(remediesTotal, items) := acc in
  match usd with
  | Some u =>
      if truthy u then
        let a := r2 u in
        (add remediesTotal a, items ++ [{| item_type := ty; item_amount := a |}])
      else acc
  | None => acc
  end.

(** The inline [defPerc] closure. *)
Definition defPerc (input : SimulationInput) : num * string :=
  if profile_is (importerProfile input) public
     || profile_is (importerProfile input) amazon
  then (zero, "Excluido por régimen especial"%string)
  else if profile_is (importerProfile input) first_import
          || profile_is (importerProfile input) no_habido
  then (dec 10 100, "Primera importación/No habido"%string)
  else if truthy_bool (isUsed input) then (dec 5 100, "Bien usado"%string)
  else (dec 35 1000, "Régimen general"%string).

(** 3) ISC (solo si iscEnabled === true): [(iscApplied, iscTotal, iscDetails)]. *)
Definition isc_stage (o : SimulationOverrides) (cifBase avAmt : num)
    : bool * num * IscDetails :=
  if iscEnabled o then
    let rate := nullish (iscRate o) zero in
    let baseIsc := r2 (add cifBase avAmt) in
    (gtb rate zero, r2 (mul baseIsc rate), isc_tasa rate)
  else (false, zero, isc_text "Deshabilitado por el usuario").

(** 5) Remedios comerciales (AD/CVD): [(remediesTotal, items)]. *)
Definition remedies_stage (o : SimulationOverrides) : num * list RemedyItem :=
  remedy_override CVD (countervailingUsd o)
    (remedy_override AD (antidumpingUsd o) (zero, [])).

(** 6) Percepción (independiente de IGV):
    [(percRate, percRule, percBase, percAmt, percApplied)]. *)
Definition perception_stage (input : SimulationInput) (o : SimulationOverrides)
    (igvBase igv16 ipm2 remediesTotal : num) : num * string * num * num * bool :=
  if perceptionEnabled o then
    let percRate := nullish (perceptionRate o) (fst (defPerc input)) in
    let percRule :=
      match perceptionRate o with
      | Some _ => "Override de percepción"%string
      | None => snd (defPerc input)
      end in
    let percBase := r2 (add (add (add igvBase igv16) ipm2) remediesTotal) in
    (percRate, percRule, percBase, r2 (mul percBase percRate), gtb percRate zero)
  else (zero, "Deshabilitado por el usuario"%string, zero, zero, false).

(** Everything [simulate] does once the guard has passed. *)
Definition simulate_body (input : SimulationInput) (prof : RuleProfile)
    (o : SimulationOverrides) (cifUsd : num) : SimulationResult :=
  let cifBase := r2 cifUsd in
  (* 2) Arancel A/V *)
  let avRate := if truthy (adValoremRate prof) then adValoremRate prof else zero in
  let avAmt := r2 (mul cifBase avRate) in
  (* 3) ISC *)
  let '(iscApplied, iscTotal, iscDetails) := isc_stage o cifBase avAmt in
  (* 4) IGV + IPM (solo si igvEnabled === true) *)
  let igvApplies := igvEnabled o in
  let igvBase := r2 (add (add cifBase avAmt) iscTotal) in
  let igv16 := if igvApplies then r2 (mul igvBase (igvRate prof)) else zero in
  let ipm2 := if igvApplies then r2 (mul igvBase (ipmRate prof)) else zero in
  let igvTot := r2 (add igv16 ipm2) in
  let igvDetails :=
    if igvApplies then "Habilitado"%string
    else "Deshabilitado por el usuario"%string in
  let notes :=
    if igvApplies then [] else ["IGV/IPM deshabilitado por el usuario."%string] in
  (* 5) Remedios comerciales (AD/CVD) *)
  let '(remediesTotal, items) := remedies_stage o in
  (* 6) Percepción *)
  let '(percRate, percRule, percBase, percAmt, percApplied) :=
    perception_stage input o igvBase igv16 ipm2 remediesTotal in
  (* 7) SDA *)
  let sdaApplied := match sdaUsd o with Some s => gtb s zero | None => false end in
  let sdaAmt := if sdaApplied then r2 (nullish (sdaUsd o) zero) else zero in
  (* Totales (USD) *)
  let deuda :=
    r2 (add (add (add (add avAmt iscTotal) igvTot) remediesTotal) sdaAmt) in
  let pagoFrontera := r2 (add deuda percAmt) in
  {| cif_pen := cifBase;
     arancel := {| arancel_rate := avRate; arancel_base := cifBase;
                   arancel_amount := avAmt |};
     isc := {| isc_applied := iscApplied; isc_total := iscTotal;
               isc_details := iscDetails |};
     trade_remedies := {| tr_applied := negb (Nat.eqb (length items) 0);
                          tr_items := items; tr_total := remediesTotal |};
     igv := {| igv_applied := igvApplies; igv_exempt := false;
               igv_base := igvBase; igv_igv16 := igv16; igv_ipm2 := ipm2;
               igv_total := igvTot; igv_details := igvDetails |};
     percepcion := {| perc_applied := percApplied; perc_rate := percRate;
                      perc_base := percBase; perc_amount := percAmt;
                      perc_rule := percRule |};
     sda := {| sda_applied := sdaApplied; sda_amount := sdaAmt |};
     deuda_aduanera := deuda;
     pago_en_frontera := pagoFrontera;
     notes := notes |}.

(** Simulación (todo en USD). *)
Definition simulate (input : SimulationInput) (prof : RuleProfile)
    (o : SimulationOverrides) : outcome SimulationResult :=
  (* 1) CIF en USD (no pedimos tipo de cambio) *)
  let cifUsd := cifUsd_of input in
  if negb (truthy cifUsd) then Throw "Debes enviar CIF o (FOB+Flete+Seguro)."
  else Ok (simulate_body input prof o cifUsd).
End Engine.

Arguments SimulationOverrides : clear implicits.
Arguments SimulationInput : clear implicits.
Arguments RuleProfile : clear implicits.
Arguments IscDetails : clear implicits.
Arguments Arancel : clear implicits.
Arguments Isc : clear implicits.
Arguments RemedyItem : clear implicits.
Arguments TradeRemedies : clear implicits.
Arguments Igv : clear implicits.
Arguments Percepcion : clear implicits.
Arguments Sda : clear implicits.
Arguments SimulationResult : clear implicits.
End Usd.

(* ------------------------------------------------------------------ *)
(** * Profitability aggregator: [services/analisis.service.ts] *)

Module Analisis.

Section Aggregator.
Context {num : Type} `{Number num}.

Record ImportacionDetalle : Type := { valor_cif : num; dta_total : num }.

Record ExportacionDetalle : Type := { valor_venta : num; exp_moneda : string }.

Record GastoDetalle : Type := { monto : num; moneda : string }.

Record GastosPorClasificacion : Type := {
  operativos : list GastoDetalle;
  administrativos : list GastoDetalle;
  ventas : list GastoDetalle;
  financieros : list GastoDetalle
}.

Record UtilidadBruta : Type := {
  ventas_totales : num;
  costo_adquisicion : num;
  utilidad_bruta : num;
  margen_bruto_porcentaje : num
}.

Record UtilidadOperativa : Type := {
  uo_utilidad_bruta : num;
  gastos_operativos : num;
  utilidad_operativa : num;
  margen_operativo_porcentaje : num
}.

Record UtilidadNeta : Type := {
  un_utilidad_operativa : num;
  gastos_administrativos : num;
  gastos_ventas : num;
  gastos_financieros : num;
  total_otros_gastos : num;
  utilidad_neta : num;
  margen_neto_porcentaje : num
}.

(** [parseFloat(x.toString()) || 0] on a number. *)
Definition parse_or_zero (x : num) : num := if truthy x then x else zero.

(** [moneda === 'USD' ? v : v / 3.75] *)
Definition to_usd (moneda : string) (v : num) : num :=
  if String.eqb moneda "USD" then v else div v (dec 375 100).

Definition calcularUtilidadBruta (exportaciones : list ExportacionDetalle)
    (importaciones : list ImportacionDetalle) : UtilidadBruta :=
  let ventasTotales :=
    fold_left (fun total exp =>
                 let valorVenta := parse_or_zero (valor_venta exp) in
                 add total (to_usd (exp_moneda exp) valorVenta))
              exportaciones zero in
  let costoAdquisicion :=
    fold_left (fun total imp =>
                 let valorCif := parse_or_zero (valor_cif imp) in
                 let dtaTotal := parse_or_zero (dta_total imp) in
                 add (add total valorCif) dtaTotal)
              importaciones zero in
  let utilidadBruta := sub ventasTotales costoAdquisicion in
  let margenBrutoPorcentaje :=
    if gtb ventasTotales zero
    then mul (div utilidadBruta ventasTotales) (of_Z 100)
    else zero in
  {| ventas_totales := to_fixed2 ventasTotales;
     costo_adquisicion := to_fixed2 costoAdquisicion;
     utilidad_bruta := to_fixed2 utilidadBruta;
     margen_bruto_porcentaje := to_fixed2 margenBrutoPorcentaje |}.

Definition calcularUtilidadOperativa (utilidadBruta : UtilidadBruta)
    (gastosOperativos : list GastoDetalle) : UtilidadOperativa :=
  let gastosOperativosTotal :=
    fold_left (fun total gasto => add total (to_usd (moneda gasto) (monto gasto)))
              gastosOperativos zero in
  let utilidadOperativa := sub (utilidad_bruta utilidadBruta) gastosOperativosTotal in
  let margenOperativoPorcentaje :=
    if gtb (ventas_totales utilidadBruta) zero
    then mul (div utilidadOperativa (ventas_totales utilidadBruta)) (of_Z 100)
    else zero in
  {| uo_utilidad_bruta := utilidad_bruta utilidadBruta;
     gastos_operativos := to_fixed2 gastosOperativosTotal;
     utilidad_operativa := to_fixed2 utilidadOperativa;
     margen_operativo_porcentaje := to_fixed2 margenOperativoPorcentaje |}.

Definition sumarGastos (gastos : list GastoDetalle) : num :=
  fold_left (fun total gasto =>
               let monto := parse_or_zero (monto gasto) in
               add total (to_usd (moneda gasto) monto))
            gastos zero.

Definition calcularUtilidadNeta (utilidadOperativa : UtilidadOperativa)
    (gastos : GastosPorClasificacion) : UtilidadNeta :=
  let gastosAdministrativos := sumarGastos (administrativos gastos) in
  let gastosVentas := sumarGastos (ventas gastos) in
  let gastosFinancieros := sumarGastos (financieros gastos) in
  let totalOtrosGastos := add (add gastosAdministrativos gastosVentas) gastosFinancieros in
  let utilidadNeta := sub (utilidad_operativa utilidadOperativa) totalOtrosGastos in
  (* Para calcular el margen neto, necesitamos las ventas totales *)
  let ventasTotales :=
    add (uo_utilidad_bruta utilidadOperativa) (gastos_operativos utilidadOperativa) in
  let margenNetoPorcentaje :=
    if gtb ventasTotales zero
    then mul (div utilidadNeta ventasTotales) (of_Z 100)
    else zero in
  {| un_utilidad_operativa := utilidad_operativa utilidadOperativa;
     gastos_administrativos := to_fixed2 gastosAdministrativos;
     gastos_ventas := to_fixed2 gastosVentas;
     gastos_financieros := to_fixed2 gastosFinancieros;
     total_otros_gastos := to_fixed2 totalOtrosGastos;
     utilidad_neta := to_fixed2 utilidadNeta;
     margen_neto_porcentaje := to_fixed2 margenNetoPorcentaje |}.

(** The three profit figures as [obtenerAnalisisRentabilidad] chains them,
    from the rows it has fetched. *)
Definition calcularUtilidades (importaciones : list ImportacionDetalle)
    (exportaciones : list ExportacionDetalle) (gastos : GastosPorClasificacion)
    : UtilidadBruta * UtilidadOperativa * UtilidadNeta :=
  let utilidadBruta := calcularUtilidadBruta exportaciones importaciones in
  let utilidadOperativa := calcularUtilidadOperativa utilidadBruta (operativos gastos) in
  let utilidadNeta := calcularUtilidadNeta utilidadOperativa gastos in
  (utilidadBruta, utilidadOperativa, utilidadNeta).
End Aggregator.

Arguments ImportacionDetalle : clear implicits.
Arguments ExportacionDetalle : clear implicits.
Arguments GastoDetalle : clear implicits.
Arguments GastosPorClasificacion : clear implicits.
Arguments UtilidadBruta : clear implicits.
Arguments UtilidadOperativa : clear implicits.
Arguments UtilidadNeta : clear implicits.
End Analisis.

(* ------------------------------------------------------------------ *)
(** * Further JavaScript helpers *)

Section JsMore.
Context {num : Type} `{Number num}.

(** [a || 0] on an optional number: [undefined], [0] and NaN give 0. *)
Definition or_default_zero (a : option num) : num :=
  match a with
  | Some x => if truthy x then x else zero
  | None => zero
  end.

(** [x || 0] on a number. *)
Definition num_or_zero (x : num) : num := if truthy x then x else zero.

(** ToBoolean on an optional number: [undefined] is falsy. *)
Definition truthy_opt (a : option num) : bool :=
  match a with Some x => truthy x | None => false end.

(** [isFinite(a)]: a - a is 0 except for the infinities and NaN. *)
Definition is_finite (a : num) : bool := strict_eqb (sub a a) zero.

(** [Math.max(a, b)]: NaN if either is NaN, else the larger. *)
Definition math_max (a b : num) : num :=
  if negb (leb a a) then a
  else if negb (leb b b) then b
  else if ltb a b then b else a.
End JsMore.

(** ASCII lower-casing of one character.  On the UTF-8 bytes of a string
    this agrees with [toLowerCase] wherever the result is compared with an
    ASCII word without the letter k: no other character lower-cases to an
    ASCII letter. *)
Definition lower_ascii (c : Ascii.ascii) : Ascii.ascii :=
  let n := Ascii.nat_of_ascii c in
  if (Nat.leb 65 n && Nat.leb n 90)%bool then Ascii.ascii_of_nat (n + 32) else c.

Fixpoint toLowerCase (s : string) : string :=
  match s with
  | EmptyString => EmptyString
  | String c rest => String (lower_ascii c) (toLowerCase rest)
  end.

(** [\d] on one character. *)
Definition is_digit (c : Ascii.ascii) : bool :=
  let n := Ascii.nat_of_ascii c in (Nat.leb 48 n && Nat.leb n 57)%bool.

(** [s.replace(/\D/g, '')]: the [normalizeHS] and [hs] helpers of the
    simulation routes, also the first line of both [loadRuleProfile]. *)
Fixpoint normalizeHS (s : string) : string :=
  match s with
  | EmptyString => EmptyString
  | String c rest =>
      if is_digit c then String c (normalizeHS rest) else normalizeHS rest
  end.

(* ------------------------------------------------------------------ *)
(** * Persisted import: [ImportacionService.calcularImportacion] *)

Module Importacion.

Section Calculo.
Context {num : Type} `{Number num}.

(** The fields of [data] that the calculation reads. *)
Record ImportacionInputData : Type := {
  descripcion_mercancia : string;
  valor_fob : num;
  valor_flete : num;
  valor_seguro : num;
  habilitar_igv : bool;
  habilitar_isc : bool;
  habilitar_percepcion : bool;
  ad_valorem_tasa_manual : option num;
  isc_tasa_ingresada : option num;
  percepcion_tasa_ingresada : option num
}.

Record TasasImpuestos : Type := { igv : num; ipm : num }.

Record TributoDB : Type := {
  concepto : string;
  base_imponible : num;
  tasa_aplicada : num;
  monto_calculado : num
}.

Record AsientoLinea : Type := {
  cuenta : string;
  nombre_cuenta : string;
  debe : num;
  haber : num;
  glosa : string
}.

Record ImportacionCalculada : Type := {
  valor_cif : num;
  monto_ad_valorem : num;
  monto_isc : num;
  monto_igv : num;
  monto_ipm : num;
  monto_percepcion : num;
  dta_total : num;
  tributos : list TributoDB;
  asiento_contable : list AsientoLinea
}.

(** [if (monto > 0) tributos.push({...})] *)
Definition push_tributo (tributos : list TributoDB) (concepto : string)
    (base tasa monto : num) : list TributoDB :=
  if gtb monto zero
  then tributos ++ [{| concepto := concepto; base_imponible := base;
                       tasa_aplicada := tasa; monto_calculado := monto |}]
  else tributos.

Definition calcularImportacion (data : ImportacionInputData)
    (tasasImpuestos : TasasImpuestos) : ImportacionCalculada :=
  (* 1. Base Imponible (CIF) *)
  let valorCIF := add (add (valor_fob data) (valor_flete data)) (valor_seguro data) in
  (* 2. Ad Valorem *)
  let tasaAdValorem := or_default_zero (ad_valorem_tasa_manual data) in
  let montoAdValorem := mul valorCIF tasaAdValorem in
  (* 3. ISC *)
  let baseISC := add valorCIF montoAdValorem in
  let montoISC :=
    if habilitar_isc data
    then mul baseISC (or_default_zero (isc_tasa_ingresada data)) else zero in
  (* 4. IGV / IPM *)
  let baseIGV := add (add valorCIF montoAdValorem) montoISC in
  let montoIGV := if habilitar_igv data then mul baseIGV (igv tasasImpuestos) else zero in
  let montoIPM := if habilitar_igv data then mul baseIGV (ipm tasasImpuestos) else zero in
  (* 5. Percepciones *)
  let basePercepcion :=
    add (add (add (add valorCIF montoAdValorem) montoISC) montoIGV) montoIPM in
  let tasaPercepcion := or_default_zero (percepcion_tasa_ingresada data) in
  let montoPercepcion :=
    if habilitar_percepcion data then mul basePercepcion tasaPercepcion else zero in
  (* 6. Deuda Tributaria Aduanera (DTA): la percepción NO es parte de la DTA *)
  let dtaTotal := add (add (add montoAdValorem montoISC) montoIGV) montoIPM in
  (* 7. Tributos *)
  let t1 := push_tributo [] "ad_valorem" valorCIF tasaAdValorem montoAdValorem in
  let t2 := push_tributo t1 "isc" baseISC
              (or_default_zero (isc_tasa_ingresada data)) montoISC in
  let t3 := push_tributo t2 "igv" baseIGV (igv tasasImpuestos) montoIGV in
  let t4 := push_tributo t3 "ipm" baseIGV (ipm tasasImpuestos) montoIPM in
  let tributos :=
    push_tributo t4 "percepcion" basePercepcion tasaPercepcion montoPercepcion in
  (* 8. Asiento contable básico *)
  let totalDesembolsado := add dtaTotal montoPercepcion in
  let asientoContable :=
    [ {| cuenta := "601"; nombre_cuenta := "Mercaderías"; debe := valorCIF;
         haber := zero;
         glosa := ("Importación - " ++ descripcion_mercancia data)%string |};
      {| cuenta := "40111"; nombre_cuenta := "IGV - Cuenta Propia";
         debe := add montoIGV montoIPM; haber := zero;
         glosa := "Tributos de Importación" |};
      {| cuenta := "60912"; nombre_cuenta := "Derechos Aduaneros";
         debe := montoAdValorem; haber := zero;
         glosa := "Tributos de Importación" |};
      {| cuenta := "40113"; nombre_cuenta := "IGV - Percepciones por Pagar";
         debe := montoPercepcion; haber := zero;
         glosa := "Tributos de Importación" |};
      {| cuenta := "4212"; nombre_cuenta := "Facturas por Pagar - Exterior";
         debe := zero; haber := totalDesembolsado;
         glosa := "Total a Pagar por Importación" |} ] in
  {| valor_cif := valorCIF;
     monto_ad_valorem := montoAdValorem;
     monto_isc := montoISC;
     monto_igv := montoIGV;
     monto_ipm := montoIPM;
     monto_percepcion := montoPercepcion;
     dta_total := dtaTotal;
     tributos := tributos;
     asiento_contable := asientoContable |}.
End Calculo.

Arguments ImportacionInputData : clear implicits.
Arguments TasasImpuestos : clear implicits.
Arguments TributoDB : clear implicits.
Arguments AsientoLinea : clear implicits.
Arguments ImportacionCalculada : clear implicits.
End Importacion.

(* ------------------------------------------------------------------ *)
(** * The simulation routes: what the handlers do around [simulate] *)

Module Routes.

(** [perfil_importador] of the USD form, a [z.enum]. *)
Inductive PerfilImportador : Type :=
| perfil_normal | perfil_primera_importacion | perfil_no_habido
| perfil_publico | perfil_amazonia.

Definition perfilMap (p : PerfilImportador) : ImporterProfile :=
  match p with
  | perfil_normal => normal
  | perfil_primera_importacion => first_import
  | perfil_no_habido => no_habido
  | perfil_publico => public
  | perfil_amazonia => amazon
  end.

(** What a handler sends back. *)
Inductive respuesta (A : Type) : Type :=
| status_200 (body : A)
| status_400 (message : string).
Arguments status_200 {A} body.
Arguments status_400 {A} message.

(** The double-quote character, for the messages that quote an example. *)
Definition comilla : string := String (Ascii.ascii_of_nat 34) EmptyString.

Definition mensaje_isc_porcentaje : string :=
  ("isc_porcentaje debe ser un porcentaje válido (ej. 50, 0.5 o "
   ++ comilla ++ "50%" ++ comilla ++ ").")%string.

Definition mensaje_percepcion_tasa : string :=
  ("percepcion_tasa debe ser un porcentaje válido (ej. 3.5, 0.035 o "
   ++ comilla ++ "3.5%" ++ comilla ++ ").")%string.

Section Handlers.
Context {num : Type} `{Number num}.

(** The [overrides] object of the multi-country form route: built only
    when some [override_*] field is truthy. *)
Definition formOverrides
    (override_adValoremRate override_antidumpingUsd override_countervailingUsd
     override_perceptionRate override_sdaUsd : option num)
    : option (Multi.SimulationOverrides num) :=
  if truthy_opt override_adValoremRate
     || truthy_opt override_antidumpingUsd
     || truthy_opt override_countervailingUsd
     || truthy_opt override_perceptionRate
     || truthy_opt override_sdaUsd
  then Some {| Multi.adValoremRate := override_adValoremRate;
               Multi.antidumpingUsd := override_antidumpingUsd;
               Multi.countervailingUsd := override_countervailingUsd;
               Multi.perceptionRate := override_perceptionRate;
               Multi.sdaUsd := override_sdaUsd |}
  else None.

(** [parsePercent] from [const n = Number(s)] on: [input] is [None] for an
    undefined, null or blank field, else the number the text denotes once
    ['%'] is dropped and [','] read as ['.'].
    50 -> 0.5 ; 0.5 -> 0.5 *)
Definition parsePercent (input : option num) : option num :=
  match input with
  | None => None
  | Some n =>
      if negb (is_finite n) || ltb n zero then None
      else Some (if gtb n (of_Z 1) then div n (of_Z 100) else n)
  end.

(** The validated body of the USD form. *)
Record QuoteForm : Type := {
  subpartida : string;
  fob : num;
  flete : num;
  seguro : num;
  perfil_importador : option PerfilImportador;
  es_usado : option bool;
  habilitar_igv : bool;
  habilitar_isc : bool;
  habilitar_percepcion : bool;
  isc_porcentaje : option num;
  percepcion_tasa : option num;
  antidumping_usd : option num;
  compensatorio_usd : option num;
  sda_usd : option num;
  generar_asiento : bool
}.

Record Cuenta : Type := { codigo : string; nombre : string }.

Record Linea : Type := {
  cuenta : string; denominacion : string; debe : num; haber : num
}.

Record Asiento : Type := {
  moneda : string;
  lineas : list Linea;
  debe_total : num;
  haber_total : num
}.

(** [new Map(rows.map(r => [r.codigo, r.nombre])).get(cod)]: the last row
    with that code wins. *)
Definition mapStd_get (rows : list Cuenta) (cod : string) : option string :=
  fold_left (fun found r => if String.eqb (codigo r) cod then Some (nombre r) else found)
            rows None.

(** The accounting entry previewed by the USD form, from the simulation
    result and the account rows read from the database. *)
Definition asientoPreview (bienesRows stdRows : list Cuenta) (cifUsd : num)
    (result : Usd.SimulationResult num) : Asiento :=
  let cuentaBienes :=
    match bienesRows with
    | row :: _ => row
    | [] => {| codigo := "601"; nombre := "Mercaderías" |}
    end in
  let nombre_de (cod def : string) : string :=
    match mapStd_get stdRows cod with Some n => n | None => def end in
  let account_of (cod def : string) (debe : num) : Linea :=
    {| cuenta := cod; denominacion := nombre_de cod def; debe := debe;
       haber := zero |} in
  (* 3) Montos (USD) desde la simulación *)
  let cifUsdx := Usd.r2 cifUsd in
  let avAmtUsd := Usd.r2 (num_or_zero (Usd.arancel_amount (Usd.arancel result))) in
  let iscAmtUsd := Usd.r2 (num_or_zero (Usd.isc_total (Usd.isc result))) in
  let igvTotUsd :=
    Usd.r2 (add (num_or_zero (Usd.igv_igv16 (Usd.igv result)))
                (num_or_zero (Usd.igv_ipm2 (Usd.igv result)))) in
  let remediosUsd := Usd.r2 (num_or_zero (Usd.tr_total (Usd.trade_remedies result))) in
  let sdaAmtUsd := Usd.r2 (num_or_zero (Usd.sda_amount (Usd.sda result))) in
  let costosVinc := Usd.r2 (add remediosUsd sdaAmtUsd) in
  let percepUsd := Usd.r2 (num_or_zero (Usd.perc_amount (Usd.percepcion result))) in
  (* 4) Líneas (todas en DEBE excepto 421) *)
  let lineas :=
    [ {| cuenta := codigo cuentaBienes; denominacion := nombre cuentaBienes;
         debe := cifUsdx; haber := zero |};
      account_of "4015"%string "Derechos aduaneros"%string avAmtUsd;
      account_of "4012"%string "Impuesto Selectivo al Consumo"%string iscAmtUsd;
      account_of "40111"%string "IGV – Cuenta propia"%string igvTotUsd;
      account_of "609"%string "Costos vinculados con las compras"%string costosVinc;
      account_of "40113"%string "IGV – Régimen de percepciones"%string percepUsd ] in
  (* 5) Totales y contrapartida 421 *)
  let debeTotal := Usd.r2 (fold_left (fun s l => add s (debe l)) lineas zero) in
  let haberTotal := debeTotal in
  {| moneda := "USD";
     lineas :=
       lineas ++
       [ {| cuenta := "421";
            denominacion :=
              nombre_de "421"%string
                "Facturas, boletas y otros comprobantes por pagar"%string;
            debe := zero; haber := haberTotal |} ];
     debe_total := debeTotal;
     haber_total := haberTotal |}.

(** [iscRate !== undefined && (iscRate < 0 || iscRate > 1)] *)
Definition fuera_de_rango (rate : option num) : bool :=
  match rate with
  | Some r => ltb r zero || gtb r (of_Z 1)
  | None => false
  end.

(** The operation that [POST /quote-form] hands to [simulate]. *)
Definition quoteFormInput (f : QuoteForm) (cifUsd : num) : Usd.SimulationInput num :=
  {| Usd.hs10 := normalizeHS (subpartida f);
     Usd.fxRate := None;
     Usd.cif := Some cifUsd;
     Usd.fob := None; Usd.freight := None; Usd.insurance := None;
     Usd.importerProfile := option_map perfilMap (perfil_importador f);
     Usd.isUsed := es_usado f |}.

(** The overrides that [POST /quote-form] hands to [simulate]. *)
Definition quoteFormOverrides (f : QuoteForm) (iscRate percRate : option num)
    : Usd.SimulationOverrides num :=
  {| Usd.igvEnabled := habilitar_igv f;
     Usd.iscEnabled := habilitar_isc f;
     Usd.perceptionEnabled := habilitar_percepcion f;
     Usd.iscRate := iscRate;
     Usd.antidumpingUsd := antidumping_usd f;
     Usd.countervailingUsd := compensatorio_usd f;
     Usd.perceptionRate := percRate;
     Usd.sdaUsd := sda_usd f |}.

(** The body of [POST /quote-form] (USD), the database reads being given:
    [perfil] is what [loadRuleProfile] returned or threw. *)
Definition quoteForm (f : QuoteForm) (perfil : outcome (Usd.RuleProfile num))
    (bienesRows stdRows : list Cuenta)
    : respuesta (Usd.SimulationResult num * option Asiento) :=
  (* % (se ignoran si su toggle está en false) *)
  let iscRate := if habilitar_isc f then parsePercent (isc_porcentaje f) else None in
  if fuera_de_rango iscRate then status_400 mensaje_isc_porcentaje
  else
  let percRate :=
    if habilitar_percepcion f then parsePercent (percepcion_tasa f) else None in
  if fuera_de_rango percRate then status_400 mensaje_percepcion_tasa
  else
  match perfil with
  | Throw message => status_400 message
  | Ok perfil =>
      let cifUsd := add (add (fob f) (flete f)) (seguro f) in
      match Usd.simulate (quoteFormInput f cifUsd) perfil
              (quoteFormOverrides f iscRate percRate) with
      | Throw message => status_400 message
      | Ok result =>
          if negb (generar_asiento f) then status_200 (result, None)
          else status_200 (result, Some (asientoPreview bienesRows stdRows cifUsd result))
      end
  end.
End Handlers.

Arguments QuoteForm : clear implicits.
Arguments Linea : clear implicits.
Arguments Asiento : clear implicits.
End Routes.

(* ------------------------------------------------------------------ *)
(** * The rest of [AnalisisService] *)

Module Rentabilidad.

Section Servicio.
Context {num : Type} `{Number num}.

(** A row of [obtenerGastosPorClasificacion]: the expense and the name of
    its classification. *)
Record GastoFila : Type := {
  clasificacion_nombre : string;
  detalle : Analisis.GastoDetalle num
}.

(** One turn of [gastos.forEach(gasto => { switch (...) {...} })]. *)
Definition agrupar_paso (g : Analisis.GastosPorClasificacion num) (gasto : GastoFila)
    : Analisis.GastosPorClasificacion num :=
  let nombre := toLowerCase (clasificacion_nombre gasto) in
  if String.eqb nombre "operativo" then
    {| Analisis.operativos := Analisis.operativos g ++ [detalle gasto];
       Analisis.administrativos := Analisis.administrativos g;
       Analisis.ventas := Analisis.ventas g;
       Analisis.financieros := Analisis.financieros g |}
  else if String.eqb nombre "administrativo" then
    {| Analisis.operativos := Analisis.operativos g;
       Analisis.administrativos := Analisis.administrativos g ++ [detalle gasto];
       Analisis.ventas := Analisis.ventas g;
       Analisis.financieros := Analisis.financieros g |}
  else if String.eqb nombre "ventas" then
    {| Analisis.operativos := Analisis.operativos g;
       Analisis.administrativos := Analisis.administrativos g;
       Analisis.ventas := Analisis.ventas g ++ [detalle gasto];
       Analisis.financieros := Analisis.financieros g |}
  else if String.eqb nombre "financiero" then
    {| Analisis.operativos := Analisis.operativos g;
       Analisis.administrativos := Analisis.administrativos g;
       Analisis.ventas := Analisis.ventas g;
       Analisis.financieros := Analisis.financieros g ++ [detalle gasto] |}
  else g.

(** The grouping done by [obtenerGastosPorClasificacion] on its rows. *)
Definition agruparGastos (gastos : list GastoFila) : Analisis.GastosPorClasificacion num :=
  fold_left agrupar_paso gastos
    {| Analisis.operativos := []; Analisis.administrativos := [];
       Analisis.ventas := []; Analisis.financieros := [] |}.

Record ResumenMonedas : Type := {
  total_usd : num;
  total_pen : num;
  tipo_cambio_sugerido : num
}.

(** [if (moneda === 'USD') totalUSD += v; else totalPEN += v;] *)
Definition sumar_por_moneda (moneda : string) (v : num) (tot : num * num) : num * num :=
  if String.eqb moneda "USD" then (add (fst tot) v, snd tot)
  else (fst tot, add (snd tot) v).

Definition calcularResumenMonedas (importaciones : list (Analisis.ImportacionDetalle num))
    (exportaciones : list (Analisis.ExportacionDetalle num))
    (gastos : Analisis.GastosPorClasificacion num) : ResumenMonedas :=
  (* Sumar exportaciones *)
  let t1 :=
    fold_left (fun tot exp =>
                 sumar_por_moneda (Analisis.exp_moneda exp)
                   (Analisis.parse_or_zero (Analisis.valor_venta exp)) tot)
              exportaciones (zero, zero) in
  (* Sumar importaciones (siempre en USD) *)
  let t2 :=
    fold_left (fun tot imp =>
                 let valorCif := Analisis.parse_or_zero (Analisis.valor_cif imp) in
                 let dtaTotal := Analisis.parse_or_zero (Analisis.dta_total imp) in
                 (add (fst tot) (add valorCif dtaTotal), snd tot))
              importaciones t1 in
  (* Sumar gastos *)
  let todosGastos :=
    Analisis.operativos gastos ++ Analisis.administrativos gastos
    ++ Analisis.ventas gastos ++ Analisis.financieros gastos in
  let t3 :=
    fold_left (fun tot gasto =>
                 sumar_por_moneda (Analisis.moneda gasto)
                   (Analisis.parse_or_zero (Analisis.monto gasto)) tot)
              todosGastos t2 in
  {| total_usd := to_fixed2 (fst t3);
     total_pen := to_fixed2 (snd t3);
     tipo_cambio_sugerido := dec 375 100 |}.

(** A study case as [obtenerComparativo] meets it: its row, and the rows
    [obtenerAnalisisRentabilidad] reads for it, or [None] when that call
    throws. *)
Record Caso : Type := {
  id : Z;
  nombre_caso : string;
  datos : option (list (Analisis.ImportacionDetalle num)
                  * list (Analisis.ExportacionDetalle num)
                  * list GastoFila)
}.

Record CasoComparado : Type := {
  caso_id : Z;
  cc_nombre_caso : string;
  margen_neto : num;
  cc_utilidad_neta : num;
  cc_ventas_totales : num;
  error : option string
}.

Record Estadisticas : Type := {
  mejor_margen : num;
  peor_margen : num;
  promedio_margen : num            (* the value of the [toFixed(2)] text *)
}.

Record Comparativo : Type := {
  total_casos : Z;
  casos : list CasoComparado;
  estadisticas : Estadisticas
}.

(** The callback of [rows.map(async (caso) => { try {...} catch {...} })]. *)
Definition comparar_caso (caso : Caso) : CasoComparado :=
  match datos caso with
  | Some (importaciones, exportaciones, filas) =>
      let '(utilidadBruta, _, utilidadNeta) :=
        Analisis.calcularUtilidades importaciones exportaciones (agruparGastos filas) in
      {| caso_id := id caso;
         cc_nombre_caso := nombre_caso caso;
         margen_neto := Analisis.margen_neto_porcentaje utilidadNeta;
         cc_utilidad_neta := Analisis.utilidad_neta utilidadNeta;
         cc_ventas_totales := Analisis.ventas_totales utilidadBruta;
         error := None |}
  | None =>
      {| caso_id := id caso;
         cc_nombre_caso := nombre_caso caso;
         margen_neto := zero;
         cc_utilidad_neta := zero;
         cc_ventas_totales := zero;
         error := Some "Error al calcular análisis"%string |}
  end.

(** [Math.max(...xs)] and [Math.min(...xs)] on a non-empty array. *)
Definition max_of (x : num) (xs : list num) : num := fold_left math_max xs x.
Definition min_of (x : num) (xs : list num) : num := fold_left math_min xs x.

Definition obtenerComparativo (rows : list Caso) : Comparativo :=
  match rows with
  | [] =>
      {| total_casos := 0;
         casos := [];
         estadisticas := {| mejor_margen := zero; peor_margen := zero;
                            promedio_margen := zero |} |}
  | _ :: _ =>
      let comparativeData := map comparar_caso rows in
      let margenes := map (fun c => num_or_zero (margen_neto c)) comparativeData in
      match margenes with
      | [] =>
          {| total_casos := Z.of_nat (length rows);
             casos := comparativeData;
             estadisticas := {| mejor_margen := zero; peor_margen := zero;
                                promedio_margen := zero |} |}
      | m :: ms =>
          {| total_casos := Z.of_nat (length rows);
             casos := comparativeData;
             estadisticas :=
               {| mejor_margen := max_of m ms;
                  peor_margen := min_of m ms;
                  promedio_margen :=
                    to_fixed2 (div (fold_left add margenes zero)
                                   (of_Z (Z.of_nat (length margenes)))) |} |}
      end
  end.
End Servicio.

Arguments GastoFila : clear implicits.
Arguments ResumenMonedas : clear implicits.
Arguments Caso : clear implicits.
Arguments CasoComparado : clear implicits.
Arguments Estadisticas : clear implicits.
Arguments Comparativo : clear implicits.
End Rentabilidad.

(* ------------------------------------------------------------------ *)
(** * Specification-side notions and sample operations *)

Local Open Scope Q_scope.

(** A rational is an amount in cents when it lies on the 1/100 grid. *)
Definition cents (q : Q) : Prop := exists k : Z, q == inject_Z k / 100.

(** A bottled-wine import from Chile under the trade agreement: mixed ISC
    with alcohol bands, one antidumping entry, one permit. *)
Definition wine_input {num : Type} `{Number num} : Multi.SimulationInput num :=
  {| Multi.hs10 := "2204210000"; Multi.originCountry := "CL";
     Multi.useFTA := Some true; Multi.currency := Some "USD"%string;
     Multi.fxRate := Some (dec 375 100);
     Multi.cif := None; Multi.fob := Some (of_Z 1000);
     Multi.freight := Some (of_Z 150); Multi.insurance := Some (of_Z 50);
     Multi.quantity := Some (of_Z 100); Multi.quantityUnit := Some "L"%string;
     Multi.isUsed := None; Multi.importerProfile := Some normal;
     Multi.alcoholDegree := Some (of_Z 12) |}.

Definition wine_bands {num : Type} `{Number num} : list (Multi.Band num) :=
  [ {| Multi.max_abv := Some (of_Z 6); Multi.specific_per_l_pen := Some (dec 125 100) |};
    {| Multi.max_abv := Some (of_Z 12); Multi.specific_per_l_pen := Some (dec 250 100) |};
    {| Multi.max_abv := Some (of_Z 20); Multi.specific_per_l_pen := Some (dec 340 100) |} ].

Definition wine_profile {num : Type} `{Number num} : Multi.RuleProfile num :=
  {| Multi.tariffId := 17; Multi.prof_hs10 := "2204.21.00.00";
     Multi.description := "Vino en recipientes de hasta 2 l";
     Multi.mfnRate := dec 6 100; Multi.ftaRate := Some (of_Z 0);
     Multi.iscRule :=
       Some {| Multi.system := Multi.sys_mixed;
               Multi.adValRate := Some (dec 20 100);
               Multi.specificAmount := Some (dec 150 100);
               Multi.unit := Some "L"%string;
               Multi.params := Some {| Multi.bands := Some wine_bands |} |};
     Multi.vatExempt := false;
     Multi.tradeRemedies :=
       [ {| Multi.tr_type := AD; Multi.tr_mode := Multi.mode_ad_valorem;
            Multi.rateOrAmount := dec 5 100; Multi.tr_unit := None |} ];
     Multi.permits :=
       [ {| Multi.authority := "SENASA"; Multi.note := Some "Registro sanitario"%string |} ];
     Multi.adminFees :=
       {| Multi.uit := of_Z 5000; Multi.sdaRate := dec 2 100;
          Multi.thresholdUIT := of_Z 3 |} |}.

(** The USD-only scenario of the specification: a carton-box import. *)
Definition carton_input {num : Type} `{Number num} : Usd.SimulationInput num :=
  {| Usd.hs10 := "4819100000"; Usd.fxRate := None; Usd.cif := None;
     Usd.fob := Some (of_Z 1000); Usd.freight := Some (of_Z 150);
     Usd.insurance := Some (of_Z 50);
     Usd.importerProfile := None; Usd.isUsed := None |}.

Definition carton_profile {num : Type} `{Number num} : Usd.RuleProfile num :=
  {| Usd.prof_hs10 := "4819100000"; Usd.description := "Cajas de papel o carton corrugado";
     Usd.adValoremRate := dec 6 100; Usd.igvRate := dec 16 100;
     Usd.ipmRate := dec 2 100 |}.

Definition carton_overrides {num : Type} `{Number num} : Usd.SimulationOverrides num :=
  {| Usd.igvEnabled := true; Usd.iscEnabled := false; Usd.perceptionEnabled := false;
     Usd.iscRate := None; Usd.antidumpingUsd := None; Usd.countervailingUsd := None;
     Usd.perceptionRate := None; Usd.sdaUsd := None |}.

(** An operation described by its value fields alone. *)
Definition multi_value_input {num : Type} `{Number num}
    (cif fob freight insurance fxRate : option num) : Multi.SimulationInput num :=
  {| Multi.hs10 := "2204210000"; Multi.originCountry := "CL";
     Multi.useFTA := None; Multi.currency := None; Multi.fxRate := fxRate;
     Multi.cif := cif; Multi.fob := fob; Multi.freight := freight;
     Multi.insurance := insurance;
     Multi.quantity := None; Multi.quantityUnit := None;
     Multi.isUsed := None; Multi.importerProfile := None;
     Multi.alcoholDegree := None |}.

Definition usd_value_input {num : Type} `{Number num}
    (cif fob freight insurance : option num) : Usd.SimulationInput num :=
  {| Usd.hs10 := "4819100000"; Usd.fxRate := None; Usd.cif := cif;
     Usd.fob := fob; Usd.freight := freight; Usd.insurance := insurance;
     Usd.importerProfile := None; Usd.isUsed := None |}.

(** The specification's "valid basis": a direct customs value, or all three
    of FOB, freight and insurance. *)
Definition supplies_basis {num : Type} (cif fob freight insurance : option num) : bool :=
  is_some cif || (is_some fob && is_some freight && is_some insurance).

(** The customs value an operation states: the direct value when present,
    else the sum of the components, an absent one counting for 0. *)
Definition stated_value (cif fob freight insurance : option Q) : Q :=
  match cif with
  | Some c => c
  | None =>
      match fob with Some x => x | None => 0 end
      + match freight with Some x => x | None => 0 end
      + match insurance with Some x => x | None => 0 end
  end.

(** The per-unit amount of the mixed excise as the specification words it:
    the first band whose maximum strength is at least the input strength,
    the flat amount when no band matches or when no strength is supplied. *)
Definition claimed_per_unit (bands : list (Multi.Band Q)) (flat : Q)
    (strength : option Q) : Q :=
  match strength with
  | None => flat
  | Some d =>
      match find (fun b => match Multi.max_abv b with
                           | Some m => Qle_bool d m
                           | None => false
                           end) bands with
      | Some b => match Multi.specific_per_l_pen b with Some a => a | None => flat end
      | None => flat
      end
  end.

(** A band reaches a strength when it has a numeric maximum at or above it. *)
Definition reaches (deg : Q) (b : Multi.Band Q) : Prop :=
  exists m, Multi.max_abv b = Some m /\ deg <= m.

(** [first_reaching deg bands sel]: [sel] is the first band of [bands], in
    order, that reaches [deg], or [None] when no band does. *)
Inductive first_reaching (deg : Q) : list (Multi.Band Q) -> option (Multi.Band Q) -> Prop :=
| first_reaching_nil : first_reaching deg [] None
| first_reaching_here (b : Multi.Band Q) (bs : list (Multi.Band Q)) :
    reaches deg b -> first_reaching deg (b :: bs) (Some b)
| first_reaching_later (b : Multi.Band Q) (bs : list (Multi.Band Q))
    (sel : option (Multi.Band Q)) :
    ~ reaches deg b -> first_reaching deg bs sel -> first_reaching deg (b :: bs) sel.

(** The band list of an excise rule, empty when [params] or [params.bands]
    is missing. *)
Definition bands_of (rule : Multi.IscRule Q) : list (Multi.Band Q) :=
  match Multi.params rule with
  | Some p => match Multi.bands p with Some bs => bs | None => [] end
  | None => []
  end.

Definition or_zero (a : option Q) : Q := match a with Some x => x | None => 0 end.

(** A study case without any sale: one import (customs value 80, customs
    debt 20) and one operating expense of 300 USD. *)
Definition idle_imports {num : Type} `{Number num} : list (Analisis.ImportacionDetalle num) :=
  [ {| Analisis.valor_cif := of_Z 80; Analisis.dta_total := of_Z 20 |} ].

Definition idle_expenses {num : Type} `{Number num} : Analisis.GastosPorClasificacion num :=
  {| Analisis.operativos := [ {| Analisis.monto := of_Z 300; Analisis.moneda := "USD" |} ];
     Analisis.administrativos := [];
     Analisis.ventas := [];
     Analisis.financieros := [] |}.

(** A study case with one export of 1000 USD, one import costing 600 in
    all and one operating expense of 100 USD. *)
Definition trading_exports {num : Type} `{Number num} : list (Analisis.ExportacionDetalle num) :=
  [ {| Analisis.valor_venta := of_Z 1000; Analisis.exp_moneda := "USD" |} ].

Definition trading_imports {num : Type} `{Number num} : list (Analisis.ImportacionDetalle num) :=
  [ {| Analisis.valor_cif := of_Z 500; Analisis.dta_total := of_Z 100 |} ].

Definition trading_expenses {num : Type} `{Number num} : Analisis.GastosPorClasificacion num :=
  {| Analisis.operativos := [ {| Analisis.monto := of_Z 100; Analisis.moneda := "USD" |} ];
     Analisis.administrativos := [];
     Analisis.ventas := [];
     Analisis.financieros := [] |}.

(** The default perception rate and rule label as the specification lists
    them, by precedence: public-sector or designated-platform importer,
    then first import or flagged delinquent, then used goods, then the
    general regime. *)
Definition spec_default_perception (profile : option ImporterProfile)
    (isUsed : option bool) : Q * string :=
  match profile with
  | Some public | Some amazon => (0, "Excluido por régimen especial"%string)
  | Some first_import | Some no_habido => (10 # 100, "Primera importación/No habido"%string)
  | Some normal | None =>
      match isUsed with
      | Some true => (5 # 100, "Bien usado"%string)
      | _ => (35 # 1000, "Régimen general"%string)
      end
  end.

(** The note left when a tariff preference is applied. *)
Definition preference_note : string := "Se aplicó preferencia arancelaria (TLC).".

(** Two multi-country operations that differ at most in the fields that
    state the customs value. *)
Definition multi_same_but_value (i1 i2 : Multi.SimulationInput Q) : Prop :=
  Multi.hs10 i1 = Multi.hs10 i2
  /\ Multi.originCountry i1 = Multi.originCountry i2
  /\ Multi.useFTA i1 = Multi.useFTA i2
  /\ Multi.currency i1 = Multi.currency i2
  /\ Multi.fxRate i1 = Multi.fxRate i2
  /\ Multi.quantity i1 = Multi.quantity i2
  /\ Multi.quantityUnit i1 = Multi.quantityUnit i2
  /\ Multi.isUsed i1 = Multi.isUsed i2
  /\ Multi.importerProfile i1 = Multi.importerProfile i2
  /\ Multi.alcoholDegree i1 = Multi.alcoholDegree i2.

Definition usd_same_but_value (i1 i2 : Usd.SimulationInput Q) : Prop :=
  Usd.hs10 i1 = Usd.hs10 i2
  /\ Usd.fxRate i1 = Usd.fxRate i2
  /\ Usd.importerProfile i1 = Usd.importerProfile i2
  /\ Usd.isUsed i1 = Usd.isUsed i2.

(** An optional rate is non-negative when it is absent or at least 0. *)
Definition nonneg_opt (a : option Q) : Prop :=
  match a with Some x => 0 <= x | None => True end.

(** Valid rates of a multi-country run: the exchange rate, the MFN and
    preferential rates, the excise ad-valorem rate, the ad-valorem trade
    remedy rates and the overriding duty and perception rates are
    proportions, none below 0. *)
Definition multi_valid_rates (input : Multi.SimulationInput Q) (prof : Multi.RuleProfile Q)
    (overrides : option (Multi.SimulationOverrides Q)) : Prop :=
  nonneg_opt (Multi.fxRate input)
  /\ 0 <= Multi.mfnRate prof
  /\ nonneg_opt (Multi.ftaRate prof)
  /\ (forall rule, Multi.iscRule prof = Some rule -> nonneg_opt (Multi.adValRate rule))
  /\ (forall tr, In tr (Multi.tradeRemedies prof) ->
                 Multi.tr_mode tr = Multi.mode_ad_valorem -> 0 <= Multi.rateOrAmount tr)
  /\ nonneg_opt (Multi.ov overrides (@Multi.adValoremRate Q))
  /\ nonneg_opt (Multi.ov overrides (@Multi.perceptionRate Q)).

Definition usd_valid_rates (prof : Usd.RuleProfile Q) (o : Usd.SimulationOverrides Q) : Prop :=
  0 <= Usd.adValoremRate prof
  /\ 0 <= Usd.igvRate prof
  /\ 0 <= Usd.ipmRate prof
  /\ nonneg_opt (Usd.iscRate o)
  /\ nonneg_opt (Usd.perceptionRate o).

(** Overrides with the two trade-remedy amounts replaced. *)
Definition multi_with_remedies (o : Multi.SimulationOverrides Q)
    (antidumping countervailing : option Q) : Multi.SimulationOverrides Q :=
  {| Multi.adValoremRate := Multi.adValoremRate o;
     Multi.antidumpingUsd := antidumping;
     Multi.countervailingUsd := countervailing;
     Multi.perceptionRate := Multi.perceptionRate o;
     Multi.sdaUsd := Multi.sdaUsd o |}.

Definition usd_with_remedies (o : Usd.SimulationOverrides Q)
    (antidumping countervailing : option Q) : Usd.SimulationOverrides Q :=
  {| Usd.igvEnabled := Usd.igvEnabled o;
     Usd.iscEnabled := Usd.iscEnabled o;
     Usd.perceptionEnabled := Usd.perceptionEnabled o;
     Usd.iscRate := Usd.iscRate o;
     Usd.antidumpingUsd := antidumping;
     Usd.countervailingUsd := countervailing;
     Usd.perceptionRate := Usd.perceptionRate o;
     Usd.sdaUsd := Usd.sdaUsd o |}.

(** A larger carton shipment: the same operation with a higher FOB. *)
Definition carton_input_large {num : Type} `{Number num} : Usd.SimulationInput num :=
  {| Usd.hs10 := "4819100000"; Usd.fxRate := None; Usd.cif := None;
     Usd.fob := Some (of_Z 2500); Usd.freight := Some (of_Z 150);
     Usd.insurance := Some (of_Z 50);
     Usd.importerProfile := None; Usd.isUsed := None |}.

(** A larger wine shipment, stated by its CIF value. *)
Definition wine_input_large {num : Type} `{Number num} : Multi.SimulationInput num :=
  {| Multi.hs10 := "2204210000"; Multi.originCountry := "CL";
     Multi.useFTA := Some true; Multi.currency := Some "USD"%string;
     Multi.fxRate := Some (dec 375 100);
     Multi.cif := Some (dec 1875050 100); Multi.fob := None;
     Multi.freight := None; Multi.insurance := None;
     Multi.quantity := Some (of_Z 100); Multi.quantityUnit := Some "L"%string;
     Multi.isUsed := None; Multi.importerProfile := Some normal;
     Multi.alcoholDegree := Some (of_Z 12) |}.


(** The sum of a list of amounts. *)
Definition Qsum (l : list Q) : Q := fold_right Qplus 0 l.

(** USD overrides with the excise rate replaced. *)
Definition usd_with_iscRate (o : Usd.SimulationOverrides Q) (rate : option Q)
    : Usd.SimulationOverrides Q :=
  {| Usd.igvEnabled := Usd.igvEnabled o;
     Usd.iscEnabled := Usd.iscEnabled o;
     Usd.perceptionEnabled := Usd.perceptionEnabled o;
     Usd.iscRate := rate;
     Usd.antidumpingUsd := Usd.antidumpingUsd o;
     Usd.countervailingUsd := Usd.countervailingUsd o;
     Usd.perceptionRate := Usd.perceptionRate o;
     Usd.sdaUsd := Usd.sdaUsd o |}.

(** USD overrides with the perception rate replaced. *)
Definition usd_with_perceptionRate (o : Usd.SimulationOverrides Q) (rate : option Q)
    : Usd.SimulationOverrides Q :=
  {| Usd.igvEnabled := Usd.igvEnabled o;
     Usd.iscEnabled := Usd.iscEnabled o;
     Usd.perceptionEnabled := Usd.perceptionEnabled o;
     Usd.iscRate := Usd.iscRate o;
     Usd.antidumpingUsd := Usd.antidumpingUsd o;
     Usd.countervailingUsd := Usd.countervailingUsd o;
     Usd.perceptionRate := rate;
     Usd.sdaUsd := Usd.sdaUsd o |}.

(** A USD operation with the importer classification replaced. *)
Definition usd_with_importer (input : Usd.SimulationInput Q)
    (profile : option ImporterProfile) (used : option bool) : Usd.SimulationInput Q :=
  {| Usd.hs10 := Usd.hs10 input; Usd.fxRate := Usd.fxRate input;
     Usd.cif := Usd.cif input; Usd.fob := Usd.fob input;
     Usd.freight := Usd.freight input; Usd.insurance := Usd.insurance input;
     Usd.importerProfile := profile; Usd.isUsed := used |}.

(** Carton overrides with every stage switched on, a 10% excise and a
    countervailing amount. *)
Definition carton_overrides_full {num : Type} `{Number num} : Usd.SimulationOverrides num :=
  {| Usd.igvEnabled := true; Usd.iscEnabled := true; Usd.perceptionEnabled := true;
     Usd.iscRate := Some (dec 10 100); Usd.antidumpingUsd := None;
     Usd.countervailingUsd := Some (dec 4550 100);
     Usd.perceptionRate := None; Usd.sdaUsd := Some (of_Z 20) |}.

(** An accumulator of a remedies loop is coherent when its total is the
    sum of its items. *)
Definition multi_coherent (acc : Q * list (Multi.RemedyItem Q)) : Prop :=
  fst acc == Qsum (map (@Multi.item_amount Q) (snd acc)).

Definition usd_coherent (acc : Q * list (Usd.RemedyItem Q)) : Prop :=
  fst acc == Qsum (map (@Usd.item_amount Q) (snd acc)).

(** The items that the two override amounts add, in the multi-country
    engine: one per strictly positive amount, antidumping first. *)
Definition multi_override_items (overrides : option (Multi.SimulationOverrides Q))
    (fx : Q) : list (Multi.RemedyItem Q) :=
  snd (Multi.remedy_override CVD (Multi.ov overrides (@Multi.countervailingUsd Q)) fx
         (Multi.remedy_override AD (Multi.ov overrides (@Multi.antidumpingUsd Q)) fx
            (0, []))).

(** Non-negative data of a USD-only run: the stated customs value, the
    rates and the two trade-remedy amounts. *)
Definition usd_nonneg_data (input : Usd.SimulationInput Q) (prof : Usd.RuleProfile Q)
    (o : Usd.SimulationOverrides Q) : Prop :=
  0 <= stated_value (Usd.cif input) (Usd.fob input) (Usd.freight input)
         (Usd.insurance input)
  /\ usd_valid_rates prof o
  /\ nonneg_opt (Usd.antidumpingUsd o)
  /\ nonneg_opt (Usd.countervailingUsd o).

(** Non-negative data of a multi-country run: the stated customs value,
    the rates, the quantity, the per-unit excise amounts (flat and banded),
    the trade-remedy schedule and the administrative-fee constants. *)
Definition multi_nonneg_data (input : Multi.SimulationInput Q)
    (prof : Multi.RuleProfile Q) (overrides : option (Multi.SimulationOverrides Q))
    : Prop :=
  0 <= stated_value (Multi.cif input) (Multi.fob input) (Multi.freight input)
         (Multi.insurance input)
  /\ multi_valid_rates input prof overrides
  /\ nonneg_opt (Multi.quantity input)
  /\ (forall rule, Multi.iscRule prof = Some rule ->
        nonneg_opt (Multi.specificAmount rule)
        /\ Forall (fun b => nonneg_opt (Multi.specific_per_l_pen b)) (bands_of rule))
  /\ (forall tr, In tr (Multi.tradeRemedies prof) -> 0 <= Multi.rateOrAmount tr)
  /\ nonneg_opt (Multi.ov overrides (@Multi.sdaUsd Q))
  /\ 0 <= Multi.uit (Multi.adminFees prof)
  /\ 0 <= Multi.sdaRate (Multi.adminFees prof).

(** An optional number that JavaScript reads as false: absent or zero. *)
Definition falsy_opt (a : option Q) : Prop :=
  match a with Some v => v == 0 | None => True end.

(** A filled-in USD form: the carton shipment, perception at "3.5",
    excise off, with the accounting preview. *)
Definition carton_form {num : Type} `{Number num} : Routes.QuoteForm num :=
  {| Routes.subpartida := "4819.10.00.00";
     Routes.fob := of_Z 1000; Routes.flete := of_Z 150; Routes.seguro := of_Z 50;
     Routes.perfil_importador := Some Routes.perfil_normal;
     Routes.es_usado := Some false;
     Routes.habilitar_igv := true; Routes.habilitar_isc := false;
     Routes.habilitar_percepcion := true;
     Routes.isc_porcentaje := Some (of_Z 0);
     Routes.percepcion_tasa := Some (dec 35 10);
     Routes.antidumping_usd := Some (of_Z 0);
     Routes.compensatorio_usd := Some (of_Z 0);
     Routes.sda_usd := Some (of_Z 20);
     Routes.generar_asiento := true |}.

(** A USD form with the two percentage fields replaced. *)
Definition form_with_percentages (f : Routes.QuoteForm Q)
    (isc_porcentaje percepcion_tasa : option Q) : Routes.QuoteForm Q :=
  {| Routes.subpartida := Routes.subpartida f;
     Routes.fob := Routes.fob f; Routes.flete := Routes.flete f;
     Routes.seguro := Routes.seguro f;
     Routes.perfil_importador := Routes.perfil_importador f;
     Routes.es_usado := Routes.es_usado f;
     Routes.habilitar_igv := Routes.habilitar_igv f;
     Routes.habilitar_isc := Routes.habilitar_isc f;
     Routes.habilitar_percepcion := Routes.habilitar_percepcion f;
     Routes.isc_porcentaje := isc_porcentaje;
     Routes.percepcion_tasa := percepcion_tasa;
     Routes.antidumping_usd := Routes.antidumping_usd f;
     Routes.compensatorio_usd := Routes.compensatorio_usd f;
     Routes.sda_usd := Routes.sda_usd f;
     Routes.generar_asiento := Routes.generar_asiento f |}.

(** A percentage field that the USD form rejects: switched on and above
    100. *)
Definition over_100 (enabled : bool) (field : option Q) : Prop :=
  enabled = true /\ exists n, field = Some n /\ 100 < n.

(** Non-negative data of an import record, as its validator admits them:
    no negative value component and no negative rate. *)
Definition importacion_nonneg_data (data : Importacion.ImportacionInputData Q)
    (tasas : Importacion.TasasImpuestos Q) : Prop :=
  0 <= Importacion.valor_fob data
  /\ 0 <= Importacion.valor_flete data
  /\ 0 <= Importacion.valor_seguro data
  /\ nonneg_opt (Importacion.ad_valorem_tasa_manual data)
  /\ nonneg_opt (Importacion.isc_tasa_ingresada data)
  /\ nonneg_opt (Importacion.percepcion_tasa_ingresada data)
  /\ 0 <= Importacion.igv tasas
  /\ 0 <= Importacion.ipm tasas.

(** An import record: FOB 1000, freight 150, insurance 50, duty 6%, excise
    switched off, perception 3.5%. *)
Definition carton_importacion {num : Type} `{Number num}
    : Importacion.ImportacionInputData num :=
  {| Importacion.descripcion_mercancia := "Cajas de cartón";
     Importacion.valor_fob := of_Z 1000;
     Importacion.valor_flete := of_Z 150;
     Importacion.valor_seguro := of_Z 50;
     Importacion.habilitar_igv := true;
     Importacion.habilitar_isc := false;
     Importacion.habilitar_percepcion := true;
     Importacion.ad_valorem_tasa_manual := Some (dec 6 100);
     Importacion.isc_tasa_ingresada := None;
     Importacion.percepcion_tasa_ingresada := Some (dec 35 1000) |}.

(** The default tax rates of [obtenerTasasImpuestos]. *)
Definition tasas_por_defecto {num : Type} `{Number num} : Importacion.TasasImpuestos num :=
  {| Importacion.igv := dec 16 100; Importacion.ipm := dec 2 100 |}.

(** Whether the classification name of an expense row reads [label],
    letter case apart. *)
Definition clasificado_como {num : Type} (label : string)
    (gasto : Rentabilidad.GastoFila num) : bool :=
  String.eqb (toLowerCase (Rentabilidad.clasificacion_nombre gasto)) label.

(** The expenses of the rows classified as [label], in the order of the
    rows. *)
Definition gastos_de {num : Type} (label : string)
    (rows : list (Rentabilidad.GastoFila num)) : list (Analisis.GastoDetalle num) :=
  map (@Rentabilidad.detalle num) (filter (clasificado_como label) rows).

(** An expense row whose classification is none of the four that the
    analysis knows. *)
Definition sin_clasificar {num : Type} (gasto : Rentabilidad.GastoFila num) : Prop :=
  let nombre := toLowerCase (Rentabilidad.clasificacion_nombre gasto) in
  nombre <> "operativo"%string /\ nombre <> "administrativo"%string
  /\ nombre <> "ventas"%string /\ nombre <> "financiero"%string.

(** Expense rows of a study case: one operating, one under a
    classification named Otros, one financial. *)
Definition gasto_operativo {num : Type} `{Number num} : Rentabilidad.GastoFila num :=
  {| Rentabilidad.clasificacion_nombre := "Operativo";
     Rentabilidad.detalle := {| Analisis.monto := of_Z 100; Analisis.moneda := "USD" |} |}.

Definition gasto_otros {num : Type} `{Number num} : Rentabilidad.GastoFila num :=
  {| Rentabilidad.clasificacion_nombre := "Otros";
     Rentabilidad.detalle := {| Analisis.monto := of_Z 50; Analisis.moneda := "USD" |} |}.

Definition gasto_financiero {num : Type} `{Number num} : Rentabilidad.GastoFila num :=
  {| Rentabilidad.clasificacion_nombre := "FINANCIERO";
     Rentabilidad.detalle := {| Analisis.monto := of_Z 75; Analisis.moneda := "PEN" |} |}.

(** No expense of the four groups has a negative amount. *)
Definition gastos_no_negativos (gastos : Analisis.GastosPorClasificacion Q) : Prop :=
  Forall (fun g => 0 <= Analisis.monto g)
    (Analisis.operativos gastos ++ Analisis.administrativos gastos
     ++ Analisis.ventas gastos ++ Analisis.financieros gastos).

(** The characters of a string. *)
Fixpoint caracteres (s : string) : list Ascii.ascii :=
  match s with
  | EmptyString => []
  | String c rest => c :: caracteres rest
  end.

(** Multi-country overrides that set the special fee alone. *)
Definition multi_sda_only {num : Type} `{Number num} (s : num)
    : Multi.SimulationOverrides num :=
  {| Multi.adValoremRate := None; Multi.antidumpingUsd := None;
     Multi.countervailingUsd := None; Multi.perceptionRate := None;
     Multi.sdaUsd := Some s |}.

(** The amounts of an optional override that count: the amount itself
    when it is strictly positive, nothing otherwise. *)
Definition strictly_positive (a : option Q) : list Q :=
  match a with
  | Some x => if Qltb 0 x then [x] else []
  | None => []
  end.

(** The item that a trade-remedy override amount leaves in a result of the
    multi-country engine: converted at the exchange rate and rounded. *)
Definition multi_override_item (ty : RemedyType) (fx x : Q) : Multi.RemedyItem Q :=
  {| Multi.item_type := ty; Multi.item_mode := Multi.mode_specific;
     Multi.item_amount := Multi.round2 (x * fx);
     Multi.item_source := Multi.src_override |}.

(** The same for the USD-only engine: rounded. *)
Definition usd_override_item (ty : RemedyType) (x : Q) : Usd.RemedyItem Q :=
  {| Usd.item_type := ty; Usd.item_amount := Usd.r2 x |}.

(* ------------------------------------------------------------------ *)
(** * Rational arithmetic of the engine *)

(** Unfolds the [Number] operations at the rational instance. *)
Ltac qops :=
  cbn [of_Z add sub mul div ltb leb math_round math_min to_fixed2 QNumber] in *.

Lemma Qltb_lt (a b : Q) : Qltb a b = true <-> a < b.
Proof.
  unfold Qltb. rewrite negb_true_iff. split; intro Hab.
  - destruct (Qlt_le_dec a b) as [Hlt | Hle]; [exact Hlt |].
    apply Qle_bool_iff in Hle. congruence.
  - destruct (Qle_bool b a) eqn:E; [| reflexivity].
    apply Qle_bool_iff in E. exfalso. exact (Qlt_not_le _ _ Hab E).
Qed.

Lemma Qltb_ge (a b : Q) : Qltb a b = false <-> b <= a.
Proof.
  unfold Qltb. rewrite negb_false_iff. apply Qle_bool_iff.
Qed.

Lemma truthy_Q (a : Q) : truthy a = false <-> a == 0.
Proof.
  unfold truthy, zero. qops. rewrite orb_false_iff, !Qltb_ge. split.
  - intros [H1 H2]. apply Qle_antisym; assumption.
  - intro E. rewrite E. split; apply Qle_refl.
Qed.

Lemma truthy_Q_true (a : Q) : truthy a = true <-> ~ a == 0.
Proof.
  rewrite <- truthy_Q. destruct (truthy a); split; intro; congruence.
Qed.

Lemma strict_eqb_Q (a b : Q) : strict_eqb a b = Qeq_bool a b.
Proof.
  unfold strict_eqb. qops.
  destruct (Qeq_bool a b) eqn:E.
  - apply Qeq_bool_iff in E. apply andb_true_iff.
    split; apply Qle_bool_iff; rewrite E; apply Qle_refl.
  - apply andb_false_iff.
    destruct (Qle_bool a b) eqn:E1; [| left; reflexivity].
    destruct (Qle_bool b a) eqn:E2; [| right; reflexivity].
    apply Qle_bool_iff in E1, E2.
    assert (Hz : a == b) by (apply Qle_antisym; assumption).
    apply Qeq_bool_iff in Hz. congruence.
Qed.

Lemma EPSILON_Q : @EPSILON Q _ == 1 # 4503599627370496.
Proof. reflexivity. Qed.

(** [round2] at the rational instance, written out. *)
Lemma round2_Q (n : Q) :
  Multi.round2 n = inject_Z (Qfloor ((n + EPSILON) * 100 + (1 # 2))) / 100.
Proof. reflexivity. Qed.

Lemma r2_round2 (n : Q) : Usd.r2 n = Multi.round2 n.
Proof. reflexivity. Qed.

#[export] Instance round2_Proper : Proper (Qeq ==> Qeq) (Multi.round2 (num := Q)).
Proof.
  intros a b E. rewrite !round2_Q. rewrite E. reflexivity.
Qed.

(** The floor of a rational squeezed between two consecutive integers. *)
Lemma Qfloor_squeeze (x : Q) (k : Z) :
  inject_Z k <= x -> x < inject_Z (k + 1) -> Qfloor x = k.
Proof.
  intros Hlo Hhi.
  pose proof (Qfloor_le x) as Hf1. pose proof (Qlt_floor x) as Hf2.
  assert (H1 : inject_Z (Qfloor x) < inject_Z (k + 1))
    by (eapply Qle_lt_trans; eassumption).
  assert (H2 : inject_Z k < inject_Z (Qfloor x + 1))
    by (eapply Qle_lt_trans; eassumption).
  rewrite <- Zlt_Qlt in H1, H2. lia.
Qed.

Lemma cents_round2 (n : Q) : cents (Multi.round2 n).
Proof. rewrite round2_Q. eexists. reflexivity. Qed.

Lemma cents_zero : cents 0.
Proof. exists 0%Z. reflexivity. Qed.

Lemma cents_add (a b : Q) : cents a -> cents b -> cents (a + b).
Proof.
  intros [ka Ha] [kb Hb]. exists (ka + kb)%Z.
  rewrite Ha, Hb, inject_Z_plus. field.
Qed.

#[export] Instance cents_Proper : Proper (Qeq ==> iff) cents.
Proof.
  intros a b E. unfold cents. split; intros [k Hk]; exists k.
  - rewrite <- E. exact Hk.
  - rewrite E. exact Hk.
Qed.

(** [round2] leaves an amount in cents unchanged. *)
Lemma round2_cents (q : Q) : cents q -> Multi.round2 q == q.
Proof.
  intros [k Hk]. rewrite Hk at 2. rewrite round2_Q.
  replace (Qfloor ((q + EPSILON) * 100 + (1 # 2))) with k; [reflexivity |].
  symmetry. apply Qfloor_squeeze.
  - rewrite Hk, EPSILON_Q. unfold Qle. simpl. lia.
  - rewrite Hk, EPSILON_Q, inject_Z_plus. unfold Qlt. simpl. lia.
Qed.

Lemma round2_le (a b : Q) : a <= b -> Multi.round2 a <= Multi.round2 b.
Proof.
  intro Hab. rewrite !round2_Q.
  apply Qmult_le_compat_r; [| discriminate].
  rewrite <- Zle_Qle. apply Qfloor_resp_le.
  apply Qplus_le_l. apply Qmult_le_compat_r; [| discriminate].
  apply Qplus_le_l. exact Hab.
Qed.

Lemma cents_if (b : bool) (x y : Q) : cents x -> cents y -> cents (if b then x else y).
Proof. destruct b; auto. Qed.

Create HintDb cents.
#[export] Hint Resolve cents_round2 cents_zero cents_add cents_if : cents.

(* ------------------------------------------------------------------ *)
(** * Stage lemmas, multi-country engine *)

Lemma isc_stage_cents (input : Multi.SimulationInput Q) (prof : Multi.RuleProfile Q)
    (cifPEN dArancel : Q) :
  cents (fst (Multi.isc_stage input prof cifPEN dArancel)).
Proof.
  unfold Multi.isc_stage.
  destruct (Multi.iscRule prof) as [rule |]; [| apply cents_zero].
  destruct (Multi.system rule); cbn [fst]; qops; auto with cents.
Qed.

Lemma remedy_step_cents (cifPEN : Q) (quantity : option Q)
    (acc : Q * list (Multi.RemedyItem Q)) (r : Multi.TradeRemedy Q) :
  cents (fst acc) -> cents (fst (Multi.remedy_step cifPEN quantity acc r)).
Proof.
  destruct acc as [total items]. unfold Multi.remedy_step.
  destruct (Multi.tr_mode r); cbn [fst]; qops; auto with cents.
Qed.

Lemma remedy_fold_cents (cifPEN : Q) (quantity : option Q)
    (rs : list (Multi.TradeRemedy Q)) :
  forall acc, cents (fst acc) ->
    cents (fst (fold_left (Multi.remedy_step cifPEN quantity) rs acc)).
Proof.
  induction rs as [| r rs IH]; intros acc Hacc; cbn [fold_left].
  - exact Hacc.
  - apply IH. apply remedy_step_cents. exact Hacc.
Qed.

Lemma remedy_override_cents (ty : RemedyType) (usd : option Q) (fx : Q)
    (acc : Q * list (Multi.RemedyItem Q)) :
  cents (fst acc) -> cents (fst (Multi.remedy_override ty usd fx acc)).
Proof.
  destruct acc as [total items]. unfold Multi.remedy_override.
  destruct usd as [u |]; [| auto].
  destruct (truthy u && gtb u zero); cbn [fst]; qops; auto with cents.
Qed.

Lemma remedies_stage_cents (input : Multi.SimulationInput Q) (prof : Multi.RuleProfile Q)
    (overrides : option (Multi.SimulationOverrides Q)) (cifPEN fx : Q) :
  cents (fst (Multi.remedies_stage input prof overrides cifPEN fx)).
Proof.
  unfold Multi.remedies_stage.
  apply remedy_override_cents, remedy_override_cents, remedy_fold_cents, cents_zero.
Qed.

Lemma sda_stage_cents (prof : Multi.RuleProfile Q)
    (overrides : option (Multi.SimulationOverrides Q)) (cifPEN fx : Q) :
  cents (snd (Multi.sda_stage prof overrides cifPEN fx)).
Proof.
  unfold Multi.sda_stage.
  destruct (Multi.ov overrides _); cbn [snd]; [auto with cents |].
  destruct (gtb _ _); auto with cents.
Qed.

(** A successful run passed the guard and returns the body's record. *)
Lemma multi_simulate_Ok {num : Type} `{Number num}
    (input : Multi.SimulationInput num) (prof : Multi.RuleProfile num)
    (overrides : option (Multi.SimulationOverrides num))
    (r : Multi.SimulationResult num) :
  Multi.simulate input prof overrides = Ok r <->
  exists fx, Multi.fxRate input = Some fx
             /\ truthy (Multi.cifUSD_of input) = true
             /\ truthy fx = true
             /\ r = Multi.simulate_body input prof overrides (Multi.cifUSD_of input) fx.
Proof.
  unfold Multi.simulate. split.
  - destruct (Multi.fxRate input) as [fx |]; [| discriminate].
    destruct (truthy (Multi.cifUSD_of input)) eqn:Ec, (truthy fx) eqn:Ef;
      cbn [negb orb]; try discriminate.
    intros [= <-]. exists fx. auto.
  - intros (fx & -> & -> & -> & ->). reflexivity.
Qed.

(** Names the stage results inside [Multi.simulate_body] and exposes the
    record fields. *)
Ltac multi_body :=
  unfold Multi.simulate_body;
  match goal with
  | |- context [Multi.duty_stage ?i ?p ?o] =>
      let E := fresh "Eduty" in
      destruct (Multi.duty_stage i p o) as [?advalRate ?notes1] eqn:E;
      cbn [fst snd]
  end;
  match goal with
  | |- context [Multi.isc_stage ?i ?p ?c ?d] =>
      let E := fresh "Eisc" in
      destruct (Multi.isc_stage i p c d) as [?iscTotal ?iscDetail] eqn:E
  end;
  match goal with
  | |- context [Multi.remedies_stage ?i ?p ?o ?c ?f] =>
      let E := fresh "Erem" in
      destruct (Multi.remedies_stage i p o c f) as [?adcvdTotal ?adcvdItems] eqn:E
  end;
  match goal with
  | |- context [Multi.sda_stage ?p ?o ?c ?f] =>
      let E := fresh "Esda" in
      destruct (Multi.sda_stage p o c f) as [?sdaApplies ?sdaAmt] eqn:E
  end;
  cbn [Multi.cif_pen Multi.arancel Multi.isc Multi.trade_remedies Multi.igv
       Multi.percepcion Multi.sda Multi.deuda_aduanera Multi.pago_en_frontera
       Multi.notes Multi.arancel_rate Multi.arancel_base Multi.arancel_amount
       Multi.isc_mode Multi.isc_details Multi.isc_total Multi.tr_applied
       Multi.tr_items Multi.tr_total Multi.igv_base Multi.igv_igv16
       Multi.igv_ipm2 Multi.igv_total Multi.igv_rate Multi.igv_amount
       Multi.igv_exempt Multi.perc_rate Multi.perc_base Multi.perc_amount
       Multi.perc_rule Multi.sda_applies Multi.sda_amount].

(** The totals of the multi-country engine on any successful run, the
    amounts read as exact decimals: every addend lies on the cent grid, so
    the final [round2] changes nothing. *)
Lemma multi_totals (input : Multi.SimulationInput Q) (prof : Multi.RuleProfile Q)
    (overrides : option (Multi.SimulationOverrides Q)) (r : Multi.SimulationResult Q) :
  Multi.simulate input prof overrides = Ok r ->
  Multi.deuda_aduanera r ==
    Multi.arancel_amount (Multi.arancel r) + Multi.isc_total (Multi.isc r)
    + Multi.igv_total (Multi.igv r) + Multi.tr_total (Multi.trade_remedies r)
    + Multi.sda_amount (Multi.sda r)
  /\ Multi.pago_en_frontera r ==
       Multi.deuda_aduanera r + Multi.perc_amount (Multi.percepcion r).
Proof.
  intros (fx & _ & _ & _ & ->)%multi_simulate_Ok.
  multi_body.
  pose proof (isc_stage_cents input prof (Multi.round2 (mul (Multi.cifUSD_of input) fx))
                (Multi.round2 (mul (Multi.round2 (mul (Multi.cifUSD_of input) fx))
                                   advalRate))) as Hisc.
  pose proof (remedies_stage_cents input prof overrides
                (Multi.round2 (mul (Multi.cifUSD_of input) fx)) fx) as Hrem.
  pose proof (sda_stage_cents prof overrides
                (Multi.round2 (mul (Multi.cifUSD_of input) fx)) fx) as Hsda.
  rewrite Eisc in Hisc. rewrite Erem in Hrem. rewrite Esda in Hsda.
  cbn [fst snd] in *. qops.
  split; apply round2_cents; auto 10 with cents.
Qed.

(* ------------------------------------------------------------------ *)
(** * Stage lemmas, USD-only engine *)

Lemma cents_r2 (n : Q) : cents (Usd.r2 n).
Proof. rewrite r2_round2. apply cents_round2. Qed.

Lemma r2_cents (q : Q) : cents q -> Usd.r2 q == q.
Proof. rewrite r2_round2. apply round2_cents. Qed.

#[export] Hint Resolve cents_r2 : cents.

Lemma usd_isc_stage_cents (o : Usd.SimulationOverrides Q) (cifBase avAmt : Q) :
  cents (snd (fst (Usd.isc_stage o cifBase avAmt))).
Proof.
  unfold Usd.isc_stage. destruct (Usd.iscEnabled o); cbn [fst snd]; auto with cents.
Qed.

Lemma usd_remedy_override_cents (ty : RemedyType) (usd : option Q)
    (acc : Q * list (Usd.RemedyItem Q)) :
  cents (fst acc) -> cents (fst (Usd.remedy_override ty usd acc)).
Proof.
  destruct acc as [total items]. unfold Usd.remedy_override.
  destruct usd as [u |]; [| auto].
  destruct (truthy u); cbn [fst]; qops; auto with cents.
Qed.

Lemma usd_remedies_stage_cents (o : Usd.SimulationOverrides Q) :
  cents (fst (Usd.remedies_stage o)).
Proof.
  unfold Usd.remedies_stage.
  apply usd_remedy_override_cents, usd_remedy_override_cents, cents_zero.
Qed.

Lemma usd_simulate_Ok {num : Type} `{Number num}
    (input : Usd.SimulationInput num) (prof : Usd.RuleProfile num)
    (o : Usd.SimulationOverrides num) (r : Usd.SimulationResult num) :
  Usd.simulate input prof o = Ok r <->
  truthy (Usd.cifUsd_of input) = true
  /\ r = Usd.simulate_body input prof o (Usd.cifUsd_of input).
Proof.
  unfold Usd.simulate. split.
  - destruct (truthy (Usd.cifUsd_of input)); cbn [negb]; [| discriminate].
    intros [= <-]. auto.
  - intros (-> & ->). reflexivity.
Qed.

(** Names the stage results inside [Usd.simulate_body] and exposes the
    record fields. *)
Ltac usd_body :=
  unfold Usd.simulate_body;
  match goal with
  | |- context [Usd.isc_stage ?o ?c ?a] =>
      let E := fresh "Eisc" in
      destruct (Usd.isc_stage o c a) as [[?iscApplied ?iscTotal] ?iscDetails] eqn:E
  end;
  match goal with
  | |- context [Usd.remedies_stage ?o] =>
      let E := fresh "Erem" in
      destruct (Usd.remedies_stage o) as [?remediesTotal ?items] eqn:E
  end;
  match goal with
  | |- context [Usd.perception_stage ?i ?o ?b ?x ?y ?t] =>
      let E := fresh "Eperc" in
      destruct (Usd.perception_stage i o b x y t)
        as [[[[?percRate ?percRule] ?percBase] ?percAmt] ?percApplied] eqn:E
  end;
  cbn [Usd.cif_pen Usd.arancel Usd.isc Usd.trade_remedies Usd.igv
       Usd.percepcion Usd.sda Usd.deuda_aduanera Usd.pago_en_frontera
       Usd.notes Usd.arancel_rate Usd.arancel_base Usd.arancel_amount
       Usd.isc_applied Usd.isc_details Usd.isc_total Usd.tr_applied
       Usd.tr_items Usd.tr_total Usd.igv_applied Usd.igv_base Usd.igv_igv16
       Usd.igv_ipm2 Usd.igv_total Usd.igv_details Usd.igv_exempt
       Usd.perc_applied Usd.perc_rate Usd.perc_base Usd.perc_amount
       Usd.perc_rule Usd.sda_applied Usd.sda_amount].

Lemma usd_perception_stage_cents (input : Usd.SimulationInput Q)
    (o : Usd.SimulationOverrides Q) (igvBase igv16 ipm2 remediesTotal : Q) :
  cents (snd (fst (Usd.perception_stage input o igvBase igv16 ipm2 remediesTotal))).
Proof.
  unfold Usd.perception_stage.
  destruct (Usd.perceptionEnabled o); cbn [fst snd]; auto with cents.
Qed.

(** The totals of the USD-only engine on any successful run, the amounts
    read as exact decimals. *)
Lemma usd_totals (input : Usd.SimulationInput Q) (prof : Usd.RuleProfile Q)
    (o : Usd.SimulationOverrides Q) (r : Usd.SimulationResult Q) :
  Usd.simulate input prof o = Ok r ->
  Usd.deuda_aduanera r ==
    Usd.arancel_amount (Usd.arancel r) + Usd.isc_total (Usd.isc r)
    + Usd.igv_total (Usd.igv r) + Usd.tr_total (Usd.trade_remedies r)
    + Usd.sda_amount (Usd.sda r)
  /\ Usd.pago_en_frontera r ==
       Usd.deuda_aduanera r + Usd.perc_amount (Usd.percepcion r).
Proof.
  intros (_ & ->)%usd_simulate_Ok.
  pose proof (usd_remedies_stage_cents o) as Hrem.
  usd_body.
  match type of Eisc with
  | Usd.isc_stage ?o ?c ?a = _ => pose proof (usd_isc_stage_cents o c a) as Hisc
  end.
  match type of Eperc with
  | Usd.perception_stage ?i ?o ?b ?x ?y ?t = _ =>
      pose proof (usd_perception_stage_cents i o b x y t) as Hperc
  end.
  rewrite Eisc in Hisc. rewrite Eperc in Hperc.
  cbn [fst snd] in *. qops.
  assert (Hsda : cents (if match Usd.sdaUsd o with
                           | Some s => gtb s zero
                           | None => false
                           end
                        then Usd.r2 (nullish (Usd.sdaUsd o) zero) else zero)).
  { destruct (match Usd.sdaUsd o with Some s => _ | None => _ end); auto with cents. }
  split; apply r2_cents; auto 10 with cents.
Qed.

(* ------------------------------------------------------------------ *)
(** * Totals *)

(** C1, amended.  On every successful run of either engine, in whatever
    arithmetic the engine runs on, the customs debt is [round2] of the sum,
    taken from left to right, of the returned duty amount, excise total,
    VAT-family total, trade-remedy total and special fee, and the amount
    payable at the border is [round2] of the returned customs debt plus the
    returned perception amount.  The final rounding is part of the
    equality: in binary64 the sum of the returned stages need not be the
    returned debt. *)
Theorem customs_debt_is_rounded_sum_of_stages :
  (forall (num : Type) (N : Number num)
          (input : Multi.SimulationInput num) (prof : Multi.RuleProfile num)
          (overrides : option (Multi.SimulationOverrides num))
          (r : Multi.SimulationResult num),
      Multi.simulate input prof overrides = Ok r ->
      Multi.deuda_aduanera r =
        Multi.round2
          (add (add (add (add (Multi.arancel_amount (Multi.arancel r))
                              (Multi.isc_total (Multi.isc r)))
                         (Multi.igv_total (Multi.igv r)))
                    (Multi.tr_total (Multi.trade_remedies r)))
               (Multi.sda_amount (Multi.sda r)))
      /\ Multi.pago_en_frontera r =
           Multi.round2 (add (Multi.deuda_aduanera r)
                             (Multi.perc_amount (Multi.percepcion r))))
  /\
  (forall (num : Type) (N : Number num)
          (input : Usd.SimulationInput num) (prof : Usd.RuleProfile num)
          (o : Usd.SimulationOverrides num) (r : Usd.SimulationResult num),
      Usd.simulate input prof o = Ok r ->
      Usd.deuda_aduanera r =
        Usd.r2
          (add (add (add (add (Usd.arancel_amount (Usd.arancel r))
                              (Usd.isc_total (Usd.isc r)))
                         (Usd.igv_total (Usd.igv r)))
                    (Usd.tr_total (Usd.trade_remedies r)))
               (Usd.sda_amount (Usd.sda r)))
      /\ Usd.pago_en_frontera r =
           Usd.r2 (add (Usd.deuda_aduanera r)
                       (Usd.perc_amount (Usd.percepcion r)))).
Proof.
  split.
  - intros num N input prof overrides r (fx & _ & _ & _ & ->)%multi_simulate_Ok.
    multi_body. split; reflexivity.
  - intros num N input prof o r (_ & ->)%usd_simulate_Ok.
    usd_body. split; reflexivity.
Qed.

Lemma customs_debt_is_rounded_sum_of_stages_witness :
  (exists r : Multi.SimulationResult float,
      Multi.simulate wine_input wine_profile None = Ok r
      /\ Multi.pago_en_frontera r =
           Multi.round2 (add (Multi.deuda_aduanera r)
                             (Multi.perc_amount (Multi.percepcion r))))
  /\
  (exists r : Usd.SimulationResult float,
      Usd.simulate carton_input carton_profile carton_overrides = Ok r
      /\ Usd.deuda_aduanera r =
           Usd.r2
             (add (add (add (add (Usd.arancel_amount (Usd.arancel r))
                                 (Usd.isc_total (Usd.isc r)))
                            (Usd.igv_total (Usd.igv r)))
                       (Usd.tr_total (Usd.trade_remedies r)))
                  (Usd.sda_amount (Usd.sda r)))).
Proof.
  split; eexists; (split; [vm_compute; reflexivity |]).
  - apply (proj1 customs_debt_is_rounded_sum_of_stages float _
             wine_input wine_profile None).
    vm_compute; reflexivity.
  - apply (proj2 customs_debt_is_rounded_sum_of_stages float _
             carton_input carton_profile carton_overrides).
    vm_compute; reflexivity.
Defined.

(* ------------------------------------------------------------------ *)
(** * The input guard *)

Lemma multi_cifUSD_stated (input : Multi.SimulationInput Q) :
  Multi.cifUSD_of input =
  stated_value (Multi.cif input) (Multi.fob input) (Multi.freight input)
    (Multi.insurance input).
Proof. reflexivity. Qed.

Lemma usd_cifUsd_stated (input : Usd.SimulationInput Q) :
  Usd.cifUsd_of input =
  stated_value (Usd.cif input) (Usd.fob input) (Usd.freight input)
    (Usd.insurance input).
Proof. reflexivity. Qed.




(* ------------------------------------------------------------------ *)
(** * Mixed excise *)

Lemma band_matches_reaches (deg : Q) (b : Multi.Band Q) :
  Multi.band_matches deg b = true <-> reaches deg b.
Proof.
  unfold Multi.band_matches, reaches. destruct (Multi.max_abv b) as [m |].
  - qops. rewrite Qle_bool_iff. split.
    + intro Hle. exists m. auto.
    + intros (m' & [= <-] & Hle). exact Hle.
  - split; [discriminate |]. intros (m & Hm & _). discriminate.
Qed.

Lemma find_first_reaching (deg : Q) (bs : list (Multi.Band Q))
    (sel : option (Multi.Band Q)) :
  first_reaching deg bs sel -> find (Multi.band_matches deg) bs = sel.
Proof.
  induction 1 as [| b bs Hb | b bs sel Hb _ IH]; cbn [find].
  - reflexivity.
  - apply band_matches_reaches in Hb. rewrite Hb. reflexivity.
  - destruct (Multi.band_matches deg b) eqn:E.
    + apply band_matches_reaches in E. contradiction.
    + exact IH.
Qed.

(** Every band list has a first reaching band or none. *)
Lemma first_reaching_total (deg : Q) (bs : list (Multi.Band Q)) :
  first_reaching deg bs (find (Multi.band_matches deg) bs).
Proof.
  induction bs as [| b bs IH]; cbn [find].
  - constructor.
  - destruct (Multi.band_matches deg b) eqn:E.
    + apply first_reaching_here. apply band_matches_reaches. exact E.
    + apply first_reaching_later; [| exact IH].
      rewrite <- band_matches_reaches. congruence.
Qed.

Lemma pick_from_bands (rule : Multi.IscRule Q) (alcoholDegree : option Q)
    (sel : option (Multi.Band Q)) :
  first_reaching (or_zero alcoholDegree) (bands_of rule) sel ->
  Multi.pickIscSpecificFromBands (Multi.params rule) alcoholDegree =
  match sel with Some b => Multi.specific_per_l_pen b | None => None end.
Proof.
  unfold Multi.pickIscSpecificFromBands, bands_of.
  destruct (Multi.params rule) as [p |].
  - destruct (Multi.bands p) as [bs |].
    + intro Hsel. apply find_first_reaching in Hsel.
      change (nullish alcoholDegree zero) with (or_zero alcoholDegree).
      rewrite Hsel. reflexivity.
    + inversion 1. reflexivity.
  - inversion 1. reflexivity.
Qed.

(** C3, as stated, fails when no alcohol strength is supplied: the code
    reads the missing strength as 0 and takes the first band (1.25 per
    unit, total 125.00 for 100 units), where the claim names the flat amount
    (1.50 per unit, 150.00). *)
Lemma mixed_excise_absent_strength_uses_band :
  exists (r : Multi.SimulationResult Q) (sp : Multi.SpecificDetail Q),
    Multi.simulate
      {| Multi.hs10 := "2204210000"; Multi.originCountry := "CL";
         Multi.useFTA := Some true; Multi.currency := Some "USD"%string;
         Multi.fxRate := Some (375 # 100);
         Multi.cif := None; Multi.fob := Some 1000;
         Multi.freight := Some 150; Multi.insurance := Some 50;
         Multi.quantity := Some 100; Multi.quantityUnit := Some "L"%string;
         Multi.isUsed := None; Multi.importerProfile := Some normal;
         Multi.alcoholDegree := None |}
      wine_profile None = Ok r
    /\ Multi.det_specific (Multi.isc_details (Multi.isc r)) = Some sp
    /\ Multi.sp_perUnit sp == 125 # 100
    /\ Multi.sp_amount sp == 125
    /\ claimed_per_unit wine_bands (150 # 100) None == 150 # 100
    /\ ~ Multi.sp_perUnit sp == claimed_per_unit wine_bands (150 # 100) None.
Proof.
  eexists. eexists.
  split; [vm_compute; reflexivity |].
  split; [reflexivity |].
  repeat split; vm_compute; discriminate.
Qed.

(** C3, amended. Under the mixed regime the per-unit amount is that of the
    first band, in order, whose numeric maximum strength is at least the
    input strength, an absent strength being read as 0; the flat amount
    ([specificAmount], or 0 without one) is used when no band reaches the
    strength (or there is no band list) and when the selected band carries
    no numeric amount.  The excise total is quantity x per-unit amount,
    rounded, plus the rounded ad-valorem component on (base + duty). *)
Theorem mixed_excise_per_unit_from_bands
    (input : Multi.SimulationInput Q) (prof : Multi.RuleProfile Q)
    (overrides : option (Multi.SimulationOverrides Q))
    (r : Multi.SimulationResult Q) (rule : Multi.IscRule Q)
    (sel : option (Multi.Band Q)) :
  Multi.simulate input prof overrides = Ok r ->
  Multi.iscRule prof = Some rule ->
  Multi.system rule = Multi.sys_mixed ->
  first_reaching (or_zero (Multi.alcoholDegree input)) (bands_of rule) sel ->
  let flat := or_zero (Multi.specificAmount rule) in
  let perUnit :=
    match sel with
    | Some b => match Multi.specific_per_l_pen b with Some a => a | None => flat end
    | None => flat
    end in
  Multi.isc_total (Multi.isc r) =
    Multi.round2 (or_zero (Multi.quantity input) * perUnit)
    + Multi.round2 ((Multi.cif_pen r + Multi.arancel_amount (Multi.arancel r))
                    * or_zero (Multi.adValRate rule))
  /\ Multi.isc_mode (Multi.isc r) = "mixed"%string.
Proof.
  intros (fx & _ & _ & _ & ->)%multi_simulate_Ok Hrule Hsys Hsel flat perUnit.
  multi_body.
  unfold Multi.isc_stage in Eisc. rewrite Hrule, Hsys in Eisc.
  rewrite (pick_from_bands rule (Multi.alcoholDegree input) Hsel) in Eisc.
  injection Eisc as <- <-. cbn [Multi.det_mode]. split; [| reflexivity].
  subst perUnit flat. destruct sel as [b |]; [| reflexivity].
  destruct (Multi.specific_per_l_pen b); reflexivity.
Qed.

Lemma mixed_excise_per_unit_from_bands_witness :
  exists r : Multi.SimulationResult Q,
    Multi.simulate wine_input wine_profile None = Ok r
    /\ Multi.isc_total (Multi.isc r) ==
         Multi.round2 (100 * (250 # 100)) + Multi.round2 ((4500 + 0) * (20 # 100))
    /\ Multi.isc_total (Multi.isc r) == 250 + 900.
Proof.
  eexists. split; [reflexivity |].
  split; [| vm_compute; reflexivity].
  pose proof (@mixed_excise_per_unit_from_bands wine_input wine_profile None _
                {| Multi.system := Multi.sys_mixed;
                   Multi.adValRate := Some (dec 20 100);
                   Multi.specificAmount := Some (dec 150 100);
                   Multi.unit := Some "L"%string;
                   Multi.params := Some {| Multi.bands := Some wine_bands |} |}
                (Some {| Multi.max_abv := Some (of_Z 12);
                         Multi.specific_per_l_pen := Some (dec 250 100) |})
                eq_refl eq_refl eq_refl) as Hthm.
  cbv zeta in Hthm. destruct Hthm as [Htotal _].
  - apply first_reaching_later.
    + intros (m & [= <-] & Hle). vm_compute in Hle. apply Hle. reflexivity.
    + apply first_reaching_here. eexists. split; [reflexivity |].
      vm_compute. discriminate.
  - rewrite Htotal. vm_compute. reflexivity.
Defined.

(* ------------------------------------------------------------------ *)
(** * Profit margins *)

Lemma to_fixed2_zero : Qto_fixed2 0 == 0.
Proof. reflexivity. Qed.

(** Without sale rows the gross and the operating margin are 0. *)
Lemma margins_without_sales_gross_operating
    (importaciones : list (Analisis.ImportacionDetalle Q))
    (gastosOperativos : list (Analisis.GastoDetalle Q)) :
  let ub := Analisis.calcularUtilidadBruta [] importaciones in
  let uo := Analisis.calcularUtilidadOperativa ub gastosOperativos in
  Analisis.ventas_totales ub == 0
  /\ Analisis.margen_bruto_porcentaje ub == 0
  /\ Analisis.margen_operativo_porcentaje uo == 0.
Proof.
  cbv zeta. unfold Analisis.calcularUtilidadOperativa, Analisis.calcularUtilidadBruta.
  cbn [fold_left Analisis.ventas_totales Analisis.margen_bruto_porcentaje
       Analisis.margen_operativo_porcentaje Analisis.utilidad_bruta].
  repeat split; reflexivity.
Qed.

(** C4 on the code: the net margin is not taken over total sales.
    [calcularUtilidadNeta] rebuilds "ventas totales" as gross profit +
    operating expenses.  With no sale at all (total sales 0) the gross and
    operating margins are 0 but the net margin comes out as -200; with
    sales of 1000 and a net profit of 300 the net margin comes out as 60,
    not 30. *)
Theorem net_margin_base_is_not_total_sales :
  (let '(ub, uo, un) :=
     Analisis.calcularUtilidades (num := Q) idle_imports [] idle_expenses in
   Analisis.ventas_totales ub == 0
   /\ Analisis.margen_bruto_porcentaje ub == 0
   /\ Analisis.margen_operativo_porcentaje uo == 0
   /\ Analisis.utilidad_neta un == - 400
   /\ Analisis.margen_neto_porcentaje un == - 200)
  /\
  (let '(ub, uo, un) :=
     Analisis.calcularUtilidades (num := Q) trading_imports trading_exports
       trading_expenses in
   Analisis.ventas_totales ub == 1000
   /\ Analisis.utilidad_bruta ub == 400
   /\ Analisis.margen_bruto_porcentaje ub == 40
   /\ Analisis.utilidad_operativa uo == 300
   /\ Analisis.margen_operativo_porcentaje uo == 30
   /\ Analisis.utilidad_neta un == 300
   /\ Analisis.margen_neto_porcentaje un == 60).
Proof.
  split; vm_compute; repeat split; reflexivity.
Qed.

(** The same two study cases in binary64 arithmetic. *)
Lemma net_margin_base_is_not_total_sales_binary64 :
  (let '(ub, uo, un) :=
     Analisis.calcularUtilidades (num := float) idle_imports [] idle_expenses in
   PrimFloat.eqb (Analisis.ventas_totales ub) (of_Z 0)
   && PrimFloat.eqb (Analisis.margen_neto_porcentaje un) (of_Z (-200))) = true
  /\
  (let '(ub, uo, un) :=
     Analisis.calcularUtilidades (num := float) trading_imports trading_exports
       trading_expenses in
   PrimFloat.eqb (Analisis.ventas_totales ub) (of_Z 1000)
   && PrimFloat.eqb (Analisis.utilidad_neta un) (of_Z 300)
   && PrimFloat.eqb (Analisis.margen_neto_porcentaje un) (of_Z 60)) = true.
Proof.
  split; vm_compute; reflexivity.
Qed.

(* ------------------------------------------------------------------ *)
(** * Perception *)

Lemma defaultPerception_spec (profile : option ImporterProfile) (isUsed : option bool) :
  fst (Multi.defaultPerception profile isUsed) == fst (spec_default_perception profile isUsed)
  /\ snd (Multi.defaultPerception (num := Q) profile isUsed)
     = snd (spec_default_perception profile isUsed).
Proof.
  destruct profile as [[] |], isUsed as [[] |]; split; reflexivity.
Qed.

Lemma defPerc_spec (input : Usd.SimulationInput Q) :
  fst (Usd.defPerc input)
    == fst (spec_default_perception (Usd.importerProfile input) (Usd.isUsed input))
  /\ snd (Usd.defPerc input)
     = snd (spec_default_perception (Usd.importerProfile input) (Usd.isUsed input)).
Proof.
  unfold Usd.defPerc.
  destruct (Usd.importerProfile input) as [[] |], (Usd.isUsed input) as [[] |];
    split; reflexivity.
Qed.

(** C5. In the multi-country engine the perception rate is the override
    when one is given (with an override rule label), else the default picked
    by precedence (public or platform importer 0, first import or no habido
    0.10, used goods 0.05, otherwise 0.035); the base is the VAT-family base
    + VAT-family total + trade-remedy total, and the amount is base x rate
    rounded to 2 decimals. *)
Theorem perception_rate_base_amount
    (input : Multi.SimulationInput Q) (prof : Multi.RuleProfile Q)
    (overrides : option (Multi.SimulationOverrides Q))
    (r : Multi.SimulationResult Q) :
  Multi.simulate input prof overrides = Ok r ->
  let p := Multi.percepcion r in
  match Multi.ov overrides (@Multi.perceptionRate Q) with
  | Some rate =>
      Multi.perc_rate p = rate
      /\ Multi.perc_rule p =
           (if Qeq_bool rate 0 then "Percepción override: 0%" else "Percepción override")%string
  | None =>
      Multi.perc_rate p ==
        fst (spec_default_perception (Multi.importerProfile input) (Multi.isUsed input))
      /\ Multi.perc_rule p =
           snd (spec_default_perception (Multi.importerProfile input) (Multi.isUsed input))
  end
  /\ Multi.perc_base p ==
       Multi.igv_base (Multi.igv r) + Multi.igv_total (Multi.igv r)
       + Multi.tr_total (Multi.trade_remedies r)
  /\ Multi.perc_amount p = Multi.round2 (Multi.perc_base p * Multi.perc_rate p).
Proof.
  intros (fx & _ & _ & _ & ->)%multi_simulate_Ok p. subst p.
  pose proof (remedies_stage_cents input prof overrides
                (Multi.round2 (mul (Multi.cifUSD_of input) fx)) fx) as Hrem.
  multi_body. cbn [fst] in Hrem.
  split; [| split; [| reflexivity]].
  - destruct (Multi.ov overrides _) as [rate |]; cbn [nullish].
    + split; [reflexivity |].
      rewrite strict_eqb_Q. reflexivity.
    + apply defaultPerception_spec.
  - qops.
    rewrite (round2_cents (q := _ + _ + _ + adcvdTotal)) by auto 10 with cents.
    rewrite (round2_cents (q := (if Multi.vatExempt prof then _ else _) + _))
      by auto with cents.
    ring.
Qed.

Lemma perception_rate_base_amount_witness :
  exists r : Multi.SimulationResult Q,
    Multi.simulate wine_input wine_profile None = Ok r
    /\ Multi.perc_rate (Multi.percepcion r) == 35 # 1000
    /\ Multi.perc_base (Multi.percepcion r) ==
         Multi.igv_base (Multi.igv r) + Multi.igv_total (Multi.igv r)
         + Multi.tr_total (Multi.trade_remedies r).
Proof.
  eexists. split; [reflexivity |].
  pose proof (@perception_rate_base_amount wine_input wine_profile None _ eq_refl)
    as Hthm.
  cbv zeta in Hthm. cbn [Multi.ov] in Hthm.
  destruct Hthm as ((Hrate & _) & Hbase & _).
  split; [exact Hrate | exact Hbase].
Defined.

(* ------------------------------------------------------------------ *)
(** * Duty rate selection *)

Lemma Qmath_min_lt (mfn fta : Q) : fta < mfn -> Qmath_min mfn fta = fta.
Proof.
  intro Hlt. unfold Qmath_min.
  destruct (Qle_bool mfn fta) eqn:E; [| reflexivity].
  apply Qle_bool_iff in E. exfalso. exact (Qlt_not_le _ _ Hlt E).
Qed.

Lemma Qmath_min_ge (mfn fta : Q) : ~ fta < mfn -> Qmath_min mfn fta = mfn.
Proof.
  intro Hge. unfold Qmath_min.
  destruct (Qle_bool mfn fta) eqn:E; [reflexivity |].
  exfalso. apply Hge. apply Qltb_lt. unfold Qltb. rewrite E. reflexivity.
Qed.

(** The rate and note chosen by the duty stage. *)
Lemma duty_stage_selection (input : Multi.SimulationInput Q) (prof : Multi.RuleProfile Q)
    (overrides : option (Multi.SimulationOverrides Q)) :
  match Multi.ov overrides (@Multi.adValoremRate Q) with
  | Some a => fst (Multi.duty_stage input prof overrides) = a
  | None =>
      (forall fta, Multi.useFTA input = Some true -> Multi.ftaRate prof = Some fta ->
                   fta < Multi.mfnRate prof ->
                   fst (Multi.duty_stage input prof overrides) = fta
                   /\ In preference_note (snd (Multi.duty_stage input prof overrides)))
      /\ (~ (Multi.useFTA input = Some true
             /\ exists fta, Multi.ftaRate prof = Some fta /\ fta < Multi.mfnRate prof) ->
          fst (Multi.duty_stage input prof overrides) = Multi.mfnRate prof)
  end.
Proof.
  unfold Multi.duty_stage.
  destruct (Multi.ov overrides _) as [a |]; [reflexivity |].
  split.
  - intros fta Hfta Hrate Hlt. rewrite Hrate, Hfta. cbn [truthy_bool andb]. qops.
    replace (Qltb fta (Multi.mfnRate prof)) with true
      by (symmetry; apply Qltb_lt; exact Hlt).
    cbn [fst snd]. split; [apply Qmath_min_lt; exact Hlt | left; reflexivity].
  - intro Hno. destruct (Multi.ftaRate prof) as [fta |]; [| reflexivity].
    destruct (Multi.useFTA input) as [[] |]; cbn [truthy_bool andb]; try reflexivity.
    qops. assert (Hge : ~ fta < Multi.mfnRate prof).
    { intro Hlt. apply Hno. split; [reflexivity |]. exists fta. auto. }
    destruct (Qltb fta (Multi.mfnRate prof)) eqn:E.
    + apply Qltb_lt in E. contradiction.
    + cbn [fst]. apply Qmath_min_ge. exact Hge.
Qed.

(** C6. In the multi-country engine an ad-valorem override, when present,
    is the applied duty rate.  Without one: if the preference flag is set
    and a preferential rate exists and is lower than the MFN rate, the
    applied rate is the preferential rate and the preference note is
    recorded; in every other case the applied rate is the MFN rate. *)
Theorem duty_rate_preference_selection
    (input : Multi.SimulationInput Q) (prof : Multi.RuleProfile Q)
    (overrides : option (Multi.SimulationOverrides Q))
    (r : Multi.SimulationResult Q) :
  Multi.simulate input prof overrides = Ok r ->
  match Multi.ov overrides (@Multi.adValoremRate Q) with
  | Some a => Multi.arancel_rate (Multi.arancel r) = a
  | None =>
      (forall fta, Multi.useFTA input = Some true -> Multi.ftaRate prof = Some fta ->
                   fta < Multi.mfnRate prof ->
                   Multi.arancel_rate (Multi.arancel r) = fta
                   /\ In preference_note (Multi.notes r))
      /\ (~ (Multi.useFTA input = Some true
             /\ exists fta, Multi.ftaRate prof = Some fta /\ fta < Multi.mfnRate prof) ->
          Multi.arancel_rate (Multi.arancel r) = Multi.mfnRate prof)
  end.
Proof.
  intros (fx & _ & _ & _ & ->)%multi_simulate_Ok.
  pose proof (duty_stage_selection input prof overrides) as Hsel.
  multi_body. cbn [fst snd] in Hsel.
  destruct (Multi.ov overrides _) as [a |]; [exact Hsel |].
  destruct Hsel as [Hpref Hmfn]. split; [| exact Hmfn].
  intros fta Hfta Hrate Hlt. destruct (Hpref fta Hfta Hrate Hlt) as [Hr Hn].
  split; [exact Hr |].
  apply in_or_app. left. destruct (Multi.vatExempt prof); [| exact Hn].
  apply in_or_app. left. exact Hn.
Qed.

Lemma duty_rate_preference_selection_witness :
  exists r : Multi.SimulationResult Q,
    Multi.simulate wine_input wine_profile None = Ok r
    /\ Multi.arancel_rate (Multi.arancel r) = 0
    /\ In preference_note (Multi.notes r).
Proof.
  eexists. split; [reflexivity |].
  pose proof (@duty_rate_preference_selection wine_input wine_profile None _ eq_refl)
    as Hthm.
  cbn [Multi.ov] in Hthm. destruct Hthm as [Hpref _].
  apply (Hpref 0); [reflexivity | reflexivity | vm_compute; reflexivity].
Defined.

(* ------------------------------------------------------------------ *)
(** * Special customs fee (SDA) *)

Lemma gtb_zero_Q (a : Q) : gtb a zero = true <-> 0 < a.
Proof. unfold gtb, zero. qops. apply Qltb_lt. Qed.

Lemma gtb_Q (a b : Q) : gtb a b = true <-> b < a.
Proof. unfold gtb. qops. apply Qltb_lt. Qed.




(* ------------------------------------------------------------------ *)
(** * Monotonicity in the customs value base *)

Lemma round2_mul_le (a b rate : Q) :
  a <= b -> 0 <= rate -> Multi.round2 (a * rate) <= Multi.round2 (b * rate).
Proof.
  intros Hab Hrate. apply round2_le. apply Qmult_le_compat_r; assumption.
Qed.

Lemma nullish_nonneg (a : option Q) (d : Q) :
  nonneg_opt a -> 0 <= d -> 0 <= nullish a d.
Proof. destruct a; cbn; auto. Qed.

(** The record produced by the multi-country body, stage by stage. *)
Lemma multi_body_stages (input : Multi.SimulationInput Q) (prof : Multi.RuleProfile Q)
    (overrides : option (Multi.SimulationOverrides Q)) (cifUSD fx : Q) :
  let body := Multi.simulate_body input prof overrides cifUSD fx in
  let cifPEN := Multi.round2 (cifUSD * fx) in
  let dArancel := Multi.round2 (cifPEN * fst (Multi.duty_stage input prof overrides)) in
  let iscTotal := fst (Multi.isc_stage input prof cifPEN dArancel) in
  let adcvdTotal := fst (Multi.remedies_stage input prof overrides cifPEN fx) in
  let igvBase := Multi.round2 (cifPEN + dArancel + iscTotal) in
  let igv16 := if Multi.vatExempt prof then 0 else Multi.round2 (igvBase * dec 16 100) in
  let ipm2 := if Multi.vatExempt prof then 0 else Multi.round2 (igvBase * dec 2 100) in
  let percRate :=
    nullish (Multi.ov overrides (@Multi.perceptionRate Q))
      (fst (Multi.defaultPerception (Multi.importerProfile input) (Multi.isUsed input))) in
  Multi.cif_pen body = cifPEN
  /\ Multi.arancel_amount (Multi.arancel body) = dArancel
  /\ Multi.isc_total (Multi.isc body) = iscTotal
  /\ Multi.tr_total (Multi.trade_remedies body) = adcvdTotal
  /\ Multi.igv_base (Multi.igv body) = igvBase
  /\ Multi.igv_total (Multi.igv body) = Multi.round2 (igv16 + ipm2)
  /\ Multi.perc_amount (Multi.percepcion body) =
       Multi.round2 (Multi.round2 (igvBase + igv16 + ipm2 + adcvdTotal) * percRate).
Proof.
  cbv zeta. unfold Multi.simulate_body. qops. multi_body. cbn [fst].
  repeat split; reflexivity.
Qed.

Lemma isc_stage_le (input : Multi.SimulationInput Q) (prof : Multi.RuleProfile Q)
    (c1 c2 d1 d2 : Q) :
  (forall rule, Multi.iscRule prof = Some rule -> nonneg_opt (Multi.adValRate rule)) ->
  c1 <= c2 -> d1 <= d2 ->
  fst (Multi.isc_stage input prof c1 d1) <= fst (Multi.isc_stage input prof c2 d2).
Proof.
  intros Hrate Hc Hd. unfold Multi.isc_stage.
  destruct (Multi.iscRule prof) as [rule |]; [| apply Qle_refl].
  specialize (Hrate rule eq_refl).
  assert (Hr : 0 <= nullish (Multi.adValRate rule) zero)
    by (apply nullish_nonneg; [exact Hrate | apply Qle_refl]).
  assert (Hsum : c1 + d1 <= c2 + d2) by (apply Qplus_le_compat; assumption).
  destruct (Multi.system rule); cbn [fst]; qops; try apply Qle_refl.
  - apply round2_mul_le; assumption.
  - apply Qplus_le_r. apply round2_mul_le; assumption.
Qed.

Lemma remedy_fold_le (c1 c2 : Q) (quantity : option Q)
    (rs : list (Multi.TradeRemedy Q)) :
  c1 <= c2 ->
  (forall tr, In tr rs -> Multi.tr_mode tr = Multi.mode_ad_valorem ->
              0 <= Multi.rateOrAmount tr) ->
  forall acc1 acc2, fst acc1 <= fst acc2 ->
    fst (fold_left (Multi.remedy_step c1 quantity) rs acc1)
    <= fst (fold_left (Multi.remedy_step c2 quantity) rs acc2).
Proof.
  intros Hc. induction rs as [| tr rs IH]; intros Hrates acc1 acc2 Hacc;
    cbn [fold_left].
  - exact Hacc.
  - apply IH.
    + intros tr' Hin. apply Hrates. right. exact Hin.
    + destruct acc1 as [t1 l1], acc2 as [t2 l2]. unfold Multi.remedy_step.
      cbn [fst] in Hacc.
      destruct (Multi.tr_mode tr) eqn:Emode; cbn [fst]; qops.
      * apply Qplus_le_compat; [exact Hacc |].
        apply round2_mul_le; [exact Hc |].
        apply Hrates; [left; reflexivity | exact Emode].
      * apply Qplus_le_compat; [exact Hacc | apply Qle_refl].
Qed.

Lemma remedy_override_le (ty : RemedyType) (usd : option Q) (fx : Q)
    (acc1 acc2 : Q * list (Multi.RemedyItem Q)) :
  fst acc1 <= fst acc2 ->
  fst (Multi.remedy_override ty usd fx acc1)
  <= fst (Multi.remedy_override ty usd fx acc2).
Proof.
  destruct acc1 as [t1 l1], acc2 as [t2 l2]. unfold Multi.remedy_override.
  cbn [fst]. intro Hacc.
  destruct usd as [u |]; [| exact Hacc].
  destruct (truthy u && gtb u zero); cbn [fst]; qops; [| exact Hacc].
  apply Qplus_le_compat; [exact Hacc | apply Qle_refl].
Qed.

Lemma remedies_stage_le (input : Multi.SimulationInput Q) (prof : Multi.RuleProfile Q)
    (overrides : option (Multi.SimulationOverrides Q)) (c1 c2 fx : Q) :
  c1 <= c2 ->
  (forall tr, In tr (Multi.tradeRemedies prof) ->
              Multi.tr_mode tr = Multi.mode_ad_valorem -> 0 <= Multi.rateOrAmount tr) ->
  fst (Multi.remedies_stage input prof overrides c1 fx)
  <= fst (Multi.remedies_stage input prof overrides c2 fx).
Proof.
  intros Hc Hrates. unfold Multi.remedies_stage.
  apply remedy_override_le, remedy_override_le, remedy_fold_le;
    [exact Hc | exact Hrates | apply Qle_refl].
Qed.

Lemma defaultPerception_nonneg (profile : option ImporterProfile) (isUsed : option bool) :
  0 <= fst (Multi.defaultPerception (num := Q) profile isUsed).
Proof.
  destruct profile as [[] |], isUsed as [[] |]; vm_compute; discriminate.
Qed.

Lemma duty_stage_nonneg (input : Multi.SimulationInput Q) (prof : Multi.RuleProfile Q)
    (overrides : option (Multi.SimulationOverrides Q)) :
  0 <= Multi.mfnRate prof -> nonneg_opt (Multi.ftaRate prof) ->
  nonneg_opt (Multi.ov overrides (@Multi.adValoremRate Q)) ->
  0 <= fst (Multi.duty_stage input prof overrides).
Proof.
  intros Hmfn Hfta Hov. unfold Multi.duty_stage.
  assert (Hmin : forall fta, 0 <= fta -> 0 <= math_min (Multi.mfnRate prof) fta).
  { intros fta Hf. qops. unfold Qmath_min. destruct (Qle_bool _ _); assumption. }
  destruct (Multi.ov overrides _) as [a |]; [exact Hov |].
  destruct (Multi.ftaRate prof) as [fta |]; [| exact Hmfn].
  cbn in Hfta.
  destruct (truthy_bool (Multi.useFTA input)); cbn [andb].
  - destruct (ltb fta (Multi.mfnRate prof)); cbn [fst]; auto.
  - exact Hmfn.
Qed.

(** The multi-country body is monotone in the customs value handed to it. *)
Lemma multi_body_monotone (input : Multi.SimulationInput Q) (prof : Multi.RuleProfile Q)
    (overrides : option (Multi.SimulationOverrides Q)) (c1 c2 fx : Q) :
  multi_valid_rates input prof overrides -> 0 <= fx -> c1 <= c2 ->
  let r1 := Multi.simulate_body input prof overrides c1 fx in
  let r2 := Multi.simulate_body input prof overrides c2 fx in
  Multi.arancel_amount (Multi.arancel r1) <= Multi.arancel_amount (Multi.arancel r2)
  /\ Multi.isc_total (Multi.isc r1) <= Multi.isc_total (Multi.isc r2)
  /\ Multi.igv_total (Multi.igv r1) <= Multi.igv_total (Multi.igv r2)
  /\ Multi.perc_amount (Multi.percepcion r1) <= Multi.perc_amount (Multi.percepcion r2).
Proof.
  intros (_ & Hmfn & Hfta & Hisc & Htr & Hav & Hperc) Hfx Hc r1 r2.
  destruct (multi_body_stages input prof overrides c1 fx)
    as (_ & Ha1 & Hi1 & _ & _ & Hv1 & Hp1).
  destruct (multi_body_stages input prof overrides c2 fx)
    as (_ & Ha2 & Hi2 & _ & _ & Hv2 & Hp2).
  subst r1 r2. rewrite Ha1, Ha2, Hi1, Hi2, Hv1, Hv2, Hp1, Hp2.
  clear Ha1 Ha2 Hi1 Hi2 Hv1 Hv2 Hp1 Hp2.
  pose proof (duty_stage_nonneg input prof overrides Hmfn Hfta Hav) as Hrate.
  set (rate := fst (Multi.duty_stage input prof overrides)) in *.
  assert (Hpen : Multi.round2 (c1 * fx) <= Multi.round2 (c2 * fx))
    by (apply round2_mul_le; assumption).
  set (p1 := Multi.round2 (c1 * fx)) in *. set (p2 := Multi.round2 (c2 * fx)) in *.
  assert (Hd : Multi.round2 (p1 * rate) <= Multi.round2 (p2 * rate))
    by (apply round2_mul_le; assumption).
  set (d1 := Multi.round2 (p1 * rate)) in *. set (d2 := Multi.round2 (p2 * rate)) in *.
  pose proof (isc_stage_le input prof Hisc Hpen Hd) as Hi.
  set (i1 := fst (Multi.isc_stage input prof p1 d1)) in *.
  set (i2 := fst (Multi.isc_stage input prof p2 d2)) in *.
  pose proof (remedies_stage_le input prof overrides fx Hpen Htr) as Hr.
  set (t1 := fst (Multi.remedies_stage input prof overrides p1 fx)) in *.
  set (t2 := fst (Multi.remedies_stage input prof overrides p2 fx)) in *.
  assert (Hb : Multi.round2 (p1 + d1 + i1) <= Multi.round2 (p2 + d2 + i2))
    by (apply round2_le; repeat apply Qplus_le_compat; assumption).
  set (b1 := Multi.round2 (p1 + d1 + i1)) in *.
  set (b2 := Multi.round2 (p2 + d2 + i2)) in *.
  assert (H16 : (if Multi.vatExempt prof then 0 else Multi.round2 (b1 * dec 16 100))
                <= (if Multi.vatExempt prof then 0 else Multi.round2 (b2 * dec 16 100))).
  { destruct (Multi.vatExempt prof); [apply Qle_refl |].
    apply round2_mul_le; [exact Hb | vm_compute; discriminate]. }
  assert (H2 : (if Multi.vatExempt prof then 0 else Multi.round2 (b1 * dec 2 100))
               <= (if Multi.vatExempt prof then 0 else Multi.round2 (b2 * dec 2 100))).
  { destruct (Multi.vatExempt prof); [apply Qle_refl |].
    apply round2_mul_le; [exact Hb | vm_compute; discriminate]. }
  repeat split.
  - exact Hd.
  - exact Hi.
  - apply round2_le. apply Qplus_le_compat; assumption.
  - apply round2_mul_le.
    + apply round2_le. repeat apply Qplus_le_compat; assumption.
    + apply nullish_nonneg; [exact Hperc | apply defaultPerception_nonneg].
Qed.

(** The body reads the operation only through the fields that do not state
    the customs value. *)
Lemma multi_body_same_but_value (i1 i2 : Multi.SimulationInput Q)
    (prof : Multi.RuleProfile Q) (overrides : option (Multi.SimulationOverrides Q))
    (cifUSD fx : Q) :
  multi_same_but_value i1 i2 ->
  Multi.simulate_body i1 prof overrides cifUSD fx
  = Multi.simulate_body i2 prof overrides cifUSD fx.
Proof.
  intros (_ & _ & Hfta & _ & _ & Hqty & _ & Hused & Hprofile & Hdeg).
  unfold Multi.simulate_body, Multi.duty_stage, Multi.isc_stage, Multi.remedies_stage.
  rewrite Hfta, Hqty, Hused, Hprofile, Hdeg. reflexivity.
Qed.

Lemma usd_body_same_but_value (i1 i2 : Usd.SimulationInput Q)
    (prof : Usd.RuleProfile Q) (o : Usd.SimulationOverrides Q) (cifUsd : Q) :
  usd_same_but_value i1 i2 ->
  Usd.simulate_body i1 prof o cifUsd = Usd.simulate_body i2 prof o cifUsd.
Proof.
  intros (_ & _ & Hprofile & Hused).
  unfold Usd.simulate_body, Usd.perception_stage, Usd.defPerc.
  rewrite Hprofile, Hused. reflexivity.
Qed.

(** The record produced by the USD-only body, stage by stage. *)
Lemma usd_body_stages (input : Usd.SimulationInput Q) (prof : Usd.RuleProfile Q)
    (o : Usd.SimulationOverrides Q) (cifUsd : Q) :
  let body := Usd.simulate_body input prof o cifUsd in
  let cifBase := Usd.r2 cifUsd in
  let avRate := if truthy (Usd.adValoremRate prof) then Usd.adValoremRate prof else 0 in
  let avAmt := Usd.r2 (cifBase * avRate) in
  let iscTotal := snd (fst (Usd.isc_stage o cifBase avAmt)) in
  let igvBase := Usd.r2 (cifBase + avAmt + iscTotal) in
  let igv16 := if Usd.igvEnabled o then Usd.r2 (igvBase * Usd.igvRate prof) else 0 in
  let ipm2 := if Usd.igvEnabled o then Usd.r2 (igvBase * Usd.ipmRate prof) else 0 in
  let remediesTotal := fst (Usd.remedies_stage o) in
  Usd.cif_pen body = cifBase
  /\ Usd.arancel_amount (Usd.arancel body) = avAmt
  /\ Usd.isc_total (Usd.isc body) = iscTotal
  /\ Usd.tr_total (Usd.trade_remedies body) = remediesTotal
  /\ Usd.igv_base (Usd.igv body) = igvBase
  /\ Usd.igv_total (Usd.igv body) = Usd.r2 (igv16 + ipm2)
  /\ Usd.perc_amount (Usd.percepcion body) =
       snd (fst (Usd.perception_stage input o igvBase igv16 ipm2 remediesTotal)).
Proof.
  cbv zeta. unfold Usd.simulate_body. qops.
  destruct (Usd.isc_stage o _ _) as [[iscApplied iscTotal] iscDetails].
  destruct (Usd.remedies_stage o) as [remediesTotal items].
  cbn [fst snd].
  destruct (Usd.perception_stage input o _ _ _ remediesTotal)
    as [[[[percRate percRule] percBase] percAmt] percApplied].
  cbn [fst snd]. repeat split; reflexivity.
Qed.

Lemma defPerc_nonneg (input : Usd.SimulationInput Q) : 0 <= fst (Usd.defPerc input).
Proof.
  unfold Usd.defPerc.
  destruct (Usd.importerProfile input) as [[] |], (Usd.isUsed input) as [[] |];
    vm_compute; discriminate.
Qed.

(** The USD-only body is monotone in the customs value handed to it. *)
Lemma usd_body_monotone (input : Usd.SimulationInput Q) (prof : Usd.RuleProfile Q)
    (o : Usd.SimulationOverrides Q) (c1 c2 : Q) :
  usd_valid_rates prof o -> c1 <= c2 ->
  let r1 := Usd.simulate_body input prof o c1 in
  let r2 := Usd.simulate_body input prof o c2 in
  Usd.arancel_amount (Usd.arancel r1) <= Usd.arancel_amount (Usd.arancel r2)
  /\ Usd.isc_total (Usd.isc r1) <= Usd.isc_total (Usd.isc r2)
  /\ Usd.igv_total (Usd.igv r1) <= Usd.igv_total (Usd.igv r2)
  /\ Usd.perc_amount (Usd.percepcion r1) <= Usd.perc_amount (Usd.percepcion r2).
Proof.
  intros (Hav & Higv & Hipm & Hisc & Hperc) Hc r1 r2.
  destruct (usd_body_stages input prof o c1) as (_ & Ha1 & Hi1 & _ & _ & Hv1 & Hp1).
  destruct (usd_body_stages input prof o c2) as (_ & Ha2 & Hi2 & _ & _ & Hv2 & Hp2).
  subst r1 r2. rewrite Ha1, Ha2, Hi1, Hi2, Hv1, Hv2, Hp1, Hp2.
  clear Ha1 Ha2 Hi1 Hi2 Hv1 Hv2 Hp1 Hp2.
  assert (Hrate : 0 <= (if truthy (Usd.adValoremRate prof)
                        then Usd.adValoremRate prof else 0))
    by (destruct (truthy _); [exact Hav | apply Qle_refl]).
  set (rate := if truthy (Usd.adValoremRate prof) then Usd.adValoremRate prof else 0) in *.
  rewrite !r2_round2.
  assert (Hb0 : Multi.round2 c1 <= Multi.round2 c2) by (apply round2_le; exact Hc).
  set (p1 := Multi.round2 c1) in *. set (p2 := Multi.round2 c2) in *.
  assert (Hd : Multi.round2 (p1 * rate) <= Multi.round2 (p2 * rate))
    by (apply round2_mul_le; assumption).
  set (d1 := Multi.round2 (p1 * rate)) in *. set (d2 := Multi.round2 (p2 * rate)) in *.
  assert (Hi : snd (fst (Usd.isc_stage o p1 d1)) <= snd (fst (Usd.isc_stage o p2 d2))).
  { unfold Usd.isc_stage. destruct (Usd.iscEnabled o); cbn [fst snd]; [| apply Qle_refl].
    rewrite !r2_round2. qops. apply round2_mul_le.
    - apply round2_le. apply Qplus_le_compat; assumption.
    - apply nullish_nonneg; [exact Hisc | apply Qle_refl]. }
  set (i1 := snd (fst (Usd.isc_stage o p1 d1))) in *.
  set (i2 := snd (fst (Usd.isc_stage o p2 d2))) in *.
  assert (Hb : Multi.round2 (p1 + d1 + i1) <= Multi.round2 (p2 + d2 + i2))
    by (apply round2_le; repeat apply Qplus_le_compat; assumption).
  set (b1 := Multi.round2 (p1 + d1 + i1)) in *.
  set (b2 := Multi.round2 (p2 + d2 + i2)) in *.
  assert (H16 : (if Usd.igvEnabled o then Usd.r2 (b1 * Usd.igvRate prof) else 0)
                <= (if Usd.igvEnabled o then Usd.r2 (b2 * Usd.igvRate prof) else 0)).
  { destruct (Usd.igvEnabled o); [| apply Qle_refl].
    rewrite !r2_round2. apply round2_mul_le; assumption. }
  assert (H2 : (if Usd.igvEnabled o then Usd.r2 (b1 * Usd.ipmRate prof) else 0)
               <= (if Usd.igvEnabled o then Usd.r2 (b2 * Usd.ipmRate prof) else 0)).
  { destruct (Usd.igvEnabled o); [| apply Qle_refl].
    rewrite !r2_round2. apply round2_mul_le; assumption. }
  repeat split.
  - exact Hd.
  - exact Hi.
  - apply round2_le. apply Qplus_le_compat; assumption.
  - unfold Usd.perception_stage.
    destruct (Usd.perceptionEnabled o); cbn [fst snd]; [| apply Qle_refl].
    rewrite !r2_round2. qops. apply round2_mul_le.
    + apply round2_le. apply Qplus_le_compat; [| apply Qle_refl].
      repeat apply Qplus_le_compat; assumption.
    + apply nullish_nonneg; [exact Hperc | apply defPerc_nonneg].
Qed.

(** C9. For two valid operations that differ only in the customs value
    base, the second base being at least the first, with the same rule
    profile and overrides and no rate below 0, the duty amount, the excise
    total (ad-valorem mode included), the VAT-family total and the
    perception amount of the second run are each at least those of the
    first, in both engines. *)
Theorem larger_base_never_lowers_taxes :
  (forall (i1 i2 : Multi.SimulationInput Q) (prof : Multi.RuleProfile Q)
          (overrides : option (Multi.SimulationOverrides Q))
          (r1 r2 : Multi.SimulationResult Q),
      multi_same_but_value i1 i2 ->
      multi_valid_rates i1 prof overrides ->
      Multi.cifUSD_of i1 <= Multi.cifUSD_of i2 ->
      Multi.simulate i1 prof overrides = Ok r1 ->
      Multi.simulate i2 prof overrides = Ok r2 ->
      Multi.arancel_amount (Multi.arancel r1) <= Multi.arancel_amount (Multi.arancel r2)
      /\ Multi.isc_total (Multi.isc r1) <= Multi.isc_total (Multi.isc r2)
      /\ Multi.igv_total (Multi.igv r1) <= Multi.igv_total (Multi.igv r2)
      /\ Multi.perc_amount (Multi.percepcion r1)
         <= Multi.perc_amount (Multi.percepcion r2))
  /\
  (forall (i1 i2 : Usd.SimulationInput Q) (prof : Usd.RuleProfile Q)
          (o : Usd.SimulationOverrides Q) (r1 r2 : Usd.SimulationResult Q),
      usd_same_but_value i1 i2 ->
      usd_valid_rates prof o ->
      Usd.cifUsd_of i1 <= Usd.cifUsd_of i2 ->
      Usd.simulate i1 prof o = Ok r1 ->
      Usd.simulate i2 prof o = Ok r2 ->
      Usd.arancel_amount (Usd.arancel r1) <= Usd.arancel_amount (Usd.arancel r2)
      /\ Usd.isc_total (Usd.isc r1) <= Usd.isc_total (Usd.isc r2)
      /\ Usd.igv_total (Usd.igv r1) <= Usd.igv_total (Usd.igv r2)
      /\ Usd.perc_amount (Usd.percepcion r1) <= Usd.perc_amount (Usd.percepcion r2)).
Proof.
  split.
  - intros i1 i2 prof overrides r1 r2 Hsame Hvalid Hle
      (fx1 & Hfx1 & _ & _ & ->)%multi_simulate_Ok
      (fx2 & Hfx2 & _ & _ & ->)%multi_simulate_Ok.
    assert (Hfx : fx2 = fx1).
    { destruct Hsame as (_ & _ & _ & _ & Heq & _). congruence. }
    subst fx2. rewrite <- (multi_body_same_but_value prof overrides _ fx1 Hsame).
    apply multi_body_monotone; [exact Hvalid | | exact Hle].
    destruct Hvalid as (Hnn & _). rewrite Hfx1 in Hnn. exact Hnn.
  - intros i1 i2 prof o r1 r2 Hsame Hvalid Hle
      (_ & ->)%usd_simulate_Ok (_ & ->)%usd_simulate_Ok.
    rewrite <- (usd_body_same_but_value prof o _ Hsame).
    apply usd_body_monotone; assumption.
Qed.

Lemma wine_valid_rates : multi_valid_rates wine_input wine_profile None.
Proof.
  repeat split; try (vm_compute; discriminate).
  - intros rule [= <-]. vm_compute. discriminate.
  - intros tr [<- | []] _. vm_compute. discriminate.
Qed.

Lemma larger_base_never_lowers_taxes_witness :
  (exists r1 r2 : Multi.SimulationResult Q,
      Multi.simulate wine_input wine_profile None = Ok r1
      /\ Multi.simulate wine_input_large wine_profile None = Ok r2
      /\ Multi.igv_total (Multi.igv r1) <= Multi.igv_total (Multi.igv r2)
      /\ Multi.perc_amount (Multi.percepcion r1)
         <= Multi.perc_amount (Multi.percepcion r2))
  /\
  (exists r1 r2 : Usd.SimulationResult Q,
      Usd.simulate carton_input carton_profile carton_overrides = Ok r1
      /\ Usd.simulate carton_input_large carton_profile carton_overrides = Ok r2
      /\ Usd.arancel_amount (Usd.arancel r1) <= Usd.arancel_amount (Usd.arancel r2)
      /\ Usd.igv_total (Usd.igv r1) <= Usd.igv_total (Usd.igv r2)).
Proof.
  split; eexists; eexists; (split; [reflexivity |]); (split; [reflexivity |]).
  - match goal with
    | |- Multi.igv_total (Multi.igv ?r1) <= Multi.igv_total (Multi.igv ?r2) /\ _ =>
        assert (Hrun1 : Multi.simulate wine_input wine_profile None = Ok r1)
          by reflexivity;
        assert (Hrun2 : Multi.simulate wine_input_large wine_profile None = Ok r2)
          by reflexivity
    end.
    assert (Hsame : multi_same_but_value wine_input wine_input_large)
      by (repeat split; reflexivity).
    assert (Hle : Multi.cifUSD_of (num := Q) wine_input
                  <= Multi.cifUSD_of wine_input_large)
      by (vm_compute; discriminate).
    destruct (proj1 larger_base_never_lowers_taxes _ _ _ _ _ _
                Hsame wine_valid_rates Hle Hrun1 Hrun2) as (_ & _ & Hv & Hp).
    split; assumption.
  - match goal with
    | |- Usd.arancel_amount (Usd.arancel ?r1)
         <= Usd.arancel_amount (Usd.arancel ?r2) /\ _ =>
        assert (Hrun1 : Usd.simulate carton_input carton_profile carton_overrides
                        = Ok r1) by reflexivity;
        assert (Hrun2 : Usd.simulate carton_input_large carton_profile
                          carton_overrides = Ok r2) by reflexivity
    end.
    assert (Hsame : usd_same_but_value carton_input carton_input_large)
      by (repeat split; reflexivity).
    assert (Hvalid : usd_valid_rates carton_profile carton_overrides)
      by (repeat split; try (vm_compute; discriminate)).
    assert (Hle : Usd.cifUsd_of (num := Q) carton_input
                  <= Usd.cifUsd_of carton_input_large)
      by (vm_compute; discriminate).
    destruct (proj2 larger_base_never_lowers_taxes _ _ _ _ _ _
                Hsame Hvalid Hle Hrun1 Hrun2) as (Ha & _ & Hv & _).
    split; assumption.
Defined.

(* ------------------------------------------------------------------ *)
(** * The USD-only scenario *)

(** C8. The carton scenario in the USD-only engine: FOB 1000, freight
    150, insurance 50, duty rate 6%, excise disabled, VAT enabled at 16%
    and 2%, perception disabled. *)
Theorem usd_carton_scenario :
  exists r : Usd.SimulationResult Q,
    Usd.simulate carton_input carton_profile carton_overrides = Ok r
    /\ Usd.cif_pen r == 1200
    /\ Usd.arancel_amount (Usd.arancel r) == 72
    /\ Usd.isc_total (Usd.isc r) == 0
    /\ Usd.igv_base (Usd.igv r) == 1272
    /\ Usd.igv_igv16 (Usd.igv r) == 20352 # 100
    /\ Usd.igv_ipm2 (Usd.igv r) == 2544 # 100
    /\ Usd.igv_total (Usd.igv r) == 22896 # 100
    /\ Usd.tr_total (Usd.trade_remedies r) == 0
    /\ Usd.perc_amount (Usd.percepcion r) == 0
    /\ Usd.deuda_aduanera r == 30096 # 100
    /\ Usd.pago_en_frontera r == 30096 # 100.
Proof.
  eexists. split; [reflexivity |].
  repeat split; vm_compute; reflexivity.
Qed.

(** The same scenario in binary64 arithmetic: every figure is the double
    nearest to the decimal value. *)
Lemma usd_carton_scenario_binary64 :
  match Usd.simulate (num := float) carton_input carton_profile carton_overrides with
  | Ok r =>
      PrimFloat.eqb (Usd.cif_pen r) (of_Z 1200)
      && PrimFloat.eqb (Usd.arancel_amount (Usd.arancel r)) (of_Z 72)
      && PrimFloat.eqb (Usd.isc_total (Usd.isc r)) (of_Z 0)
      && PrimFloat.eqb (Usd.igv_base (Usd.igv r)) (of_Z 1272)
      && PrimFloat.eqb (Usd.igv_igv16 (Usd.igv r)) (dec 20352 100)
      && PrimFloat.eqb (Usd.igv_ipm2 (Usd.igv r)) (dec 2544 100)
      && PrimFloat.eqb (Usd.igv_total (Usd.igv r)) (dec 22896 100)
      && PrimFloat.eqb (Usd.perc_amount (Usd.percepcion r)) (of_Z 0)
      && PrimFloat.eqb (Usd.deuda_aduanera r) (dec 30096 100)
      && PrimFloat.eqb (Usd.pago_en_frontera r) (dec 30096 100)
  | Throw _ => false
  end = true.
Proof. vm_compute. reflexivity. Qed.

(* ------------------------------------------------------------------ *)
(** * Trade-remedy overrides *)

Lemma multi_remedy_override_nonpositive (ty : RemedyType) (a fx : Q)
    (acc : Q * list (Multi.RemedyItem Q)) :
  ~ 0 < a ->
  Multi.remedy_override ty (Some a) fx acc = Multi.remedy_override ty None fx acc.
Proof.
  intro Hnp. destruct acc as [total items]. unfold Multi.remedy_override.
  destruct (gtb a zero) eqn:E.
  - apply gtb_zero_Q in E. contradiction.
  - rewrite andb_false_r. reflexivity.
Qed.

Lemma usd_remedy_override_zero (ty : RemedyType) (a : Q)
    (acc : Q * list (Usd.RemedyItem Q)) :
  a == 0 -> Usd.remedy_override ty (Some a) acc = Usd.remedy_override ty None acc.
Proof.
  intro Hz. destruct acc as [total items]. unfold Usd.remedy_override.
  apply truthy_Q in Hz. rewrite Hz. reflexivity.
Qed.

Lemma usd_remedy_override_nonzero (ty : RemedyType) (a total : Q)
    (items : list (Usd.RemedyItem Q)) :
  ~ a == 0 ->
  Usd.remedy_override ty (Some a) (total, items)
  = (total + Usd.r2 a,
     items ++ [ {| Usd.item_type := ty; Usd.item_amount := Usd.r2 a |} ]).
Proof.
  intro Hnz. unfold Usd.remedy_override.
  apply truthy_Q_true in Hnz. rewrite Hnz. reflexivity.
Qed.

(** The multi-country body reads the trade-remedy overrides only in the
    remedies stage. *)
Lemma multi_simulate_remedies_congr (input : Multi.SimulationInput Q)
    (prof : Multi.RuleProfile Q) (o : Multi.SimulationOverrides Q)
    (ad ad' cvd cvd' : option Q) :
  (forall fx acc, Multi.remedy_override AD ad fx acc
                  = Multi.remedy_override AD ad' fx acc) ->
  (forall fx acc, Multi.remedy_override CVD cvd fx acc
                  = Multi.remedy_override CVD cvd' fx acc) ->
  Multi.simulate input prof (Some (multi_with_remedies o ad cvd))
  = Multi.simulate input prof (Some (multi_with_remedies o ad' cvd')).
Proof.
  intros Had Hcvd. unfold Multi.simulate.
  destruct (Multi.fxRate input) as [fx |]; [| reflexivity].
  destruct (negb _ || negb _); [reflexivity |]. f_equal.
  unfold Multi.simulate_body, Multi.remedies_stage, Multi.duty_stage, Multi.sda_stage.
  cbn [Multi.ov multi_with_remedies Multi.adValoremRate Multi.antidumpingUsd
       Multi.countervailingUsd Multi.perceptionRate Multi.sdaUsd].
  rewrite Had, Hcvd. reflexivity.
Qed.

Lemma usd_simulate_remedies_congr (input : Usd.SimulationInput Q)
    (prof : Usd.RuleProfile Q) (o : Usd.SimulationOverrides Q)
    (ad ad' cvd cvd' : option Q) :
  (forall acc, Usd.remedy_override AD ad acc = Usd.remedy_override AD ad' acc) ->
  (forall acc, Usd.remedy_override CVD cvd acc = Usd.remedy_override CVD cvd' acc) ->
  Usd.simulate input prof (usd_with_remedies o ad cvd)
  = Usd.simulate input prof (usd_with_remedies o ad' cvd').
Proof.
  intros Had Hcvd. unfold Usd.simulate.
  destruct (negb _); [reflexivity |]. f_equal.
  unfold Usd.simulate_body, Usd.remedies_stage, Usd.isc_stage, Usd.perception_stage.
  cbn [usd_with_remedies Usd.igvEnabled Usd.iscEnabled Usd.perceptionEnabled
       Usd.iscRate Usd.antidumpingUsd Usd.countervailingUsd Usd.perceptionRate
       Usd.sdaUsd].
  rewrite Had, Hcvd. reflexivity.
Qed.

(** The USD-only engine tests a trade-remedy override for truthiness only.
    A negative amount, which the form route refuses ([min(0)]) and the
    engine therefore never receives from it, would add an item and lower
    the totals. *)
Lemma usd_negative_remedy_contributes :
  exists r_neg r_none : Usd.SimulationResult Q,
    Usd.simulate carton_input carton_profile
      (usd_with_remedies carton_overrides (Some (- 50)) None) = Ok r_neg
    /\ Usd.simulate carton_input carton_profile
         (usd_with_remedies carton_overrides None None) = Ok r_none
    /\ Usd.tr_items (Usd.trade_remedies r_none) = []
    /\ length (Usd.tr_items (Usd.trade_remedies r_neg)) = 1%nat
    /\ Usd.tr_total (Usd.trade_remedies r_neg) == - 50
    /\ Usd.tr_total (Usd.trade_remedies r_none) == 0
    /\ Usd.deuda_aduanera r_neg == 25096 # 100
    /\ Usd.deuda_aduanera r_none == 30096 # 100.
Proof.
  eexists. eexists.
  split; [reflexivity |]. split; [reflexivity |].
  repeat split; vm_compute; reflexivity.
Qed.

Lemma remedy_fold_length (cifPEN : Q) (quantity : option Q)
    (rs : list (Multi.TradeRemedy Q)) (acc : Q * list (Multi.RemedyItem Q)) :
  length (snd (fold_left (Multi.remedy_step cifPEN quantity) rs acc))
  = (length (snd acc) + length rs)%nat.
Proof.
  revert acc. induction rs as [| r rs IH]; intro acc; cbn [fold_left length].
  - lia.
  - rewrite IH. destruct acc as [total items]. unfold Multi.remedy_step.
    destruct (Multi.tr_mode r); cbn [snd]; rewrite length_app; cbn [length]; lia.
Qed.

Lemma multi_remedy_override_positive (ty : RemedyType) (usd : option Q) (fx total : Q)
    (items : list (Multi.RemedyItem Q)) :
  snd (Multi.remedy_override ty usd fx (total, items))
  = items ++ map (multi_override_item ty fx) (strictly_positive usd).
Proof.
  unfold Multi.remedy_override, strictly_positive.
  destruct usd as [u |]; [| symmetry; apply app_nil_r].
  unfold truthy, gtb, zero. qops. change (inject_Z 0) with 0.
  destruct (Qltb 0 u); [rewrite orb_true_r; reflexivity |].
  rewrite andb_false_r. symmetry. apply app_nil_r.
Qed.

Lemma usd_remedy_override_positive (ty : RemedyType) (usd : option Q) (total : Q)
    (items : list (Usd.RemedyItem Q)) :
  nonneg_opt usd ->
  snd (Usd.remedy_override ty usd (total, items))
  = items ++ map (usd_override_item ty) (strictly_positive usd).
Proof.
  intro Hnn. unfold Usd.remedy_override, strictly_positive.
  destruct usd as [u |]; [| symmetry; apply app_nil_r].
  cbn [nonneg_opt] in Hnn. apply Qltb_ge in Hnn.
  unfold truthy, zero. qops. change (inject_Z 0) with 0. rewrite Hnn.
  cbn [orb]. destruct (Qltb 0 u); [reflexivity |].
  symmetry. apply app_nil_r.
Qed.

(** C10.  In both engines an antidumping or countervailing override equal
    to 0 gives the very same result as omitting it, whatever the other
    override is: no item, same totals, same downstream stages; in the
    multi-country engine the same holds for every amount that is not
    strictly positive.  The override items of a result are exactly those of
    the strictly positive amounts, antidumping first, each with its rounded
    (and, in the multi-country engine, converted) amount: in the
    multi-country engine for all amounts, in the USD-only engine for the
    amounts its route admits, none being negative. *)
Theorem zero_remedy_override_is_omission :
  (forall (input : Multi.SimulationInput Q) (prof : Multi.RuleProfile Q)
          (o : Multi.SimulationOverrides Q) (ad cvd : option Q) (a : Q),
      ~ 0 < a ->
      Multi.simulate input prof (Some (multi_with_remedies o (Some a) cvd))
      = Multi.simulate input prof (Some (multi_with_remedies o None cvd))
      /\ Multi.simulate input prof (Some (multi_with_remedies o ad (Some a)))
         = Multi.simulate input prof (Some (multi_with_remedies o ad None)))
  /\
  (forall (input : Usd.SimulationInput Q) (prof : Usd.RuleProfile Q)
          (o : Usd.SimulationOverrides Q) (ad cvd : option Q) (a : Q),
      a == 0 ->
      Usd.simulate input prof (usd_with_remedies o (Some a) cvd)
      = Usd.simulate input prof (usd_with_remedies o None cvd)
      /\ Usd.simulate input prof (usd_with_remedies o ad (Some a))
         = Usd.simulate input prof (usd_with_remedies o ad None))
  /\
  (forall (input : Multi.SimulationInput Q) (prof : Multi.RuleProfile Q)
          (overrides : option (Multi.SimulationOverrides Q))
          (r : Multi.SimulationResult Q),
      Multi.simulate input prof overrides = Ok r ->
      exists fx from_db,
        Multi.fxRate input = Some fx
        /\ length from_db = length (Multi.tradeRemedies prof)
        /\ Multi.tr_items (Multi.trade_remedies r)
           = from_db
             ++ map (multi_override_item AD fx)
                  (strictly_positive (Multi.ov overrides (@Multi.antidumpingUsd Q)))
             ++ map (multi_override_item CVD fx)
                  (strictly_positive (Multi.ov overrides (@Multi.countervailingUsd Q))))
  /\
  (forall (input : Usd.SimulationInput Q) (prof : Usd.RuleProfile Q)
          (o : Usd.SimulationOverrides Q) (r : Usd.SimulationResult Q),
      nonneg_opt (Usd.antidumpingUsd o) ->
      nonneg_opt (Usd.countervailingUsd o) ->
      Usd.simulate input prof o = Ok r ->
      Usd.tr_items (Usd.trade_remedies r)
      = map (usd_override_item AD) (strictly_positive (Usd.antidumpingUsd o))
        ++ map (usd_override_item CVD) (strictly_positive (Usd.countervailingUsd o))).
Proof.
  split; [| split; [| split]].
  - intros input prof o ad cvd a Hnp. split.
    + apply multi_simulate_remedies_congr; [| reflexivity].
      intros fx acc. apply multi_remedy_override_nonpositive. exact Hnp.
    + apply multi_simulate_remedies_congr; [reflexivity |].
      intros fx acc. apply multi_remedy_override_nonpositive. exact Hnp.
  - intros input prof o ad cvd a Hz. split.
    + apply usd_simulate_remedies_congr; [| reflexivity].
      intros acc. apply usd_remedy_override_zero. exact Hz.
    + apply usd_simulate_remedies_congr; [reflexivity |].
      intros acc. apply usd_remedy_override_zero. exact Hz.
  - intros input prof overrides r (fx & Hfx & _ & _ & ->)%multi_simulate_Ok.
    exists fx.
    set (cifPEN := Multi.round2 (mul (Multi.cifUSD_of input) fx)).
    exists (snd (fold_left (Multi.remedy_step cifPEN (Multi.quantity input))
                   (Multi.tradeRemedies prof) (zero, []))).
    split; [exact Hfx |]. split.
    + apply (remedy_fold_length cifPEN (Multi.quantity input)
               (Multi.tradeRemedies prof) (zero, [])).
    + assert (Hitems :
        snd (Multi.remedies_stage input prof overrides cifPEN fx)
        = snd (fold_left (Multi.remedy_step cifPEN (Multi.quantity input))
                 (Multi.tradeRemedies prof) (zero, []))
          ++ map (multi_override_item AD fx)
               (strictly_positive (Multi.ov overrides (@Multi.antidumpingUsd Q)))
          ++ map (multi_override_item CVD fx)
               (strictly_positive (Multi.ov overrides (@Multi.countervailingUsd Q)))).
      { unfold Multi.remedies_stage.
        destruct (fold_left _ _ _) as [t0 l0]. cbn [snd].
        pose proof (multi_remedy_override_positive AD
                      (Multi.ov overrides (@Multi.antidumpingUsd Q)) fx t0 l0) as H1.
        destruct (Multi.remedy_override AD _ fx (t0, l0)) as [t1 l1].
        cbn [snd] in H1. subst l1.
        rewrite multi_remedy_override_positive, app_assoc. reflexivity. }
      unfold cifPEN in *. multi_body. cbn [snd] in Hitems. exact Hitems.
  - intros input prof o r Had Hcvd (_ & ->)%usd_simulate_Ok.
    assert (Hitems :
      snd (Usd.remedies_stage o)
      = map (usd_override_item AD) (strictly_positive (Usd.antidumpingUsd o))
        ++ map (usd_override_item CVD) (strictly_positive (Usd.countervailingUsd o))).
    { unfold Usd.remedies_stage.
      pose proof (@usd_remedy_override_positive AD (Usd.antidumpingUsd o) zero []
                    Had) as H1.
      destruct (Usd.remedy_override AD _ (zero, [])) as [t1 l1].
      cbn [snd app] in H1. subst l1.
      apply (@usd_remedy_override_positive CVD (Usd.countervailingUsd o) t1 _ Hcvd). }
    usd_body. cbn [snd] in Hitems. exact Hitems.
Qed.

Lemma zero_remedy_override_is_omission_witness :
  Multi.simulate wine_input wine_profile
    (Some (multi_with_remedies
             {| Multi.adValoremRate := None; Multi.antidumpingUsd := None;
                Multi.countervailingUsd := None; Multi.perceptionRate := None;
                Multi.sdaUsd := None |} (Some 0) None))
  = Multi.simulate wine_input wine_profile
      (Some (multi_with_remedies
               {| Multi.adValoremRate := None; Multi.antidumpingUsd := None;
                  Multi.countervailingUsd := None; Multi.perceptionRate := None;
                  Multi.sdaUsd := None |} None None))
  /\ Usd.simulate carton_input carton_profile
       (usd_with_remedies carton_overrides None (Some 0))
     = Usd.simulate carton_input carton_profile
         (usd_with_remedies carton_overrides None None)
  /\ (exists r : Usd.SimulationResult Q,
        Usd.simulate carton_input carton_profile
          (usd_with_remedies carton_overrides (Some 0) (Some (4550 # 100))) = Ok r
        /\ Usd.tr_items (Usd.trade_remedies r)
           = [usd_override_item CVD (4550 # 100)]).
Proof.
  split; [| split].
  - apply (proj1 zero_remedy_override_is_omission wine_input wine_profile _ None None 0).
    vm_compute. discriminate.
  - apply (proj1 (proj2 zero_remedy_override_is_omission)
             carton_input carton_profile carton_overrides None None 0).
    reflexivity.
  - eexists. split; [reflexivity |].
    apply (proj2 (proj2 (proj2 zero_remedy_override_is_omission))
             carton_input carton_profile
             (usd_with_remedies carton_overrides (Some 0) (Some (4550 # 100)))).
    + vm_compute. discriminate.
    + vm_compute. discriminate.
    + reflexivity.
Defined.

(** In the USD-only engine with perception enabled the stage follows the
    same rule, with its own override label. *)
Lemma usd_perception_when_enabled (input : Usd.SimulationInput Q)
    (prof : Usd.RuleProfile Q) (o : Usd.SimulationOverrides Q)
    (r : Usd.SimulationResult Q) :
  Usd.simulate input prof o = Ok r ->
  Usd.perceptionEnabled o = true ->
  let p := Usd.percepcion r in
  match Usd.perceptionRate o with
  | Some rate =>
      Usd.perc_rate p = rate /\ Usd.perc_rule p = "Override de percepción"%string
  | None =>
      Usd.perc_rate p ==
        fst (spec_default_perception (Usd.importerProfile input) (Usd.isUsed input))
      /\ Usd.perc_rule p =
           snd (spec_default_perception (Usd.importerProfile input) (Usd.isUsed input))
  end
  /\ Usd.perc_base p ==
       Usd.igv_base (Usd.igv r) + Usd.igv_total (Usd.igv r)
       + Usd.tr_total (Usd.trade_remedies r)
  /\ Usd.perc_amount p = Usd.r2 (Usd.perc_base p * Usd.perc_rate p).
Proof.
  intros (_ & ->)%usd_simulate_Ok Hon p. subst p.
  pose proof (usd_remedies_stage_cents o) as Hrem.
  unfold Usd.simulate_body.
  destruct (Usd.isc_stage o _ _) as [[iscApplied iscTotal] iscDetails].
  destruct (Usd.remedies_stage o) as [remediesTotal items]. cbn [fst] in Hrem.
  unfold Usd.perception_stage. rewrite Hon.
  cbn [Usd.percepcion Usd.igv Usd.trade_remedies Usd.perc_rate Usd.perc_rule
       Usd.perc_base Usd.perc_amount Usd.igv_base Usd.igv_total Usd.tr_total].
  split; [| split; [| reflexivity]].
  - destruct (Usd.perceptionRate o) as [rate |]; cbn [nullish].
    + split; reflexivity.
    + apply defPerc_spec.
  - qops.
    rewrite (r2_cents (q := _ + _ + _ + remediesTotal)) by auto 10 with cents.
    rewrite (r2_cents (q := (if Usd.igvEnabled o then _ else _) + _))
      by auto with cents.
    ring.
Qed.

(* ------------------------------------------------------------------ *)
(** * Replays in binary64 arithmetic

    The concrete runs used above, evaluated with IEEE doubles: the figures
    are the doubles nearest to the decimal values found with rationals. *)

Lemma wine_run_binary64 :
  match Multi.simulate (num := float) wine_input wine_profile None with
  | Ok r =>
      PrimFloat.eqb (Multi.cif_pen r) (of_Z 4500)
      && PrimFloat.eqb (Multi.arancel_rate (Multi.arancel r)) (of_Z 0)
      && PrimFloat.eqb (Multi.isc_total (Multi.isc r)) (of_Z 1150)
      && PrimFloat.eqb (Multi.tr_total (Multi.trade_remedies r)) (of_Z 225)
      && PrimFloat.eqb (Multi.igv_total (Multi.igv r)) (of_Z 1017)
      && PrimFloat.eqb (Multi.perc_base (Multi.percepcion r)) (of_Z 6892)
      && PrimFloat.eqb (Multi.perc_amount (Multi.percepcion r)) (dec 24122 100)
      && negb (Multi.sda_applies (Multi.sda r))
      && PrimFloat.eqb (Multi.deuda_aduanera r) (of_Z 2392)
      && PrimFloat.eqb (Multi.pago_en_frontera r) (dec 263322 100)
  | Throw _ => false
  end = true.
Proof. vm_compute. reflexivity. Qed.

Lemma invalid_input_not_by_presence_binary64 :
  (exists r, Multi.simulate (num := float)
               (multi_value_input None (Some (of_Z 1000)) None None (Some (dec 375 100)))
               wine_profile None = Ok r)
  /\ (exists r, Usd.simulate (num := float)
                  (usd_value_input None (Some (of_Z 1000)) None None)
                  carton_profile carton_overrides = Ok r)
  /\ (exists msg, Multi.simulate (num := float)
                    (multi_value_input (Some (of_Z 0)) None None None
                       (Some (dec 375 100)))
                    wine_profile None = Throw msg)
  /\ (exists msg, Usd.simulate (num := float)
                    (usd_value_input (Some (of_Z 0)) None None None)
                    carton_profile carton_overrides = Throw msg).
Proof.
  repeat split; eexists; vm_compute; reflexivity.
Qed.

Lemma mixed_excise_absent_strength_binary64 :
  match Multi.simulate (num := float)
          {| Multi.hs10 := "2204210000"; Multi.originCountry := "CL";
             Multi.useFTA := Some true; Multi.currency := Some "USD"%string;
             Multi.fxRate := Some (dec 375 100);
             Multi.cif := None; Multi.fob := Some (of_Z 1000);
             Multi.freight := Some (of_Z 150); Multi.insurance := Some (of_Z 50);
             Multi.quantity := Some (of_Z 100); Multi.quantityUnit := Some "L"%string;
             Multi.isUsed := None; Multi.importerProfile := Some normal;
             Multi.alcoholDegree := None |}
          wine_profile None with
  | Ok r =>
      match Multi.det_specific (Multi.isc_details (Multi.isc r)) with
      | Some sp =>
          PrimFloat.eqb (Multi.sp_perUnit sp) (dec 125 100)
          && PrimFloat.eqb (Multi.sp_amount sp) (of_Z 125)
      | None => false
      end
  | Throw _ => false
  end = true.
Proof. vm_compute. reflexivity. Qed.

Lemma usd_negative_remedy_binary64 :
  match Usd.simulate (num := float) carton_input carton_profile
          {| Usd.igvEnabled := true; Usd.iscEnabled := false;
             Usd.perceptionEnabled := false; Usd.iscRate := None;
             Usd.antidumpingUsd := Some (of_Z (-50)); Usd.countervailingUsd := None;
             Usd.perceptionRate := None; Usd.sdaUsd := None |} with
  | Ok r =>
      PrimFloat.eqb (Usd.tr_total (Usd.trade_remedies r)) (of_Z (-50))
      && Nat.eqb (length (Usd.tr_items (Usd.trade_remedies r))) 1
      && PrimFloat.eqb (Usd.deuda_aduanera r) (dec 25096 100)
  | Throw _ => false
  end = true.
Proof. vm_compute. reflexivity. Qed.

(** C1, as stated, fails in the arithmetic the code runs on.  In binary64
    the returned stage amounts of the carton scenario do not add up to the
    returned customs debt: their floating-point sum is one unit in the last
    place above the double nearest to 300.96, and it is the final [r2] that
    brings it back. *)
Lemma carton_debt_binary64_sum_needs_rounding :
  match Usd.simulate (num := float) carton_input carton_profile carton_overrides with
  | Ok r =>
      let sum :=
        add (add (add (add (Usd.arancel_amount (Usd.arancel r))
                           (Usd.isc_total (Usd.isc r)))
                      (Usd.igv_total (Usd.igv r)))
                 (Usd.tr_total (Usd.trade_remedies r)))
            (Usd.sda_amount (Usd.sda r)) in
      negb (PrimFloat.eqb (Usd.deuda_aduanera r) sum)
      && PrimFloat.ltb (Usd.deuda_aduanera r) sum
      && PrimFloat.eqb (Usd.deuda_aduanera r) (Usd.r2 sum)
      && PrimFloat.eqb (Usd.deuda_aduanera r) (dec 30096 100)
  | Throw _ => false
  end = true.
Proof. vm_compute. reflexivity. Qed.

(* ------------------------------------------------------------------ *)
(** * Where the decimal reading and binary64 part

    The rational instance rounds the exact product, the code rounds the
    double nearest to it, so a product that lies exactly on a half cent can
    round the other way; and a double is not a point of the cent grid. *)

Lemma decimal_reading_differs_at_half_cent :
  Multi.round2 (num := Q) (mul (dec 5025 100) (dec 6 100)) == 302 # 100
  /\ PrimFloat.eqb
       (Multi.round2 (num := float) (mul (dec 5025 100) (dec 6 100)))
       (dec 301 100) = true
  /\ Usd.r2 (num := Q) (dec 2129085 1000) == 212909 # 100
  /\ PrimFloat.eqb (Usd.r2 (num := float) (dec 2129085 1000)) (dec 212909 100) = true
  /\ match F64.to_Q (dec 2129085 1000),
           F64.to_Q (Usd.r2 (num := float) (dec 2129085 1000)) with
     | Some x, Some rounded => Qltb (x + (1 # 200) + EPSILON) rounded
     | _, _ => false
     end = true.
Proof. repeat split; vm_compute; reflexivity. Qed.

(* ------------------------------------------------------------------ *)
(** * A negative special-fee override *)

(** X18. Multi-country engine, negative SDA override (the form route
    admits one): the fee is reported as not applying, yet its amount is the
    converted, rounded override, which is below zero as soon as the
    converted amount reaches a cent, and the customs debt includes it, so
    the debt is lowered.  The USD-only engine returns 0 in that case. *)
Theorem negative_sda_override_is_charged
    (input : Multi.SimulationInput Q) (prof : Multi.RuleProfile Q)
    (overrides : option (Multi.SimulationOverrides Q))
    (r : Multi.SimulationResult Q) (s fx : Q) :
  Multi.simulate input prof overrides = Ok r ->
  Multi.fxRate input = Some fx ->
  Multi.ov overrides (@Multi.sdaUsd Q) = Some s ->
  s < 0 ->
  Multi.sda_applies (Multi.sda r) = false
  /\ Multi.sda_amount (Multi.sda r) = Multi.round2 (s * fx)
  /\ (s * fx <= - (1 # 100) -> Multi.sda_amount (Multi.sda r) <= - (1 # 100))
  /\ Multi.deuda_aduanera r ==
       Multi.arancel_amount (Multi.arancel r) + Multi.isc_total (Multi.isc r)
       + Multi.igv_total (Multi.igv r) + Multi.tr_total (Multi.trade_remedies r)
       + Multi.round2 (s * fx).
Proof.
  intros Hrun Hfx Hs Hneg.
  destruct (multi_totals _ _ _ Hrun) as [Hdebt _].
  apply multi_simulate_Ok in Hrun. destruct Hrun as (fx' & Hfx' & _ & _ & ->).
  rewrite Hfx in Hfx'. injection Hfx' as <-.
  assert (Hsda : Multi.sda_stage prof overrides
                   (Multi.round2 (mul (Multi.cifUSD_of input) fx)) fx
                 = (false, Multi.round2 (s * fx))).
  { unfold Multi.sda_stage. rewrite Hs. f_equal.
    destruct (gtb s zero) eqn:E; [| reflexivity].
    apply gtb_zero_Q in E. exfalso. apply (Qlt_irrefl 0).
    apply Qlt_trans with s; assumption. }
  revert Hdebt. multi_body. injection Hsda as -> ->.
  intro Hdebt. split; [reflexivity |]. split; [reflexivity |].
  split; [| exact Hdebt].
  intro Hcent.
  setoid_replace (- (1 # 100)) with (Multi.round2 (- (1 # 100))).
  - apply round2_le. exact Hcent.
  - symmetry. apply round2_cents. exists (-1)%Z. reflexivity.
Qed.

Lemma negative_sda_override_is_charged_witness :
  exists r r_plain : Multi.SimulationResult Q,
    Multi.simulate wine_input wine_profile (Some (multi_sda_only (- 5))) = Ok r
    /\ Multi.simulate wine_input wine_profile None = Ok r_plain
    /\ - 5 < 0
    /\ Multi.sda_applies (Multi.sda r) = false
    /\ Multi.sda_amount (Multi.sda r) == - (1875 # 100)
    /\ Multi.deuda_aduanera r == 237325 # 100
    /\ Multi.deuda_aduanera r_plain == 2392.
Proof.
  eexists. eexists. split; [reflexivity |]. split; [reflexivity |].
  assert (Hneg : - 5 < 0) by reflexivity.
  split; [exact Hneg |].
  match goal with
  | |- Multi.sda_applies (Multi.sda ?r) = _ /\ _ =>
      assert (Hrun : Multi.simulate wine_input wine_profile
                       (Some (multi_sda_only (- 5))) = Ok r) by reflexivity
  end.
  destruct (@negative_sda_override_is_charged wine_input wine_profile
              (Some (multi_sda_only (- 5))) _ (- 5) (dec 375 100)
              Hrun eq_refl eq_refl Hneg) as (Hoff & _ & _ & _).
  split; [exact Hoff |].
  repeat split; vm_compute; reflexivity.
Defined.

(* ------------------------------------------------------------------ *)
(** * Itemized trade remedies *)

Lemma Qsum_snoc (l : list Q) (x : Q) : Qsum (l ++ [x]) == Qsum l + x.
Proof.
  induction l as [| y l IH]; cbn [app Qsum fold_right].
  - ring.
  - fold (Qsum (l ++ [x])). fold (Qsum l). rewrite IH. ring.
Qed.

Lemma remedy_step_coherent (cifPEN : Q) (quantity : option Q)
    (acc : Q * list (Multi.RemedyItem Q)) (r : Multi.TradeRemedy Q) :
  multi_coherent acc -> multi_coherent (Multi.remedy_step cifPEN quantity acc r).
Proof.
  destruct acc as [total items]. unfold multi_coherent, Multi.remedy_step.
  cbn [fst snd]. intro Hacc.
  destruct (Multi.tr_mode r); cbn [fst snd]; qops;
    rewrite map_app; cbn [map Multi.item_amount];
    rewrite Qsum_snoc, Hacc; reflexivity.
Qed.

Lemma remedy_fold_coherent (cifPEN : Q) (quantity : option Q)
    (rs : list (Multi.TradeRemedy Q)) :
  forall acc, multi_coherent acc ->
    multi_coherent (fold_left (Multi.remedy_step cifPEN quantity) rs acc)
    /\ length (snd (fold_left (Multi.remedy_step cifPEN quantity) rs acc))
       = (length (snd acc) + length rs)%nat
    /\ (Forall (fun it => Multi.item_source it = Multi.src_db) (snd acc) ->
        Forall (fun it => Multi.item_source it = Multi.src_db)
               (snd (fold_left (Multi.remedy_step cifPEN quantity) rs acc))).
Proof.
  induction rs as [| r rs IH]; intros acc Hacc; cbn [fold_left].
  - repeat split; [exact Hacc | cbn; lia | auto].
  - destruct (IH (Multi.remedy_step cifPEN quantity acc r)
                (remedy_step_coherent cifPEN quantity r Hacc)) as (Hc & Hl & Hs).
    repeat split; [exact Hc | |].
    + rewrite Hl. destruct acc as [total items]. unfold Multi.remedy_step.
      destruct (Multi.tr_mode r); cbn [snd length]; rewrite length_app; cbn; lia.
    + intro Hdb. apply Hs. destruct acc as [total items]. unfold Multi.remedy_step.
      cbn [snd] in Hdb.
      destruct (Multi.tr_mode r); cbn [snd]; apply Forall_app; split; auto.
Qed.

Lemma remedy_override_coherent (ty : RemedyType) (usd : option Q) (fx : Q)
    (acc : Q * list (Multi.RemedyItem Q)) :
  multi_coherent acc -> multi_coherent (Multi.remedy_override ty usd fx acc).
Proof.
  destruct acc as [total items]. unfold multi_coherent, Multi.remedy_override.
  cbn [fst snd]. intro Hacc.
  destruct usd as [u |]; [| exact Hacc].
  destruct (truthy u && gtb u zero); cbn [fst snd]; qops; [| exact Hacc].
  rewrite map_app. cbn [map Multi.item_amount].
  rewrite Qsum_snoc, Hacc. reflexivity.
Qed.

Lemma usd_remedy_override_coherent (ty : RemedyType) (usd : option Q)
    (acc : Q * list (Usd.RemedyItem Q)) :
  usd_coherent acc -> usd_coherent (Usd.remedy_override ty usd acc).
Proof.
  destruct acc as [total items]. unfold usd_coherent, Usd.remedy_override.
  cbn [fst snd]. intro Hacc.
  destruct usd as [u |]; [| exact Hacc].
  destruct (truthy u); cbn [fst snd]; qops; [| exact Hacc].
  rewrite map_app. cbn [map Usd.item_amount].
  rewrite Qsum_snoc, Hacc. reflexivity.
Qed.

Lemma remedy_override_items (ty : RemedyType) (usd : option Q) (fx : Q)
    (total : Q) (items : list (Multi.RemedyItem Q)) :
  snd (Multi.remedy_override ty usd fx (total, items))
  = items ++ snd (Multi.remedy_override ty usd fx (0, [])).
Proof.
  unfold Multi.remedy_override. destruct usd as [u |]; cbn [snd].
  - destruct (truthy u && gtb u zero); cbn [snd app].
    + reflexivity.
    + symmetry. apply app_nil_r.
  - symmetry. apply app_nil_r.
Qed.

(** X2. In both engines the trade-remedy total is the sum of the itemized
    amounts and [applied] tells whether there is an item.  In the
    multi-country engine the list holds one item per schedule entry of the
    rule profile, all marked as coming from the database, followed by the
    items of the overrides, all marked as overrides. *)
Theorem trade_remedies_itemized :
  (forall (input : Multi.SimulationInput Q) (prof : Multi.RuleProfile Q)
          (overrides : option (Multi.SimulationOverrides Q))
          (r : Multi.SimulationResult Q),
      Multi.simulate input prof overrides = Ok r ->
      let tr := Multi.trade_remedies r in
      Multi.tr_total tr == Qsum (map (@Multi.item_amount Q) (Multi.tr_items tr))
      /\ (Multi.tr_applied tr = true <-> Multi.tr_items tr <> [])
      /\ exists from_db from_overrides,
           Multi.tr_items tr = from_db ++ from_overrides
           /\ length from_db = length (Multi.tradeRemedies prof)
           /\ Forall (fun it => Multi.item_source it = Multi.src_db) from_db
           /\ Forall (fun it => Multi.item_source it = Multi.src_override
                                /\ Multi.item_mode it = Multi.mode_specific)
                     from_overrides
           /\ (length from_overrides <= 2)%nat)
  /\
  (forall (input : Usd.SimulationInput Q) (prof : Usd.RuleProfile Q)
          (o : Usd.SimulationOverrides Q) (r : Usd.SimulationResult Q),
      Usd.simulate input prof o = Ok r ->
      let tr := Usd.trade_remedies r in
      Usd.tr_total tr == Qsum (map (@Usd.item_amount Q) (Usd.tr_items tr))
      /\ (Usd.tr_applied tr = true <-> Usd.tr_items tr <> [])
      /\ (length (Usd.tr_items tr) <= 2)%nat).
Proof.
  split.
  - intros input prof overrides r (fx & _ & _ & _ & ->)%multi_simulate_Ok tr.
    subst tr.
    set (cifPEN := Multi.round2 (mul (Multi.cifUSD_of input) fx)).
    assert (Hinit : multi_coherent (zero, [])) by (cbv; reflexivity).
    destruct (remedy_fold_coherent cifPEN (Multi.quantity input)
                (Multi.tradeRemedies prof) Hinit) as (Hc & Hl & Hs).
    specialize (Hs (Forall_nil _)). cbn [snd length] in Hl.
    pose proof (remedy_override_coherent CVD
                  (Multi.ov overrides (@Multi.countervailingUsd Q)) fx
                  (remedy_override_coherent AD
                     (Multi.ov overrides (@Multi.antidumpingUsd Q)) fx Hc)) as Hall.
    fold (Multi.remedies_stage input prof overrides cifPEN fx) in Hall.
    assert (Hitems : snd (Multi.remedies_stage input prof overrides cifPEN fx)
                     = snd (fold_left (Multi.remedy_step cifPEN (Multi.quantity input))
                              (Multi.tradeRemedies prof) (zero, []))
                       ++ multi_override_items overrides fx).
    { unfold Multi.remedies_stage, multi_override_items.
      set (ad := Multi.ov overrides (@Multi.antidumpingUsd Q)).
      set (cvd := Multi.ov overrides (@Multi.countervailingUsd Q)).
      destruct (fold_left _ _ _) as [t0 l0]. cbn [snd].
      pose proof (remedy_override_items AD ad fx t0 l0) as H1.
      destruct (Multi.remedy_override AD ad fx (t0, l0)) as [t1 l1].
      rewrite (remedy_override_items CVD cvd fx t1 l1).
      cbn [snd] in H1. subst l1.
      destruct (Multi.remedy_override AD ad fx (0, [])) as [t2 l2]. cbn [snd].
      rewrite (remedy_override_items CVD cvd fx t2 l2).
      rewrite app_assoc. reflexivity. }
    unfold cifPEN in *. multi_body.
    unfold multi_coherent in Hall. cbn [fst snd] in Hall, Hitems.
    split; [exact Hall |]. split.
    + destruct adcvdItems; cbn; split; congruence.
    + eexists. eexists. split; [exact Hitems |].
      split; [exact Hl |]. split; [exact Hs |].
      unfold multi_override_items, Multi.remedy_override.
      destruct (Multi.ov overrides (@Multi.antidumpingUsd Q)) as [a |],
               (Multi.ov overrides (@Multi.countervailingUsd Q)) as [c |];
        repeat match goal with
               | |- context [if ?b then _ else _] => destruct b
               end;
        cbn [snd app length]; split; repeat constructor.
  - intros input prof o r (_ & ->)%usd_simulate_Ok tr. subst tr.
    assert (Hinit : usd_coherent (zero, [])) by (cbv; reflexivity).
    pose proof (usd_remedy_override_coherent CVD (Usd.countervailingUsd o)
                  (usd_remedy_override_coherent AD (Usd.antidumpingUsd o) Hinit))
      as Hall.
    fold (Usd.remedies_stage o) in Hall.
    assert (Hlen : (length (snd (Usd.remedies_stage o)) <= 2)%nat).
    { unfold Usd.remedies_stage, Usd.remedy_override.
      destruct (Usd.antidumpingUsd o) as [a |], (Usd.countervailingUsd o) as [c |];
        repeat match goal with
               | |- context [if ?b then _ else _] => destruct b
               end;
        cbn; lia. }
    usd_body. unfold usd_coherent in Hall. cbn [fst snd] in Hall, Hlen.
    split; [exact Hall |]. split; [| exact Hlen].
    destruct items; cbn; split; congruence.
Qed.

Lemma trade_remedies_itemized_witness :
  exists r : Multi.SimulationResult Q,
    Multi.simulate wine_input wine_profile
      (Some {| Multi.adValoremRate := None; Multi.antidumpingUsd := Some 300;
               Multi.countervailingUsd := None; Multi.perceptionRate := None;
               Multi.sdaUsd := None |}) = Ok r
    /\ Multi.tr_total (Multi.trade_remedies r)
       == Qsum (map (@Multi.item_amount Q) (Multi.tr_items (Multi.trade_remedies r)))
    /\ Multi.tr_total (Multi.trade_remedies r) == 225 + 1125.
Proof.
  eexists. split; [reflexivity |]. split; [| vm_compute; reflexivity].
  match goal with
  | |- Multi.tr_total (Multi.trade_remedies ?r) == _ =>
      assert (Hrun : Multi.simulate wine_input wine_profile
                       (Some {| Multi.adValoremRate := None;
                                Multi.antidumpingUsd := Some 300;
                                Multi.countervailingUsd := None;
                                Multi.perceptionRate := None;
                                Multi.sdaUsd := None |}) = Ok r) by reflexivity
  end.
  exact (proj1 (proj1 trade_remedies_itemized _ _ _ _ Hrun)).
Defined.

(* ------------------------------------------------------------------ *)
(** * Toggles and exemption *)

(** X3. USD-only engine, excise toggle off: whatever excise rate is
    supplied, the result is the same; the excise total is 0, the stage is
    reported as disabled by the user, and the VAT base is the customs value
    plus the duty. *)
Theorem usd_excise_toggle_off
    (input : Usd.SimulationInput Q) (prof : Usd.RuleProfile Q)
    (o : Usd.SimulationOverrides Q) (rate rate' : option Q) :
  Usd.iscEnabled o = false ->
  Usd.simulate input prof (usd_with_iscRate o rate)
  = Usd.simulate input prof (usd_with_iscRate o rate')
  /\ forall r, Usd.simulate input prof (usd_with_iscRate o rate) = Ok r ->
       Usd.isc_total (Usd.isc r) = 0
       /\ Usd.isc_applied (Usd.isc r) = false
       /\ Usd.isc_details (Usd.isc r) = Usd.isc_text "Deshabilitado por el usuario"
       /\ Usd.igv_base (Usd.igv r)
          == Usd.cif_pen r + Usd.arancel_amount (Usd.arancel r).
Proof.
  intro Hoff. split.
  - unfold Usd.simulate. destruct (negb _); [reflexivity |]. f_equal.
    unfold Usd.simulate_body, Usd.isc_stage, Usd.remedies_stage, Usd.perception_stage.
    cbn [usd_with_iscRate Usd.igvEnabled Usd.iscEnabled Usd.perceptionEnabled
         Usd.iscRate Usd.antidumpingUsd Usd.countervailingUsd Usd.perceptionRate
         Usd.sdaUsd].
    rewrite Hoff. reflexivity.
  - intros r (_ & ->)%usd_simulate_Ok.
    unfold Usd.simulate_body, Usd.isc_stage.
    cbn [usd_with_iscRate Usd.iscEnabled]. rewrite Hoff.
    destruct (Usd.remedies_stage _) as [remediesTotal items].
    destruct (Usd.perception_stage _ _ _ _ _ _)
      as [[[[percRate percRule] percBase] percAmt] percApplied].
    cbn [Usd.isc Usd.isc_total Usd.isc_applied Usd.isc_details Usd.igv Usd.igv_base
         Usd.cif_pen Usd.arancel Usd.arancel_amount].
    repeat split. qops.
    rewrite r2_cents; [unfold zero; qops; ring |].
    apply cents_add; [auto with cents | apply cents_zero].
Qed.

Lemma usd_excise_toggle_off_witness :
  Usd.simulate carton_input carton_profile
    (usd_with_iscRate carton_overrides (Some (50 # 100)))
  = Usd.simulate carton_input carton_profile (usd_with_iscRate carton_overrides None).
Proof.
  apply (usd_excise_toggle_off carton_input carton_profile carton_overrides
           (Some (50 # 100)) None).
  reflexivity.
Defined.

(** X4. USD-only engine, perception toggle off: the result does not depend
    on the perception rate supplied nor on the importer classification; the
    perception rate, base and amount are 0, the rule label says it was
    disabled by the user, and the amount payable at the border equals the
    customs debt. *)
Theorem usd_perception_toggle_off
    (input : Usd.SimulationInput Q) (prof : Usd.RuleProfile Q)
    (o : Usd.SimulationOverrides Q) (rate rate' : option Q)
    (profile profile' : option ImporterProfile) (used used' : option bool) :
  Usd.perceptionEnabled o = false ->
  Usd.simulate (usd_with_importer input profile used) prof
    (usd_with_perceptionRate o rate)
  = Usd.simulate (usd_with_importer input profile' used') prof
      (usd_with_perceptionRate o rate')
  /\ forall r,
       Usd.simulate (usd_with_importer input profile used) prof
         (usd_with_perceptionRate o rate) = Ok r ->
       Usd.percepcion r
       = {| Usd.perc_applied := false; Usd.perc_rate := 0; Usd.perc_base := 0;
            Usd.perc_amount := 0;
            Usd.perc_rule := "Deshabilitado por el usuario" |}
       /\ Usd.pago_en_frontera r == Usd.deuda_aduanera r.
Proof.
  intro Hoff. split.
  - unfold Usd.simulate.
    change (Usd.cifUsd_of (usd_with_importer input profile used))
      with (Usd.cifUsd_of input).
    change (Usd.cifUsd_of (usd_with_importer input profile' used'))
      with (Usd.cifUsd_of input).
    destruct (negb _); [reflexivity |]. f_equal.
    unfold Usd.simulate_body, Usd.isc_stage, Usd.remedies_stage, Usd.perception_stage.
    cbn [usd_with_perceptionRate Usd.igvEnabled Usd.iscEnabled Usd.perceptionEnabled
         Usd.iscRate Usd.antidumpingUsd Usd.countervailingUsd Usd.perceptionRate
         Usd.sdaUsd].
    rewrite Hoff. reflexivity.
  - intros r Hrun. pose proof (usd_totals _ _ _ Hrun) as [Hdebt Hpay].
    apply usd_simulate_Ok in Hrun. destruct Hrun as (_ & ->).
    assert (Hperc : Usd.percepcion
                      (Usd.simulate_body (usd_with_importer input profile used) prof
                         (usd_with_perceptionRate o rate)
                         (Usd.cifUsd_of (usd_with_importer input profile used)))
                    = {| Usd.perc_applied := false; Usd.perc_rate := 0;
                         Usd.perc_base := 0; Usd.perc_amount := 0;
                         Usd.perc_rule := "Deshabilitado por el usuario" |}).
    { unfold Usd.simulate_body, Usd.perception_stage.
      cbn [usd_with_perceptionRate Usd.perceptionEnabled]. rewrite Hoff.
      destruct (Usd.isc_stage _ _ _) as [[iscApplied iscTotal] iscDetails].
      destruct (Usd.remedies_stage _) as [remediesTotal items].
      reflexivity. }
    split; [exact Hperc |].
    rewrite Hpay, Hperc. cbn [Usd.perc_amount]. ring.
Qed.

Lemma usd_perception_toggle_off_witness :
  Usd.simulate (usd_with_importer carton_input (Some first_import) None)
    carton_profile (usd_with_perceptionRate carton_overrides (Some (10 # 100)))
  = Usd.simulate (usd_with_importer carton_input None (Some true))
      carton_profile (usd_with_perceptionRate carton_overrides None).
Proof.
  apply (usd_perception_toggle_off carton_input carton_profile carton_overrides
           (Some (10 # 100)) None (Some first_import) None None (Some true)).
  reflexivity.
Defined.

(** X5. A VAT-exempt tariff line (multi-country engine) or a VAT toggle
    switched off (USD-only engine) zeroes both VAT components and leaves a
    note, while the VAT base is still computed as customs value + duty +
    excise; in the multi-country engine the perception is then still
    charged, on that base plus the trade remedies. *)
Theorem vat_exempt_or_disabled :
  (forall (input : Multi.SimulationInput Q) (prof : Multi.RuleProfile Q)
          (overrides : option (Multi.SimulationOverrides Q))
          (r : Multi.SimulationResult Q),
      Multi.vatExempt prof = true ->
      Multi.simulate input prof overrides = Ok r ->
      Multi.igv_igv16 (Multi.igv r) = 0
      /\ Multi.igv_ipm2 (Multi.igv r) = 0
      /\ Multi.igv_total (Multi.igv r) == 0
      /\ Multi.igv_exempt (Multi.igv r) = true
      /\ In "Subpartida exonerada de IGV/IPM vigente."%string (Multi.notes r)
      /\ Multi.igv_base (Multi.igv r)
         == Multi.cif_pen r + Multi.arancel_amount (Multi.arancel r)
            + Multi.isc_total (Multi.isc r)
      /\ Multi.perc_base (Multi.percepcion r)
         == Multi.igv_base (Multi.igv r) + Multi.tr_total (Multi.trade_remedies r)
      /\ Multi.perc_amount (Multi.percepcion r)
         = Multi.round2 (Multi.perc_base (Multi.percepcion r)
                         * Multi.perc_rate (Multi.percepcion r)))
  /\
  (forall (input : Usd.SimulationInput Q) (prof : Usd.RuleProfile Q)
          (o : Usd.SimulationOverrides Q) (r : Usd.SimulationResult Q),
      Usd.igvEnabled o = false ->
      Usd.simulate input prof o = Ok r ->
      Usd.igv_igv16 (Usd.igv r) = 0
      /\ Usd.igv_ipm2 (Usd.igv r) = 0
      /\ Usd.igv_total (Usd.igv r) == 0
      /\ Usd.igv_applied (Usd.igv r) = false
      /\ Usd.notes r = ["IGV/IPM deshabilitado por el usuario."%string]
      /\ Usd.igv_base (Usd.igv r)
         == Usd.cif_pen r + Usd.arancel_amount (Usd.arancel r)
            + Usd.isc_total (Usd.isc r)).
Proof.
  split.
  - intros input prof overrides r Hex (fx & _ & _ & _ & ->)%multi_simulate_Ok.
    pose proof (remedies_stage_cents input prof overrides
                  (Multi.round2 (mul (Multi.cifUSD_of input) fx)) fx) as Hrem.
    unfold Multi.simulate_body. rewrite Hex.
    destruct (Multi.duty_stage input prof overrides) as [advalRate notes1].
    match goal with
    | |- context [Multi.isc_stage ?i ?p ?c ?d] =>
        pose proof (isc_stage_cents i p c d) as Hisc;
        destruct (Multi.isc_stage i p c d) as [iscTotal iscDetail]
    end.
    destruct (Multi.remedies_stage _ _ _ _ _) as [adcvdTotal adcvdItems].
    destruct (Multi.sda_stage _ _ _ _) as [sdaApplies sdaAmt].
    cbn [fst] in Hisc, Hrem.
    cbn [Multi.igv Multi.igv_igv16 Multi.igv_ipm2 Multi.igv_total Multi.igv_exempt
         Multi.notes Multi.igv_base Multi.cif_pen Multi.arancel Multi.arancel_amount
         Multi.isc Multi.isc_total Multi.percepcion Multi.perc_base Multi.perc_amount
         Multi.perc_rate Multi.trade_remedies Multi.tr_total].
    split; [reflexivity |]. split; [reflexivity |].
    split; [qops; apply round2_cents; unfold zero; auto with cents |].
    split; [reflexivity |].
    split; [apply in_or_app; left; apply in_or_app; right; left; reflexivity |].
    split; [qops; apply round2_cents; auto 10 with cents |].
    split; [| reflexivity].
    unfold zero. qops. change (inject_Z 0) with 0.
    rewrite (round2_cents (q := _ + 0 + 0 + adcvdTotal)) by auto 10 with cents.
    ring.
  - intros input prof o r Hoff (_ & ->)%usd_simulate_Ok.
    unfold Usd.simulate_body. rewrite Hoff.
    match goal with
    | |- context [Usd.isc_stage ?o ?c ?a] =>
        pose proof (usd_isc_stage_cents o c a) as Hisc;
        destruct (Usd.isc_stage o c a) as [[iscApplied iscTotal] iscDetails]
    end.
    destruct (Usd.remedies_stage _) as [remediesTotal items].
    destruct (Usd.perception_stage _ _ _ _ _ _)
      as [[[[percRate percRule] percBase] percAmt] percApplied].
    cbn [fst snd] in Hisc.
    cbn [Usd.igv Usd.igv_igv16 Usd.igv_ipm2 Usd.igv_total Usd.igv_applied Usd.notes
         Usd.igv_base Usd.cif_pen Usd.arancel Usd.arancel_amount Usd.isc
         Usd.isc_total].
    split; [reflexivity |]. split; [reflexivity |].
    split; [qops; apply r2_cents; unfold zero; auto with cents |].
    split; [reflexivity |]. split; [reflexivity |].
    qops. apply r2_cents. auto 10 with cents.
Qed.

Lemma vat_exempt_or_disabled_witness :
  exists r : Usd.SimulationResult Q,
    Usd.simulate carton_input carton_profile
      {| Usd.igvEnabled := false; Usd.iscEnabled := false;
         Usd.perceptionEnabled := false; Usd.iscRate := None;
         Usd.antidumpingUsd := None; Usd.countervailingUsd := None;
         Usd.perceptionRate := None; Usd.sdaUsd := None |} = Ok r
    /\ Usd.igv_total (Usd.igv r) == 0
    /\ Usd.igv_base (Usd.igv r) == 1272.
Proof.
  eexists. split; [reflexivity |].
  match goal with
  | |- Usd.igv_total (Usd.igv ?r) == 0 /\ _ =>
      assert (Hrun : Usd.simulate carton_input carton_profile
                       {| Usd.igvEnabled := false; Usd.iscEnabled := false;
                          Usd.perceptionEnabled := false; Usd.iscRate := None;
                          Usd.antidumpingUsd := None; Usd.countervailingUsd := None;
                          Usd.perceptionRate := None; Usd.sdaUsd := None |} = Ok r)
        by reflexivity
  end.
  pose proof (fun Hoff => proj2 vat_exempt_or_disabled _ _ _ _ Hoff Hrun) as Hthm.
  destruct (Hthm eq_refl) as (_ & _ & Htot & _ & _ & _).
  split; [exact Htot | vm_compute; reflexivity].
Defined.

(* ------------------------------------------------------------------ *)
(** * No negative amounts *)

Lemma round2_zero : Multi.round2 0 == 0.
Proof. apply round2_cents, cents_zero. Qed.

Lemma round2_nonneg (x : Q) : 0 <= x -> 0 <= Multi.round2 x.
Proof. intro Hx. rewrite <- round2_zero. apply round2_le. exact Hx. Qed.

Lemma r2_nonneg (x : Q) : 0 <= x -> 0 <= Usd.r2 x.
Proof. rewrite r2_round2. apply round2_nonneg. Qed.

Lemma Qadd_nonneg (a b : Q) : 0 <= a -> 0 <= b -> 0 <= a + b.
Proof.
  intros Ha Hb. setoid_replace 0 with (0 + 0) by ring.
  apply Qplus_le_compat; assumption.
Qed.

Create HintDb nonneg.
#[export] Hint Resolve round2_nonneg r2_nonneg Qadd_nonneg Qmult_le_0_compat
  Qle_refl : nonneg.

Lemma usd_remedy_override_nonneg (ty : RemedyType) (usd : option Q)
    (acc : Q * list (Usd.RemedyItem Q)) :
  nonneg_opt usd -> 0 <= fst acc -> 0 <= fst (Usd.remedy_override ty usd acc).
Proof.
  destruct acc as [total items]. unfold Usd.remedy_override. cbn [fst].
  intros Hu Hacc. destruct usd as [u |]; [| exact Hacc].
  cbn in Hu. destruct (truthy u); cbn [fst]; qops; auto with nonneg.
Qed.

Lemma usd_body_nonneg (input : Usd.SimulationInput Q) (prof : Usd.RuleProfile Q)
    (o : Usd.SimulationOverrides Q) (c : Q) :
  0 <= c -> usd_valid_rates prof o ->
  nonneg_opt (Usd.antidumpingUsd o) -> nonneg_opt (Usd.countervailingUsd o) ->
  let r := Usd.simulate_body input prof o c in
  0 <= Usd.cif_pen r
  /\ 0 <= Usd.arancel_amount (Usd.arancel r)
  /\ 0 <= Usd.isc_total (Usd.isc r)
  /\ 0 <= Usd.tr_total (Usd.trade_remedies r)
  /\ 0 <= Usd.igv_total (Usd.igv r)
  /\ 0 <= Usd.perc_amount (Usd.percepcion r)
  /\ 0 <= Usd.sda_amount (Usd.sda r).
Proof.
  intros Hc (Hav & Higv & Hipm & Hisc & Hperc) Had Hcvd r.
  destruct (usd_body_stages input prof o c) as (Hp & Ha & Hi & Ht & Hb & Hv & Hq).
  subst r. rewrite Hp, Ha, Hi, Ht, Hv, Hq. clear Hp Ha Hi Ht Hb Hv Hq.
  assert (Hrate : 0 <= (if truthy (Usd.adValoremRate prof)
                        then Usd.adValoremRate prof else 0))
    by (destruct (truthy _); [exact Hav | apply Qle_refl]).
  set (rate := if truthy (Usd.adValoremRate prof) then Usd.adValoremRate prof else 0) in *.
  assert (Hbase : 0 <= Usd.r2 c) by auto with nonneg.
  set (p := Usd.r2 c) in *.
  assert (Hduty : 0 <= Usd.r2 (p * rate)) by auto with nonneg.
  set (d := Usd.r2 (p * rate)) in *.
  assert (Hexc : 0 <= snd (fst (Usd.isc_stage o p d))).
  { unfold Usd.isc_stage. destruct (Usd.iscEnabled o); cbn [fst snd]; [| apply Qle_refl].
    qops. apply r2_nonneg. apply Qmult_le_0_compat; [auto with nonneg |].
    apply nullish_nonneg; [exact Hisc | apply Qle_refl]. }
  set (i := snd (fst (Usd.isc_stage o p d))) in *.
  assert (Hrem : 0 <= fst (Usd.remedies_stage o)).
  { unfold Usd.remedies_stage.
    apply usd_remedy_override_nonneg; [exact Hcvd |].
    apply usd_remedy_override_nonneg; [exact Had | apply Qle_refl]. }
  assert (Hvb : 0 <= Usd.r2 (p + d + i)) by auto 6 with nonneg.
  set (b := Usd.r2 (p + d + i)) in *.
  assert (H16 : 0 <= (if Usd.igvEnabled o then Usd.r2 (b * Usd.igvRate prof) else 0))
    by (destruct (Usd.igvEnabled o); auto with nonneg).
  assert (H2 : 0 <= (if Usd.igvEnabled o then Usd.r2 (b * Usd.ipmRate prof) else 0))
    by (destruct (Usd.igvEnabled o); auto with nonneg).
  split; [exact Hbase |]. split; [exact Hduty |]. split; [exact Hexc |].
  split; [exact Hrem |]. split; [auto with nonneg |]. split.
  - unfold Usd.perception_stage.
    destruct (Usd.perceptionEnabled o); cbn [fst snd]; [| apply Qle_refl].
    qops. apply r2_nonneg. apply Qmult_le_0_compat.
    + auto 8 with nonneg.
    + apply nullish_nonneg; [exact Hperc | apply defPerc_nonneg].
  - unfold Usd.simulate_body.
    destruct (Usd.isc_stage _ _ _) as [[? ?] ?].
    destruct (Usd.remedies_stage o) as [? ?].
    destruct (Usd.perception_stage _ _ _ _ _ _) as [[[[? ?] ?] ?] ?].
    cbn [Usd.sda Usd.sda_amount].
    destruct (Usd.sdaUsd o) as [s0 |]; [| apply Qle_refl].
    destruct (gtb s0 zero) eqn:E; [| apply Qle_refl].
    apply gtb_zero_Q in E. cbn [nullish]. apply r2_nonneg.
    apply Qlt_le_weak. exact E.
Qed.

Lemma pick_from_bands_nonneg (rule : Multi.IscRule Q) (alcoholDegree : option Q) :
  Forall (fun b => nonneg_opt (Multi.specific_per_l_pen b)) (bands_of rule) ->
  nonneg_opt (Multi.pickIscSpecificFromBands (Multi.params rule) alcoholDegree).
Proof.
  unfold bands_of, Multi.pickIscSpecificFromBands.
  destruct (Multi.params rule) as [p |]; [| intros _; exact I].
  destruct (Multi.bands p) as [bs |]; [| intros _; exact I].
  intro Hall.
  destruct (find _ bs) as [band |] eqn:E; [| exact I].
  apply find_some in E. destruct E as [Hin _].
  rewrite Forall_forall in Hall. exact (Hall band Hin).
Qed.

Lemma multi_isc_stage_nonneg (input : Multi.SimulationInput Q)
    (prof : Multi.RuleProfile Q) (c d : Q) :
  0 <= c -> 0 <= d -> nonneg_opt (Multi.quantity input) ->
  (forall rule, Multi.iscRule prof = Some rule ->
     nonneg_opt (Multi.adValRate rule)
     /\ nonneg_opt (Multi.specificAmount rule)
     /\ Forall (fun b => nonneg_opt (Multi.specific_per_l_pen b)) (bands_of rule)) ->
  0 <= fst (Multi.isc_stage input prof c d).
Proof.
  intros Hc Hd Hq Hrule. unfold Multi.isc_stage.
  destruct (Multi.iscRule prof) as [rule |]; [| apply Qle_refl].
  destruct (Hrule rule eq_refl) as (Hadv & Hflat & Hbands).
  assert (Hqty : 0 <= nullish (Multi.quantity input) zero)
    by (apply nullish_nonneg; [exact Hq | apply Qle_refl]).
  assert (Hrate : 0 <= nullish (Multi.adValRate rule) zero)
    by (apply nullish_nonneg; [exact Hadv | apply Qle_refl]).
  assert (Hper : 0 <= nullish (Multi.specificAmount rule) zero)
    by (apply nullish_nonneg; [exact Hflat | apply Qle_refl]).
  destruct (Multi.system rule); cbn [fst]; qops; auto with nonneg.
  apply Qadd_nonneg; [| auto with nonneg].
  apply round2_nonneg, Qmult_le_0_compat; [exact Hqty |].
  apply nullish_nonneg; [| exact Hper].
  apply pick_from_bands_nonneg. exact Hbands.
Qed.

Lemma multi_remedy_fold_nonneg (cifPEN : Q) (quantity : option Q)
    (rs : list (Multi.TradeRemedy Q)) :
  0 <= cifPEN -> nonneg_opt quantity ->
  (forall tr, In tr rs -> 0 <= Multi.rateOrAmount tr) ->
  forall acc, 0 <= fst acc ->
    0 <= fst (fold_left (Multi.remedy_step cifPEN quantity) rs acc).
Proof.
  intros Hc Hq. induction rs as [| tr rs IH]; intros Hrates acc Hacc; cbn [fold_left].
  - exact Hacc.
  - apply IH; [intros tr' Hin; apply Hrates; right; exact Hin |].
    assert (Hr : 0 <= Multi.rateOrAmount tr) by (apply Hrates; left; reflexivity).
    assert (Hqty : 0 <= nullish quantity zero)
      by (apply nullish_nonneg; [exact Hq | apply Qle_refl]).
    destruct acc as [total items]. unfold Multi.remedy_step. cbn [fst] in Hacc.
    destruct (Multi.tr_mode tr); cbn [fst]; qops; auto with nonneg.
Qed.

Lemma multi_remedy_override_nonneg (ty : RemedyType) (usd : option Q) (fx : Q)
    (acc : Q * list (Multi.RemedyItem Q)) :
  0 <= fx -> 0 <= fst acc -> 0 <= fst (Multi.remedy_override ty usd fx acc).
Proof.
  destruct acc as [total items]. unfold Multi.remedy_override. cbn [fst].
  intros Hfx Hacc. destruct usd as [u |]; [| exact Hacc].
  destruct (truthy u) eqn:Et; cbn [andb]; [| exact Hacc].
  destruct (gtb u zero) eqn:E; cbn [fst]; [| exact Hacc].
  apply gtb_zero_Q in E. qops.
  apply Qadd_nonneg; [exact Hacc |].
  apply round2_nonneg, Qmult_le_0_compat; [apply Qlt_le_weak; exact E | exact Hfx].
Qed.

Lemma multi_sda_stage_nonneg (prof : Multi.RuleProfile Q)
    (overrides : option (Multi.SimulationOverrides Q)) (cifPEN fx : Q) :
  0 <= fx -> nonneg_opt (Multi.ov overrides (@Multi.sdaUsd Q)) ->
  0 <= Multi.uit (Multi.adminFees prof) -> 0 <= Multi.sdaRate (Multi.adminFees prof) ->
  0 <= snd (Multi.sda_stage prof overrides cifPEN fx).
Proof.
  intros Hfx Hsda Huit Hrate. unfold Multi.sda_stage.
  destruct (Multi.ov overrides (@Multi.sdaUsd Q)) as [s0 |]; cbn [snd nonneg_opt] in *.
  - change (0 <= Multi.round2 (s0 * fx)). auto with nonneg.
  - destruct (gtb cifPEN _); [| apply Qle_refl].
    change (0 <= Multi.round2 (Multi.uit (Multi.adminFees prof)
                               * Multi.sdaRate (Multi.adminFees prof))).
    auto with nonneg.
Qed.

Lemma multi_body_sda (input : Multi.SimulationInput Q) (prof : Multi.RuleProfile Q)
    (overrides : option (Multi.SimulationOverrides Q)) (c fx : Q) :
  Multi.sda (Multi.simulate_body input prof overrides c fx)
  = {| Multi.sda_applies := fst (Multi.sda_stage prof overrides (Multi.round2 (c * fx)) fx);
       Multi.sda_amount := snd (Multi.sda_stage prof overrides (Multi.round2 (c * fx)) fx) |}.
Proof.
  unfold Multi.simulate_body. qops.
  destruct (Multi.duty_stage _ _ _) as [? ?].
  destruct (Multi.isc_stage _ _ _ _) as [? ?].
  destruct (Multi.remedies_stage _ _ _ _ _) as [? ?].
  destruct (Multi.sda_stage _ _ _ _) as [? ?]. reflexivity.
Qed.

Lemma multi_body_nonneg (input : Multi.SimulationInput Q) (prof : Multi.RuleProfile Q)
    (overrides : option (Multi.SimulationOverrides Q)) (c fx : Q) :
  0 <= c -> 0 <= fx ->
  multi_nonneg_data input prof overrides ->
  let r := Multi.simulate_body input prof overrides c fx in
  0 <= Multi.cif_pen r
  /\ 0 <= Multi.arancel_amount (Multi.arancel r)
  /\ 0 <= Multi.isc_total (Multi.isc r)
  /\ 0 <= Multi.tr_total (Multi.trade_remedies r)
  /\ 0 <= Multi.igv_total (Multi.igv r)
  /\ 0 <= Multi.perc_amount (Multi.percepcion r)
  /\ 0 <= Multi.sda_amount (Multi.sda r).
Proof.
  intros Hc Hfx (_ & (_ & Hmfn & Hfta & Hiscr & _ & Hav & Hperc) & Hq & Hspec
                   & Htr & Hsda & Huit & Hsdar) r.
  destruct (multi_body_stages input prof overrides c fx)
    as (Hp & Ha & Hi & Ht & Hb & Hv & Hpa).
  assert (Hsdaamt : 0 <= Multi.sda_amount (Multi.sda r)).
  { subst r. rewrite multi_body_sda. cbn [Multi.sda_amount].
    apply multi_sda_stage_nonneg; assumption. }
  subst r. rewrite Hp, Ha, Hi, Ht, Hv, Hpa. clear Hp Ha Hi Ht Hb Hv Hpa.
  pose proof (duty_stage_nonneg input prof overrides Hmfn Hfta Hav) as Hrate.
  set (rate := fst (Multi.duty_stage input prof overrides)) in *.
  assert (Hpen : 0 <= Multi.round2 (c * fx)) by auto with nonneg.
  set (p := Multi.round2 (c * fx)) in *.
  assert (Hduty : 0 <= Multi.round2 (p * rate)) by auto with nonneg.
  set (d := Multi.round2 (p * rate)) in *.
  assert (Hexc : 0 <= fst (Multi.isc_stage input prof p d)).
  { apply multi_isc_stage_nonneg; try assumption.
    intros rule Hr. destruct (Hspec rule Hr) as [H1 H2].
    split; [exact (Hiscr rule Hr) | split; assumption]. }
  set (i := fst (Multi.isc_stage input prof p d)) in *.
  assert (Hrem : 0 <= fst (Multi.remedies_stage input prof overrides p fx)).
  { unfold Multi.remedies_stage.
    apply multi_remedy_override_nonneg; [exact Hfx |].
    apply multi_remedy_override_nonneg; [exact Hfx |].
    apply multi_remedy_fold_nonneg; try assumption. apply Qle_refl. }
  set (t := fst (Multi.remedies_stage input prof overrides p fx)) in *.
  assert (Hvb : 0 <= Multi.round2 (p + d + i)) by auto 6 with nonneg.
  set (b := Multi.round2 (p + d + i)) in *.
  assert (H16 : 0 <= (if Multi.vatExempt prof then 0 else Multi.round2 (b * dec 16 100))).
  { destruct (Multi.vatExempt prof); [apply Qle_refl |].
    apply round2_nonneg, Qmult_le_0_compat; [exact Hvb | vm_compute; discriminate]. }
  assert (H2 : 0 <= (if Multi.vatExempt prof then 0 else Multi.round2 (b * dec 2 100))).
  { destruct (Multi.vatExempt prof); [apply Qle_refl |].
    apply round2_nonneg, Qmult_le_0_compat; [exact Hvb | vm_compute; discriminate]. }
  split; [exact Hpen |]. split; [exact Hduty |]. split; [exact Hexc |].
  split; [exact Hrem |]. split; [auto with nonneg |]. split; [| exact Hsdaamt].
  apply round2_nonneg, Qmult_le_0_compat.
  - auto 8 with nonneg.
  - apply nullish_nonneg; [exact Hperc | apply defaultPerception_nonneg].
Qed.

(** X6. With non-negative data (customs value, rates, quantities, per-unit
    amounts, remedy schedule, fee constants) no amount of a result is
    negative in either engine: customs value base, duty, excise, trade
    remedies, VAT, perception and special fee are all at least 0, the
    customs debt is at least each of its parts and the amount payable at
    the border is at least the customs debt. *)
Theorem amounts_never_negative :
  (forall (input : Multi.SimulationInput Q) (prof : Multi.RuleProfile Q)
          (overrides : option (Multi.SimulationOverrides Q))
          (r : Multi.SimulationResult Q),
      multi_nonneg_data input prof overrides ->
      Multi.simulate input prof overrides = Ok r ->
      0 <= Multi.cif_pen r
      /\ 0 <= Multi.arancel_amount (Multi.arancel r)
      /\ 0 <= Multi.isc_total (Multi.isc r)
      /\ 0 <= Multi.tr_total (Multi.trade_remedies r)
      /\ 0 <= Multi.igv_total (Multi.igv r)
      /\ 0 <= Multi.perc_amount (Multi.percepcion r)
      /\ 0 <= Multi.sda_amount (Multi.sda r)
      /\ Multi.igv_total (Multi.igv r) <= Multi.deuda_aduanera r
      /\ Multi.arancel_amount (Multi.arancel r) <= Multi.deuda_aduanera r
      /\ Multi.deuda_aduanera r <= Multi.pago_en_frontera r)
  /\
  (forall (input : Usd.SimulationInput Q) (prof : Usd.RuleProfile Q)
          (o : Usd.SimulationOverrides Q) (r : Usd.SimulationResult Q),
      usd_nonneg_data input prof o ->
      Usd.simulate input prof o = Ok r ->
      0 <= Usd.cif_pen r
      /\ 0 <= Usd.arancel_amount (Usd.arancel r)
      /\ 0 <= Usd.isc_total (Usd.isc r)
      /\ 0 <= Usd.tr_total (Usd.trade_remedies r)
      /\ 0 <= Usd.igv_total (Usd.igv r)
      /\ 0 <= Usd.perc_amount (Usd.percepcion r)
      /\ 0 <= Usd.sda_amount (Usd.sda r)
      /\ Usd.igv_total (Usd.igv r) <= Usd.deuda_aduanera r
      /\ Usd.arancel_amount (Usd.arancel r) <= Usd.deuda_aduanera r
      /\ Usd.deuda_aduanera r <= Usd.pago_en_frontera r).
Proof.
  split.
  - intros input prof overrides r Hdata Hrun.
    destruct (multi_totals _ _ _ Hrun) as [Hdebt Hpay].
    apply multi_simulate_Ok in Hrun. destruct Hrun as (fx & Hfx & _ & _ & ->).
    assert (Hfxnn : 0 <= fx).
    { destruct Hdata as (_ & (Hnn & _) & _). rewrite Hfx in Hnn. exact Hnn. }
    assert (Hc : 0 <= Multi.cifUSD_of input).
    { rewrite multi_cifUSD_stated. apply Hdata. }
    destruct (multi_body_nonneg (input := input) (prof := prof)
                (overrides := overrides) Hc Hfxnn Hdata)
      as (H1 & H2 & H3 & H4 & H5 & H6 & H7).
    repeat (split; [assumption |]).
    set (body := Multi.simulate_body input prof overrides
                   (Multi.cifUSD_of input) fx) in *.
    rewrite Hpay, Hdebt.
    set (a := Multi.arancel_amount (Multi.arancel body)) in *.
    set (i := Multi.isc_total (Multi.isc body)) in *.
    set (v := Multi.igv_total (Multi.igv body)) in *.
    set (t := Multi.tr_total (Multi.trade_remedies body)) in *.
    set (s0 := Multi.sda_amount (Multi.sda body)) in *.
    set (q := Multi.perc_amount (Multi.percepcion body)) in *.
    clearbody a i v t s0 q. clear - H2 H3 H4 H5 H6 H7.
    repeat split.
    + setoid_replace v with (0 + 0 + v + 0 + 0) at 1 by ring.
      repeat apply Qplus_le_compat; try assumption; apply Qle_refl.
    + setoid_replace a with (a + 0 + 0 + 0 + 0) at 1 by ring.
      repeat apply Qplus_le_compat; try assumption; apply Qle_refl.
    + setoid_replace (a + i + v + t + s0) with (a + i + v + t + s0 + 0) at 1 by ring.
      apply Qplus_le_compat; [apply Qle_refl | assumption].
  - intros input prof o r (Hval & Hrates & Had & Hcvd) Hrun.
    destruct (usd_totals _ _ _ Hrun) as [Hdebt Hpay].
    apply usd_simulate_Ok in Hrun. destruct Hrun as (_ & ->).
    assert (Hc : 0 <= Usd.cifUsd_of input).
    { rewrite usd_cifUsd_stated. exact Hval. }
    destruct (usd_body_nonneg input (prof := prof) (o := o) Hc Hrates Had Hcvd)
      as (H1 & H2 & H3 & H4 & H5 & H6 & H7).
    repeat (split; [assumption |]).
    set (body := Usd.simulate_body input prof o (Usd.cifUsd_of input)) in *.
    rewrite Hpay, Hdebt.
    set (a := Usd.arancel_amount (Usd.arancel body)) in *.
    set (i := Usd.isc_total (Usd.isc body)) in *.
    set (v := Usd.igv_total (Usd.igv body)) in *.
    set (t := Usd.tr_total (Usd.trade_remedies body)) in *.
    set (s0 := Usd.sda_amount (Usd.sda body)) in *.
    set (q := Usd.perc_amount (Usd.percepcion body)) in *.
    clearbody a i v t s0 q. clear - H2 H3 H4 H5 H6 H7.
    repeat split.
    + setoid_replace v with (0 + 0 + v + 0 + 0) at 1 by ring.
      repeat apply Qplus_le_compat; try assumption; apply Qle_refl.
    + setoid_replace a with (a + 0 + 0 + 0 + 0) at 1 by ring.
      repeat apply Qplus_le_compat; try assumption; apply Qle_refl.
    + setoid_replace (a + i + v + t + s0) with (a + i + v + t + s0 + 0) at 1 by ring.
      apply Qplus_le_compat; [apply Qle_refl | assumption].
Qed.

Lemma wine_nonneg_data : multi_nonneg_data wine_input wine_profile None.
Proof.
  split; [vm_compute; discriminate |].
  split; [exact wine_valid_rates |].
  split; [vm_compute; discriminate |].
  split.
  { intros rule [= <-]. split; [vm_compute; discriminate |].
    repeat constructor; vm_compute; discriminate. }
  split.
  { intros tr [<- | []]. vm_compute. discriminate. }
  split; [exact I |].
  split; vm_compute; discriminate.
Qed.

Lemma amounts_never_negative_witness :
  (exists r : Multi.SimulationResult Q,
      Multi.simulate wine_input wine_profile None = Ok r
      /\ 0 <= Multi.perc_amount (Multi.percepcion r)
      /\ Multi.deuda_aduanera r <= Multi.pago_en_frontera r)
  /\
  (exists r : Usd.SimulationResult Q,
      Usd.simulate carton_input carton_profile carton_overrides_full = Ok r
      /\ 0 <= Usd.isc_total (Usd.isc r)
      /\ Usd.deuda_aduanera r <= Usd.pago_en_frontera r).
Proof.
  split; eexists; (split; [reflexivity |]).
  - match goal with
    | |- 0 <= Multi.perc_amount (Multi.percepcion ?r) /\ _ =>
        assert (Hrun : Multi.simulate wine_input wine_profile None = Ok r)
          by reflexivity
    end.
    destruct (proj1 amounts_never_negative _ _ _ _ wine_nonneg_data Hrun)
      as (_ & _ & _ & _ & _ & Hp & _ & _ & _ & Hpay).
    split; assumption.
  - match goal with
    | |- 0 <= Usd.isc_total (Usd.isc ?r) /\ _ =>
        assert (Hrun : Usd.simulate carton_input carton_profile
                         carton_overrides_full = Ok r) by reflexivity
    end.
    assert (Hdata : usd_nonneg_data carton_input carton_profile carton_overrides_full)
      by (repeat split; try exact I; vm_compute; discriminate).
    destruct (proj2 amounts_never_negative _ _ _ _ Hdata Hrun)
      as (_ & _ & Hi & _ & _ & _ & _ & _ & _ & Hpay).
    split; assumption.
Defined.

(* ------------------------------------------------------------------ *)
(** * The form routes *)

Lemma truthy_opt_Q (a : option Q) : truthy_opt a = false <-> falsy_opt a.
Proof.
  destruct a as [v |]; cbn [truthy_opt falsy_opt].
  - apply truthy_Q.
  - split; auto.
Qed.

Lemma round2_mul_zero (b rate : Q) : rate == 0 -> Multi.round2 (b * rate) == 0.
Proof.
  intro Hz. rewrite Hz. setoid_replace (b * 0) with 0 by ring. apply round2_zero.
Qed.

(** X7. The multi-country form route builds an overrides object only when
    some override field is non-zero, and then passes all five fields as
    entered.  So a perception override of 0 entered alone is dropped: the
    simulation uses the default perception rate of the importer profile,
    whereas the same override handed to [simulate] gives rate 0, the
    "override: 0%" label and a perception of 0. *)
Theorem form_overrides_drop_lone_zero :
  (forall a b c d e : option Q,
      Routes.formOverrides a b c d e = None
      <-> falsy_opt a /\ falsy_opt b /\ falsy_opt c /\ falsy_opt d /\ falsy_opt e)
  /\
  (forall (a b c d e : option Q) (o : Multi.SimulationOverrides Q),
      Routes.formOverrides a b c d e = Some o ->
      o = {| Multi.adValoremRate := a; Multi.antidumpingUsd := b;
             Multi.countervailingUsd := c; Multi.perceptionRate := d;
             Multi.sdaUsd := e |})
  /\
  (forall (input : Multi.SimulationInput Q) (prof : Multi.RuleProfile Q)
          (r_form r_direct : Multi.SimulationResult Q),
      Multi.simulate input prof (Routes.formOverrides None None None (Some 0) None)
      = Ok r_form ->
      Multi.simulate input prof
        (Some {| Multi.adValoremRate := None; Multi.antidumpingUsd := None;
                 Multi.countervailingUsd := None; Multi.perceptionRate := Some 0;
                 Multi.sdaUsd := None |}) = Ok r_direct ->
      Multi.simulate input prof None = Ok r_form
      /\ Multi.perc_rate (Multi.percepcion r_form)
         == fst (spec_default_perception (Multi.importerProfile input)
                   (Multi.isUsed input))
      /\ Multi.perc_rate (Multi.percepcion r_direct) = 0
      /\ Multi.perc_rule (Multi.percepcion r_direct) = "Percepción override: 0%"%string
      /\ Multi.perc_amount (Multi.percepcion r_direct) == 0).
Proof.
  split; [| split].
  - intros a b c d e. unfold Routes.formOverrides.
    rewrite <- !truthy_opt_Q.
    destruct (truthy_opt a), (truthy_opt b), (truthy_opt c), (truthy_opt d),
             (truthy_opt e); cbn [orb];
      split; intro Hx; try discriminate; try (repeat split; reflexivity);
      destruct Hx as (H1 & H2 & H3 & H4 & H5); discriminate.
  - intros a b c d e o. unfold Routes.formOverrides.
    destruct (_ || _); [| discriminate]. intros [= <-]. reflexivity.
  - intros input prof r_form r_direct Hform Hdirect.
    change (Routes.formOverrides None None None (Some 0) None)
      with (@None (Multi.SimulationOverrides Q)) in Hform.
    split; [exact Hform |].
    apply multi_simulate_Ok in Hform. destruct Hform as (fx & _ & _ & _ & ->).
    apply multi_simulate_Ok in Hdirect. destruct Hdirect as (fx' & _ & _ & _ & ->).
    split.
    + multi_body. cbn [Multi.ov nullish]. apply defaultPerception_spec.
    + multi_body. cbn [Multi.ov Multi.perceptionRate nullish].
      split; [reflexivity |]. split; [reflexivity |].
      apply round2_mul_zero. reflexivity.
Qed.

Lemma form_overrides_drop_lone_zero_witness :
  exists r : Multi.SimulationResult Q,
    Multi.simulate wine_input wine_profile
      (Routes.formOverrides None None None (Some 0) None) = Ok r
    /\ Multi.perc_rate (Multi.percepcion r) == 35 # 1000.
Proof.
  eexists. split; [reflexivity |].
  match goal with
  | |- Multi.perc_rate (Multi.percepcion ?r) == _ =>
      assert (Hform : Multi.simulate wine_input wine_profile
                        (Routes.formOverrides None None None (Some 0) None) = Ok r)
        by reflexivity
  end.
  assert (Hdirect : Multi.simulate wine_input wine_profile
                      (Some {| Multi.adValoremRate := None;
                               Multi.antidumpingUsd := None;
                               Multi.countervailingUsd := None;
                               Multi.perceptionRate := Some 0;
                               Multi.sdaUsd := None |})
                    = Ok (Multi.simulate_body wine_input wine_profile
                            (Some {| Multi.adValoremRate := None;
                                     Multi.antidumpingUsd := None;
                                     Multi.countervailingUsd := None;
                                     Multi.perceptionRate := Some 0;
                                     Multi.sdaUsd := None |})
                            (Multi.cifUSD_of wine_input) (dec 375 100)))
    by reflexivity.
  destruct (proj2 (proj2 form_overrides_drop_lone_zero) _ _ _ _ Hform Hdirect)
    as (_ & Hrate & _).
  exact Hrate.
Defined.

Lemma is_finite_Q (n : Q) : is_finite n = true.
Proof.
  unfold is_finite. rewrite strict_eqb_Q. apply Qeq_bool_iff.
  unfold zero. qops. change (inject_Z 0) with 0. ring.
Qed.

(** [parsePercent] on a rational: a negative number is no rate, a number
    up to 1 is a proportion, a larger one a percentage. *)
Lemma parsePercent_Q (n : Q) :
  Routes.parsePercent (Some n)
  = if Qltb n 0 then None else Some (if Qltb 1 n then n / 100 else n).
Proof.
  unfold Routes.parsePercent. rewrite is_finite_Q. reflexivity.
Qed.

Lemma parsePercent_range (input : option Q) (rate : Q) :
  Routes.parsePercent input = Some rate -> 0 <= rate.
Proof.
  destruct input as [n |]; [| discriminate]. rewrite parsePercent_Q.
  destruct (Qltb n 0) eqn:En; [discriminate |]. apply Qltb_ge in En.
  intros [= <-]. destruct (Qltb 1 n); [| exact En].
  apply Qle_shift_div_l; [reflexivity |]. rewrite Qmult_0_l. exact En.
Qed.

Lemma fuera_de_rango_Q (rate : option Q) :
  Routes.fuera_de_rango rate = false <->
  match rate with Some r => 0 <= r <= 1 | None => True end.
Proof.
  unfold Routes.fuera_de_rango. destruct rate as [r |]; [| split; auto].
  unfold gtb, zero. qops. rewrite orb_false_iff, !Qltb_ge. reflexivity.
Qed.

Lemma fuera_de_rango_parse (enabled : bool) (field : option Q) :
  Routes.fuera_de_rango (if enabled then Routes.parsePercent field else None) = true
  <-> over_100 enabled field.
Proof.
  unfold over_100. destruct enabled; cbn [Routes.fuera_de_rango].
  - destruct field as [n |].
    + rewrite parsePercent_Q. destruct (Qltb n 0) eqn:En.
      * cbn [Routes.fuera_de_rango]. split; [discriminate |].
        intros (_ & n' & [= <-] & Hn). apply Qltb_lt in En.
        exfalso. apply (Qlt_irrefl 0).
        eapply Qlt_trans; [| exact En]. eapply Qlt_trans; [| exact Hn]. reflexivity.
      * apply Qltb_ge in En. unfold Routes.fuera_de_rango, gtb, zero. qops.
        change (inject_Z 0) with 0. change (inject_Z 1) with 1.
        destruct (Qltb 1 n) eqn:E1.
        -- apply Qltb_lt in E1.
           assert (E0 : Qltb (n / 100) 0 = false).
           { apply Qltb_ge. apply Qle_shift_div_l; [reflexivity |].
             rewrite Qmult_0_l. exact En. }
           rewrite E0. cbn [orb]. split.
           ++ intro H1. apply Qltb_lt in H1.
              split; [reflexivity |]. exists n. split; [reflexivity |].
              apply (Qmult_lt_r _ _ 100) in H1; [| reflexivity].
              setoid_replace (n / 100 * 100) with n in H1 by field.
              rewrite Qmult_1_l in H1. exact H1.
           ++ intros (_ & n' & [= <-] & Hn). apply Qltb_lt.
              apply Qlt_shift_div_l; [reflexivity |]. rewrite Qmult_1_l. exact Hn.
        -- rewrite E1. apply Qltb_ge in E1.
           assert (E0 : Qltb n 0 = false) by (apply Qltb_ge; exact En).
           rewrite E0. cbn [orb]. split; [discriminate |].
           intros (_ & n' & [= <-] & Hn). exfalso. apply (Qlt_irrefl n).
           eapply Qle_lt_trans; [exact E1 |]. eapply Qlt_trans; [| exact Hn]. reflexivity.
    + cbn. split; [discriminate |]. intros (_ & n & Hn & _). discriminate.
  - split; [discriminate |]. intros [Hen _]. discriminate.
Qed.

(** What a 200 answer of the USD form tells about the run behind it. *)
Lemma quoteForm_200 (f : Routes.QuoteForm Q) (perfil : outcome (Usd.RuleProfile Q))
    (bienesRows stdRows : list (@Routes.Cuenta))
    (r : Usd.SimulationResult Q) (oa : option (Routes.Asiento Q)) :
  Routes.quoteForm f perfil bienesRows stdRows = Routes.status_200 (r, oa) ->
  let iscRate :=
    if Routes.habilitar_isc f then Routes.parsePercent (Routes.isc_porcentaje f)
    else None in
  let percRate :=
    if Routes.habilitar_percepcion f then Routes.parsePercent (Routes.percepcion_tasa f)
    else None in
  let cifUsd := Routes.fob f + Routes.flete f + Routes.seguro f in
  exists prof,
    perfil = Ok prof
    /\ Routes.fuera_de_rango iscRate = false
    /\ Routes.fuera_de_rango percRate = false
    /\ Usd.simulate (Routes.quoteFormInput f cifUsd) prof
         (Routes.quoteFormOverrides f iscRate percRate) = Ok r
    /\ oa = (if Routes.generar_asiento f
             then Some (Routes.asientoPreview bienesRows stdRows cifUsd r)
             else None).
Proof.
  unfold Routes.quoteForm. cbv zeta.
  destruct (Routes.fuera_de_rango
              (if Routes.habilitar_isc f
               then Routes.parsePercent (Routes.isc_porcentaje f) else None)) eqn:E1;
    [discriminate |].
  destruct (Routes.fuera_de_rango
              (if Routes.habilitar_percepcion f
               then Routes.parsePercent (Routes.percepcion_tasa f) else None)) eqn:E2;
    [discriminate |].
  destruct perfil as [prof | m]; [| discriminate].
  qops.
  destruct (Usd.simulate _ prof _) as [result | m] eqn:Es; [| discriminate].
  destruct (Routes.generar_asiento f); cbn [negb]; intros [= <- <-];
    exists prof; repeat split; assumption.
Qed.

(** X8. How [POST /quote-form] (USD) answers.  It answers 400, in this
    order of precedence: with the excise message when the excise toggle is
    on and its percentage is above 100; with the perception message when
    that toggle is on and its percentage is above 100; with the resolver's
    message when the rule profile could not be loaded; with the engine's
    message when FOB + freight + insurance is 0.  Otherwise it answers 200
    with the simulation, and with the accounting preview exactly when it
    was asked for. *)
Theorem quote_form_answers (f : Routes.QuoteForm Q)
    (perfil : outcome (Usd.RuleProfile Q))
    (bienesRows stdRows : list (@Routes.Cuenta)) :
  let answer := Routes.quoteForm f perfil bienesRows stdRows in
  let isc_over := over_100 (Routes.habilitar_isc f) (Routes.isc_porcentaje f) in
  let perc_over := over_100 (Routes.habilitar_percepcion f) (Routes.percepcion_tasa f) in
  (isc_over -> answer = Routes.status_400 Routes.mensaje_isc_porcentaje)
  /\ (~ isc_over -> perc_over -> answer = Routes.status_400 Routes.mensaje_percepcion_tasa)
  /\ (~ isc_over -> ~ perc_over ->
      match perfil with
      | Throw message => answer = Routes.status_400 message
      | Ok prof =>
          (Routes.fob f + Routes.flete f + Routes.seguro f == 0 ->
           answer = Routes.status_400 "Debes enviar CIF o (FOB+Flete+Seguro).")
          /\ (~ Routes.fob f + Routes.flete f + Routes.seguro f == 0 ->
              exists r oa,
                answer = Routes.status_200 (r, oa)
                /\ (oa <> None <-> Routes.generar_asiento f = true))
      end).
Proof.
  cbv zeta. unfold Routes.quoteForm.
  pose proof (fuera_de_rango_parse (Routes.habilitar_isc f) (Routes.isc_porcentaje f))
    as Hisc.
  pose proof (fuera_de_rango_parse (Routes.habilitar_percepcion f)
                (Routes.percepcion_tasa f)) as Hperc.
  destruct (Routes.fuera_de_rango
              (if Routes.habilitar_isc f
               then Routes.parsePercent (Routes.isc_porcentaje f) else None)).
  { split; [reflexivity |]. split; intro Hno; exfalso; apply Hno, Hisc; reflexivity. }
  assert (Hnoisc : ~ over_100 (Routes.habilitar_isc f) (Routes.isc_porcentaje f))
    by (intro Hx; apply Hisc in Hx; discriminate).
  split; [intro Hx; contradiction |].
  destruct (Routes.fuera_de_rango
              (if Routes.habilitar_percepcion f
               then Routes.parsePercent (Routes.percepcion_tasa f) else None)).
  { split; [reflexivity |]. intros _ Hno. exfalso. apply Hno, Hperc. reflexivity. }
  assert (Hnoperc : ~ over_100 (Routes.habilitar_percepcion f)
                      (Routes.percepcion_tasa f))
    by (intro Hx; apply Hperc in Hx; discriminate).
  split; [intros _ Hx; contradiction |].
  intros _ _. destruct perfil as [prof | message]; [| reflexivity].
  unfold Usd.simulate.
  change (Usd.cifUsd_of (Routes.quoteFormInput f _))
    with (Routes.fob f + Routes.flete f + Routes.seguro f).
  destruct (truthy (Routes.fob f + Routes.flete f + Routes.seguro f)) eqn:Et;
    cbn [negb].
  - apply truthy_Q_true in Et. split; [intro Hz; contradiction |].
    intros _. destruct (Routes.generar_asiento f); cbn [negb];
      eexists; eexists; (split; [reflexivity |]); split; congruence.
  - apply truthy_Q in Et. split; [reflexivity |]. intro Hnz. contradiction.
Qed.

Lemma quote_form_answers_witness :
  exists r a,
    Routes.quoteForm (num := Q) carton_form (Ok carton_profile) [] []
    = Routes.status_200 (r, Some a).
Proof.
  destruct (quote_form_answers carton_form (Ok carton_profile) [] [])
    as (_ & _ & Hok).
  assert (Hno1 : ~ over_100 (Routes.habilitar_isc (num := Q) carton_form)
                   (Routes.isc_porcentaje carton_form))
    by (intros [Hen _]; discriminate).
  assert (Hno2 : ~ over_100 (Routes.habilitar_percepcion (num := Q) carton_form)
                   (Routes.percepcion_tasa carton_form)).
  { intros (_ & n & [= <-] & Hn). vm_compute in Hn. discriminate. }
  destruct (Hok Hno1 Hno2) as [_ H200].
  destruct H200 as (r & oa & Hans & Hoa); [vm_compute; discriminate |].
  exists r. destruct oa as [a |].
  - exists a. exact Hans.
  - exfalso. assert (Hsome : @None (Routes.Asiento Q) <> None)
      by (apply Hoa; reflexivity).
    apply Hsome. reflexivity.
Defined.

Lemma num_or_zero_Q (x : Q) : num_or_zero x == x.
Proof.
  unfold num_or_zero. destruct (truthy x) eqn:E; [reflexivity |].
  apply truthy_Q in E. rewrite E. reflexivity.
Qed.

Lemma r2_num_or_zero (x : Q) : cents x -> Usd.r2 (num_or_zero x) == x.
Proof.
  intro Hx. rewrite r2_round2, num_or_zero_Q. apply round2_cents. exact Hx.
Qed.

(** Every amount of a USD-only result lies on the cent grid. *)
Lemma usd_result_cents (input : Usd.SimulationInput Q) (prof : Usd.RuleProfile Q)
    (o : Usd.SimulationOverrides Q) (c : Q) :
  let r := Usd.simulate_body input prof o c in
  cents (Usd.arancel_amount (Usd.arancel r))
  /\ cents (Usd.isc_total (Usd.isc r))
  /\ cents (Usd.igv_igv16 (Usd.igv r))
  /\ cents (Usd.igv_ipm2 (Usd.igv r))
  /\ cents (Usd.tr_total (Usd.trade_remedies r))
  /\ cents (Usd.sda_amount (Usd.sda r))
  /\ cents (Usd.perc_amount (Usd.percepcion r))
  /\ Usd.igv_total (Usd.igv r)
     = Usd.r2 (Usd.igv_igv16 (Usd.igv r) + Usd.igv_ipm2 (Usd.igv r)).
Proof.
  cbv zeta. pose proof (usd_remedies_stage_cents o) as Hrem.
  unfold Usd.simulate_body.
  match goal with
  | |- context [Usd.isc_stage ?o ?c ?a] =>
      pose proof (usd_isc_stage_cents o c a) as Hisc;
      destruct (Usd.isc_stage o c a) as [[iscApplied iscTotal] iscDetails]
  end.
  destruct (Usd.remedies_stage o) as [remediesTotal items].
  match goal with
  | |- context [Usd.perception_stage ?i ?o ?b ?x ?y ?t] =>
      pose proof (usd_perception_stage_cents i o b x y t) as Hperc;
      destruct (Usd.perception_stage i o b x y t)
        as [[[[percRate percRule] percBase] percAmt] percApplied]
  end.
  cbn [fst snd] in *.
  cbn [Usd.arancel Usd.arancel_amount Usd.isc Usd.isc_total Usd.igv Usd.igv_igv16
       Usd.igv_ipm2 Usd.igv_total Usd.trade_remedies Usd.tr_total Usd.sda
       Usd.sda_amount Usd.percepcion Usd.perc_amount].
  repeat (split; [auto with cents |]). reflexivity.
Qed.

(** X9. The accounting entry previewed by the USD form is balanced: the
    six debit lines (goods, duty, excise, VAT, linked costs = trade
    remedies + special fee, perception) add up to the customs value base
    plus the amount payable at the border of the simulation, and the single
    credit line on account 421 carries that same total. *)
Theorem quote_form_asiento_balanced (f : Routes.QuoteForm Q)
    (perfil : outcome (Usd.RuleProfile Q))
    (bienesRows stdRows : list (@Routes.Cuenta))
    (r : Usd.SimulationResult Q) (a : Routes.Asiento Q) :
  Routes.quoteForm f perfil bienesRows stdRows = Routes.status_200 (r, Some a) ->
  Routes.debe_total a == Usd.cif_pen r + Usd.pago_en_frontera r
  /\ Routes.haber_total a = Routes.debe_total a
  /\ Qsum (map (@Routes.debe Q) (Routes.lineas a))
     == Qsum (map (@Routes.haber Q) (Routes.lineas a))
  /\ exists debit_lines credit_line,
       Routes.lineas a = debit_lines ++ [credit_line]
       /\ length debit_lines = 6%nat
       /\ Forall (fun l => Routes.haber l = 0) debit_lines
       /\ Routes.cuenta credit_line = "421"%string
       /\ Routes.debe credit_line = 0
       /\ Routes.haber credit_line = Routes.debe_total a.
Proof.
  intro Hans. apply quoteForm_200 in Hans. cbv zeta in Hans.
  destruct Hans as (prof & _ & _ & _ & Hrun & Hoa).
  destruct (Routes.generar_asiento f); [| discriminate].
  injection Hoa as ->.
  destruct (usd_totals _ _ _ Hrun) as [Hdebt Hpay].
  apply usd_simulate_Ok in Hrun. destruct Hrun as (_ & ->).
  change (Usd.cifUsd_of (Routes.quoteFormInput f _))
    with (Routes.fob f + Routes.flete f + Routes.seguro f) in *.
  set (c := Routes.fob f + Routes.flete f + Routes.seguro f) in *.
  destruct (usd_result_cents (Routes.quoteFormInput f c) prof
              (Routes.quoteFormOverrides f
                 (if Routes.habilitar_isc f
                  then Routes.parsePercent (Routes.isc_porcentaje f) else None)
                 (if Routes.habilitar_percepcion f
                  then Routes.parsePercent (Routes.percepcion_tasa f) else None)) c)
    as (Hav & Hisc & H16 & H2 & Htr & Hsda & Hperc & Hvat).
  set (r := Usd.simulate_body _ _ _ c) in *.
  assert (Hcif : Usd.cif_pen r = Usd.r2 c).
  { subst r. unfold Usd.simulate_body.
    destruct (Usd.isc_stage _ _ _) as [[? ?] ?].
    destruct (Usd.remedies_stage _) as [? ?].
    destruct (Usd.perception_stage _ _ _ _ _ _) as [[[[? ?] ?] ?] ?]. reflexivity. }
  assert (Htotal : Routes.debe_total (Routes.asientoPreview bienesRows stdRows c r)
                   == Usd.cif_pen r + Usd.pago_en_frontera r).
  { unfold Routes.asientoPreview.
    cbn [Routes.debe_total fold_left Routes.debe]. unfold zero. qops.
    change (inject_Z 0) with 0.
    rewrite (r2_num_or_zero Hav), (r2_num_or_zero Hisc), (r2_num_or_zero Htr),
      (r2_num_or_zero Hsda), (r2_num_or_zero Hperc).
    rewrite !num_or_zero_Q, <- Hvat.
    rewrite (r2_cents (q := Usd.tr_total _ + Usd.sda_amount _))
      by auto with cents.
    rewrite r2_cents.
    - rewrite Hpay, Hdebt, Hcif. ring.
    - rewrite Hvat. auto 12 with cents. }
  split; [exact Htotal |]. split; [reflexivity |]. split.
  - unfold Routes.asientoPreview in *.
    cbn [Routes.lineas Routes.debe_total app map Routes.debe Routes.haber Qsum
         fold_right fold_left] in *.
    unfold zero in *. qops. change (inject_Z 0) with 0 in *.
    match goal with
    | |- ?lhs == 0 + (0 + (0 + (0 + (0 + (0 + (Usd.r2 ?x + 0)))))) =>
        rewrite (r2_cents (q := x))
    end.
    + ring.
    + rewrite (r2_num_or_zero Hav), (r2_num_or_zero Hisc), (r2_num_or_zero Htr),
        (r2_num_or_zero Hsda), (r2_num_or_zero Hperc).
      rewrite !num_or_zero_Q, <- Hvat. rewrite Hvat. auto 12 with cents.
  - unfold Routes.asientoPreview. cbn [Routes.lineas Routes.debe_total].
    eexists. eexists. split; [reflexivity |].
    split; [reflexivity |]. split; [repeat constructor |].
    repeat split; reflexivity.
Qed.

Lemma parsePercent_negative (n : Q) : n < 0 -> Routes.parsePercent (Some n) = None.
Proof.
  intro Hn. rewrite parsePercent_Q.
  destruct (Qltb n 0) eqn:E; [reflexivity |].
  apply Qltb_ge in E. exfalso. apply (Qlt_irrefl 0).
  apply Qle_lt_trans with n; assumption.
Qed.

(** X10. A negative excise or perception percentage on the USD form is not
    refused: [parsePercent] turns it into [undefined], so the handler
    answers exactly as if the field had been left blank (the engine then
    falls back to no excise, or to the importer profile's perception
    rate). *)
Theorem quote_form_negative_percentage_is_blank (f : Routes.QuoteForm Q)
    (isc_pct perc_pct : Q) (perfil : outcome (Usd.RuleProfile Q))
    (bienesRows stdRows : list (@Routes.Cuenta)) :
  isc_pct < 0 -> perc_pct < 0 ->
  Routes.quoteForm (form_with_percentages f (Some isc_pct) (Some perc_pct))
    perfil bienesRows stdRows
  = Routes.quoteForm (form_with_percentages f None None) perfil bienesRows stdRows.
Proof.
  intros Hi Hp. unfold Routes.quoteForm, form_with_percentages.
  cbn [Routes.isc_porcentaje Routes.percepcion_tasa Routes.habilitar_isc
       Routes.habilitar_percepcion Routes.fob Routes.flete Routes.seguro
       Routes.generar_asiento].
  rewrite (parsePercent_negative Hi), (parsePercent_negative Hp).
  reflexivity.
Qed.

Lemma quote_form_negative_percentage_is_blank_witness :
  -(5) < 0 /\ -(1) < 0
  /\ Routes.quoteForm (form_with_percentages carton_form (Some (-(5))) (Some (-(1))))
       (Ok carton_profile) [] []
     = Routes.quoteForm (form_with_percentages carton_form None None)
         (Ok carton_profile) [] [].
Proof.
  split; [reflexivity |]. split; [reflexivity |].
  apply (@quote_form_negative_percentage_is_blank carton_form (-(5)) (-(1)));
    reflexivity.
Defined.

Lemma quote_form_asiento_balanced_witness :
  exists r a,
    Routes.quoteForm (num := Q) carton_form (Ok carton_profile) [] []
    = Routes.status_200 (r, Some a)
    /\ Routes.debe_total a == Usd.cif_pen r + Usd.pago_en_frontera r
    /\ Routes.haber_total a = Routes.debe_total a.
Proof.
  destruct (Routes.quoteForm (num := Q) carton_form (Ok carton_profile) [] [])
    as [[r [a |]] | message] eqn:E.
  - exists r, a. split; [reflexivity |].
    destruct (quote_form_asiento_balanced carton_form (Ok carton_profile) [] [] E)
      as (Htotal & Hhaber & _).
    split; assumption.
  - vm_compute in E. discriminate.
  - vm_compute in E. discriminate.
Defined.

(* ------------------------------------------------------------------ *)
(** * The import record calculation *)

Lemma or_default_zero_Q (a : option Q) : or_default_zero a == or_zero a.
Proof.
  destruct a as [x |]; [| reflexivity]. cbn [or_default_zero or_zero].
  destruct (truthy x) eqn:E; [reflexivity |].
  apply truthy_Q in E. rewrite E. reflexivity.
Qed.

Lemma or_default_zero_nonneg (a : option Q) : nonneg_opt a -> 0 <= or_default_zero a.
Proof.
  intro Ha. rewrite or_default_zero_Q. destruct a as [x |]; [exact Ha |].
  apply Qle_refl.
Qed.

(** X11. The journal entry that [calcularImportacion] drafts does not
    balance in general: its debits exceed its credits by the customs value
    less the excise amount.  The goods are debited at customs value while
    the only credit is the taxes paid, and the excise is credited without
    ever being debited; the entry balances exactly when those two amounts
    coincide. *)
Theorem importacion_asiento_imbalance (data : Importacion.ImportacionInputData Q)
    (tasas : Importacion.TasasImpuestos Q) :
  let c := Importacion.calcularImportacion data tasas in
  let debits := Qsum (map (@Importacion.debe Q) (Importacion.asiento_contable c)) in
  let credits := Qsum (map (@Importacion.haber Q) (Importacion.asiento_contable c)) in
  debits - credits == Importacion.valor_cif c - Importacion.monto_isc c
  /\ (debits == credits <-> Importacion.valor_cif c == Importacion.monto_isc c).
Proof.
  cbv zeta.
  assert (Hdiff :
    Qsum (map (@Importacion.debe Q)
            (Importacion.asiento_contable (Importacion.calcularImportacion data tasas)))
    - Qsum (map (@Importacion.haber Q)
              (Importacion.asiento_contable (Importacion.calcularImportacion data tasas)))
    == Importacion.valor_cif (Importacion.calcularImportacion data tasas)
       - Importacion.monto_isc (Importacion.calcularImportacion data tasas)).
  { unfold Importacion.calcularImportacion.
    cbn [Importacion.asiento_contable Importacion.valor_cif Importacion.monto_isc
         map Importacion.debe Importacion.haber Qsum fold_right].
    unfold zero. qops. change (inject_Z 0) with 0. ring. }
  split; [exact Hdiff |].
  split; intro Heq.
  - apply Qplus_inj_r with (z := - Importacion.monto_isc
                                     (Importacion.calcularImportacion data tasas)).
    rewrite Qplus_opp_r. unfold Qminus in Hdiff. rewrite <- Hdiff, Heq.
    apply Qplus_opp_r.
  - apply Qplus_inj_r with (z := - Qsum (map (@Importacion.haber Q)
             (Importacion.asiento_contable (Importacion.calcularImportacion data tasas)))).
    rewrite Qplus_opp_r. unfold Qminus in Hdiff. rewrite Hdiff, Heq.
    apply Qplus_opp_r.
Qed.

Lemma push_tributo_Forall (P : Importacion.TributoDB Q -> Prop)
    (l : list (Importacion.TributoDB Q)) (concepto : string) (base tasa monto : Q) :
  Forall P l ->
  (0 < monto ->
   P {| Importacion.concepto := concepto; Importacion.base_imponible := base;
        Importacion.tasa_aplicada := tasa; Importacion.monto_calculado := monto |}) ->
  Forall P (Importacion.push_tributo l concepto base tasa monto).
Proof.
  intros Hl Hnew. unfold Importacion.push_tributo.
  destruct (gtb monto zero) eqn:E; [| exact Hl].
  apply gtb_zero_Q in E. apply Forall_app. split; [exact Hl |].
  constructor; [exact (Hnew E) | constructor].
Qed.

Lemma push_tributo_sum (l : list (Importacion.TributoDB Q)) (concepto : string)
    (base tasa monto : Q) :
  0 <= monto ->
  Qsum (map (@Importacion.monto_calculado Q)
          (Importacion.push_tributo l concepto base tasa monto))
  == Qsum (map (@Importacion.monto_calculado Q) l) + monto.
Proof.
  intro Hm. unfold Importacion.push_tributo.
  destruct (gtb monto zero) eqn:E.
  - rewrite map_app. cbn [map Importacion.monto_calculado]. apply Qsum_snoc.
  - assert (Hz : monto == 0).
    { apply Qle_antisym; [| exact Hm].
      apply Qnot_lt_le. intro Hlt. apply gtb_zero_Q in Hlt. congruence. }
    rewrite Hz. ring.
Qed.

(** X12. The tax lines that [calcularImportacion] prepares for storage:
    every line carries a strictly positive amount equal to its base times
    its rate, and with non-negative values and rates the lines add up to
    the customs debt plus the perception, so that leaving out the zero
    amounts loses nothing. *)
Theorem importacion_tributos_account_for_total
    (data : Importacion.ImportacionInputData Q) (tasas : Importacion.TasasImpuestos Q) :
  importacion_nonneg_data data tasas ->
  let c := Importacion.calcularImportacion data tasas in
  Forall (fun t => 0 < Importacion.monto_calculado t
                   /\ Importacion.monto_calculado t
                      == Importacion.base_imponible t * Importacion.tasa_aplicada t)
         (Importacion.tributos c)
  /\ Qsum (map (@Importacion.monto_calculado Q) (Importacion.tributos c))
     == Importacion.dta_total c + Importacion.monto_percepcion c.
Proof.
  intros (Hfob & Hfle & Hseg & Hav & Hisc & Hperc & Higv & Hipm). cbv zeta.
  apply or_default_zero_nonneg in Hav, Hisc, Hperc.
  unfold Importacion.calcularImportacion.
  cbn [Importacion.tributos Importacion.dta_total Importacion.monto_percepcion].
  unfold zero. qops. change (inject_Z 0) with 0.
  set (cif := Importacion.valor_fob data + Importacion.valor_flete data
              + Importacion.valor_seguro data).
  assert (Hcif : 0 <= cif) by (subst cif; auto with nonneg).
  set (av := cif * or_default_zero (Importacion.ad_valorem_tasa_manual data)).
  assert (Hav' : 0 <= av) by (subst av; apply Qmult_le_0_compat; assumption).
  set (isc := if Importacion.habilitar_isc data
              then (cif + av) * or_default_zero (Importacion.isc_tasa_ingresada data)
              else 0).
  assert (Hisc' : 0 <= isc).
  { subst isc. destruct (Importacion.habilitar_isc data); [| apply Qle_refl].
    apply Qmult_le_0_compat; auto with nonneg. }
  set (igv := if Importacion.habilitar_igv data
              then (cif + av + isc) * Importacion.igv tasas else 0).
  assert (Higv' : 0 <= igv).
  { subst igv. destruct (Importacion.habilitar_igv data); [| apply Qle_refl].
    apply Qmult_le_0_compat; auto with nonneg. }
  set (ipm := if Importacion.habilitar_igv data
              then (cif + av + isc) * Importacion.ipm tasas else 0).
  assert (Hipm' : 0 <= ipm).
  { subst ipm. destruct (Importacion.habilitar_igv data); [| apply Qle_refl].
    apply Qmult_le_0_compat; auto with nonneg. }
  set (perc := if Importacion.habilitar_percepcion data
               then (cif + av + isc + igv + ipm)
                    * or_default_zero (Importacion.percepcion_tasa_ingresada data)
               else 0).
  assert (Hperc' : 0 <= perc).
  { subst perc. destruct (Importacion.habilitar_percepcion data); [| apply Qle_refl].
    apply Qmult_le_0_compat; auto 8 with nonneg. }
  split.
  - repeat apply push_tributo_Forall; [constructor | | | | |];
      intro Hpos; (split; [exact Hpos |]);
      cbn [Importacion.monto_calculado Importacion.base_imponible
           Importacion.tasa_aplicada] in *.
    + subst av. reflexivity.
    + subst isc. destruct (Importacion.habilitar_isc data); [reflexivity |].
      exfalso. exact (Qlt_irrefl _ Hpos).
    + subst igv. destruct (Importacion.habilitar_igv data); [reflexivity |].
      exfalso. exact (Qlt_irrefl _ Hpos).
    + subst ipm. destruct (Importacion.habilitar_igv data); [reflexivity |].
      exfalso. exact (Qlt_irrefl _ Hpos).
    + subst perc. destruct (Importacion.habilitar_percepcion data); [reflexivity |].
      exfalso. exact (Qlt_irrefl _ Hpos).
  - rewrite !push_tributo_sum by assumption.
    cbn [map Qsum fold_right]. ring.
Qed.

Lemma importacion_tributos_account_for_total_witness :
  importacion_nonneg_data carton_importacion tasas_por_defecto
  /\ Qsum (map (@Importacion.monto_calculado Q)
             (Importacion.tributos
                (Importacion.calcularImportacion carton_importacion tasas_por_defecto)))
     == Importacion.dta_total
          (Importacion.calcularImportacion carton_importacion tasas_por_defecto)
        + Importacion.monto_percepcion
            (Importacion.calcularImportacion carton_importacion tasas_por_defecto).
Proof.
  assert (Hdata : importacion_nonneg_data carton_importacion tasas_por_defecto)
    by (repeat split; vm_compute; discriminate).
  split; [exact Hdata |].
  exact (proj2 (importacion_tributos_account_for_total Hdata)).
Defined.

(* ------------------------------------------------------------------ *)
(** * The profitability analysis: grouping, profit chain, comparison *)

Lemma gastos_de_cons {num : Type} `{Number num} (label : string)
    (rows : list (Rentabilidad.GastoFila num)) (gasto : Rentabilidad.GastoFila num) :
  gastos_de label (gasto :: rows)
  = (if String.eqb (toLowerCase (Rentabilidad.clasificacion_nombre gasto)) label
     then [Rentabilidad.detalle gasto] else [])
    ++ gastos_de label rows.
Proof.
  unfold gastos_de, clasificado_como. cbn [filter].
  destruct (String.eqb _ label); reflexivity.
Qed.

Lemma agrupar_fold {num : Type} `{Number num}
    (rows : list (Rentabilidad.GastoFila num)) (g : Analisis.GastosPorClasificacion num) :
  fold_left Rentabilidad.agrupar_paso rows g
  = {| Analisis.operativos := Analisis.operativos g ++ gastos_de "operativo" rows;
       Analisis.administrativos :=
         Analisis.administrativos g ++ gastos_de "administrativo" rows;
       Analisis.ventas := Analisis.ventas g ++ gastos_de "ventas" rows;
       Analisis.financieros := Analisis.financieros g ++ gastos_de "financiero" rows |}.
Proof.
  revert g. induction rows as [| gasto rows IH]; intro g.
  - destruct g. cbn. rewrite !app_nil_r. reflexivity.
  - cbn [fold_left]. rewrite IH, !gastos_de_cons.
    unfold Rentabilidad.agrupar_paso. cbv zeta.
    generalize (toLowerCase (Rentabilidad.clasificacion_nombre gasto)). intro nombre.
    destruct (String.eqb nombre "operativo") eqn:E1;
      [apply String.eqb_eq in E1; subst nombre
      | destruct (String.eqb nombre "administrativo") eqn:E2;
        [apply String.eqb_eq in E2; subst nombre
        | destruct (String.eqb nombre "ventas") eqn:E3;
          [apply String.eqb_eq in E3; subst nombre
          | destruct (String.eqb nombre "financiero") eqn:E4;
            [apply String.eqb_eq in E4; subst nombre |]]]];
      cbn [String.eqb Ascii.eqb Bool.eqb andb app
           Analisis.operativos Analisis.administrativos Analisis.ventas
           Analisis.financieros];
      rewrite <- ?app_assoc; reflexivity.
Qed.

(** X13. [obtenerGastosPorClasificacion] sorts the expense rows into the
    four groups by the classification name read without regard to letter
    case: each group holds exactly the rows so named, in the order in which
    the rows came. *)
Theorem gastos_grouped_by_label {num : Type} `{Number num}
    (rows : list (Rentabilidad.GastoFila num)) :
  Rentabilidad.agruparGastos rows
  = {| Analisis.operativos := gastos_de "operativo" rows;
       Analisis.administrativos := gastos_de "administrativo" rows;
       Analisis.ventas := gastos_de "ventas" rows;
       Analisis.financieros := gastos_de "financiero" rows |}.
Proof.
  unfold Rentabilidad.agruparGastos. rewrite agrupar_fold. reflexivity.
Qed.

Lemma gastos_de_sin_clasificar {num : Type} `{Number num} (label : string)
    (before after : list (Rentabilidad.GastoFila num)) (gasto : Rentabilidad.GastoFila num) :
  clasificado_como label gasto = false ->
  gastos_de label (before ++ gasto :: after) = gastos_de label (before ++ after).
Proof.
  intro Hno. unfold gastos_de. rewrite !filter_app. cbn [filter]. rewrite Hno.
  reflexivity.
Qed.

(** X14. An expense whose classification is none of operativo,
    administrativo, ventas and financiero is left out of the grouping
    altogether: the groups, and with them every profit figure and currency
    total computed from them, are the same as if the row did not exist. *)
Theorem unclassified_expense_is_dropped {num : Type} `{Number num}
    (before after : list (Rentabilidad.GastoFila num)) (gasto : Rentabilidad.GastoFila num) :
  sin_clasificar gasto ->
  Rentabilidad.agruparGastos (before ++ gasto :: after)
  = Rentabilidad.agruparGastos (before ++ after).
Proof.
  intros (H1 & H2 & H3 & H4). cbv zeta in *.
  unfold Rentabilidad.agruparGastos. rewrite !agrupar_fold.
  rewrite !gastos_de_sin_clasificar; [reflexivity | | | |];
    unfold clasificado_como; apply String.eqb_neq; assumption.
Qed.

Lemma unclassified_expense_is_dropped_witness :
  sin_clasificar (num := Q) gasto_otros
  /\ Rentabilidad.agruparGastos (num := Q)
       ([gasto_operativo] ++ gasto_otros :: [gasto_financiero])
     = Rentabilidad.agruparGastos ([gasto_operativo] ++ [gasto_financiero]).
Proof.
  assert (Hotros : sin_clasificar (num := Q) gasto_otros)
    by (unfold sin_clasificar; vm_compute; repeat split; discriminate).
  split; [exact Hotros |].
  exact (unclassified_expense_is_dropped [gasto_operativo] [gasto_financiero] Hotros).
Defined.

Lemma Qfloor_plus_half (k : Z) : Qfloor (inject_Z k + (1 # 2)) = k.
Proof.
  apply Qfloor_squeeze.
  - rewrite <- (Qplus_0_r (inject_Z k)) at 1. apply Qplus_le_r. discriminate.
  - rewrite inject_Z_plus. apply Qplus_lt_r. reflexivity.
Qed.

Lemma hundredths_mono (a b : Q) : a <= b -> (hundredths a <= hundredths b)%Z.
Proof.
  intro Hab. unfold hundredths.
  destruct (Qltb a 0) eqn:Ea; destruct (Qltb b 0) eqn:Eb.
  - apply Qltb_lt in Ea, Eb. apply Z.opp_le_mono. rewrite !Z.opp_involutive.
    apply Qfloor_resp_le. apply Qplus_le_l. apply Qmult_le_compat_r; [| discriminate].
    apply Qopp_le_compat. exact Hab.
  - apply Qltb_lt in Ea. apply Qltb_ge in Eb.
    apply Z.le_trans with 0%Z.
    + apply Z.opp_nonpos_nonneg. change 0%Z with (Qfloor 0).
      apply Qfloor_resp_le.
      apply Qle_trans with (- a * 100); [| rewrite <- (Qplus_0_r (- a * 100)) at 1;
                                            apply Qplus_le_r; discriminate].
      apply Qmult_le_0_compat; [| discriminate].
      apply Qlt_le_weak. rewrite <- (Qopp_involutive 0) . apply Qopp_lt_compat. exact Ea.
    + change 0%Z with (Qfloor 0). apply Qfloor_resp_le.
      apply Qle_trans with (b * 100); [| rewrite <- (Qplus_0_r (b * 100)) at 1;
                                          apply Qplus_le_r; discriminate].
      apply Qmult_le_0_compat; [exact Eb | discriminate].
  - apply Qltb_ge in Ea. apply Qltb_lt in Eb. exfalso.
    apply (Qlt_irrefl 0). apply Qle_lt_trans with a; [exact Ea |].
    apply Qle_lt_trans with b; assumption.
  - apply Qfloor_resp_le. apply Qplus_le_l. apply Qmult_le_compat_r; [exact Hab |].
    discriminate.
Qed.

Lemma Qto_fixed2_mono (a b : Q) : a <= b -> Qto_fixed2 a <= Qto_fixed2 b.
Proof.
  intro Hab. unfold Qto_fixed2. apply Qmult_le_compat_r; [| discriminate].
  rewrite <- Zle_Qle. apply hundredths_mono. exact Hab.
Qed.

Lemma Qto_fixed2_Proper (a b : Q) : a == b -> Qto_fixed2 a == Qto_fixed2 b.
Proof.
  intro Hab. apply Qle_antisym; apply Qto_fixed2_mono; rewrite Hab; apply Qle_refl.
Qed.

Lemma hundredths_cents (k : Z) : hundredths (inject_Z k / 100) = k.
Proof.
  unfold hundredths. destruct (Qltb (inject_Z k / 100) 0) eqn:E.
  - assert (Hk : - (inject_Z k / 100) * 100 + (1 # 2) == inject_Z (- k) + (1 # 2)).
    { rewrite inject_Z_opp. field. }
    rewrite (Qfloor_comp _ _ Hk), Qfloor_plus_half. lia.
  - assert (Hk : inject_Z k / 100 * 100 + (1 # 2) == inject_Z k + (1 # 2)) by field.
    rewrite (Qfloor_comp _ _ Hk). apply Qfloor_plus_half.
Qed.

Lemma Qto_fixed2_cents (q : Q) : cents q -> Qto_fixed2 q == q.
Proof.
  intros [k Hk]. rewrite (Qto_fixed2_Proper Hk), Hk. unfold Qto_fixed2.
  rewrite hundredths_cents. reflexivity.
Qed.

Lemma Qto_fixed2_is_cents (q : Q) : cents (Qto_fixed2 q).
Proof. exists (hundredths q). reflexivity. Qed.

Lemma Qto_fixed2_idem (q : Q) : Qto_fixed2 (Qto_fixed2 q) == Qto_fixed2 q.
Proof. apply Qto_fixed2_cents, Qto_fixed2_is_cents. Qed.

Lemma fold_add_nonneg (A : Type) (f : A -> Q) (l : list A) (acc : Q) :
  0 <= acc -> Forall (fun a => 0 <= f a) l ->
  0 <= fold_left (fun total a => total + f a) l acc.
Proof.
  revert acc. induction l as [| a l IH]; intros acc Hacc Hl; [exact Hacc |].
  inversion Hl as [| ? ? Ha Hl']; subst. cbn [fold_left]. apply IH; [| exact Hl'].
  rewrite <- (Qplus_0_r 0). apply Qplus_le_compat; assumption.
Qed.

Lemma to_usd_nonneg (moneda : string) (v : Q) : 0 <= v -> 0 <= Analisis.to_usd moneda v.
Proof.
  intro Hv. unfold Analisis.to_usd. destruct (String.eqb moneda "USD"); [exact Hv |].
  qops. apply Qle_shift_div_l; [reflexivity |]. rewrite Qmult_0_l. exact Hv.
Qed.

Lemma parse_or_zero_nonneg (x : Q) : 0 <= x -> 0 <= Analisis.parse_or_zero x.
Proof.
  intro Hx. unfold Analisis.parse_or_zero. destruct (truthy x); [exact Hx |].
  apply Qle_refl.
Qed.

Lemma sumarGastos_nonneg (gastos : list (Analisis.GastoDetalle Q)) :
  Forall (fun g => 0 <= Analisis.monto g) gastos -> 0 <= Analisis.sumarGastos gastos.
Proof.
  intro Hg. unfold Analisis.sumarGastos. cbv zeta. qops.
  apply (fold_add_nonneg
           (fun g => Analisis.to_usd (Analisis.moneda g)
                       (Analisis.parse_or_zero (Analisis.monto g))));
    [apply Qle_refl |].
  eapply Forall_impl; [| exact Hg]. intros g Hm. cbv beta.
  apply to_usd_nonneg, parse_or_zero_nonneg, Hm.
Qed.

Lemma Qto_fixed2_sub_le (t g : Q) : cents t -> 0 <= g -> Qto_fixed2 (t - g) <= t.
Proof.
  intros Ht Hg. rewrite <- (Qto_fixed2_cents Ht) at 2. apply Qto_fixed2_mono.
  rewrite <- (Qplus_0_r t) at 2. unfold Qminus. apply Qplus_le_r.
  rewrite <- (Qopp_involutive 0). apply Qopp_le_compat. exact Hg.
Qed.

(** X15. With no negative expense the three profit figures descend: net
    profit is at most operating profit, which is at most gross profit, the
    two-decimal rounding of each stage notwithstanding. *)
Theorem profit_chain_descends (importaciones : list (Analisis.ImportacionDetalle Q))
    (exportaciones : list (Analisis.ExportacionDetalle Q))
    (gastos : Analisis.GastosPorClasificacion Q) :
  gastos_no_negativos gastos ->
  let '(ub, uo, un) := Analisis.calcularUtilidades importaciones exportaciones gastos in
  Analisis.utilidad_neta un <= Analisis.utilidad_operativa uo
  /\ Analisis.utilidad_operativa uo <= Analisis.utilidad_bruta ub.
Proof.
  intro Hg. unfold gastos_no_negativos in Hg.
  apply Forall_app in Hg. destruct Hg as [Hop Hg].
  apply Forall_app in Hg. destruct Hg as [Hadm Hg].
  apply Forall_app in Hg. destruct Hg as [Hven Hfin].
  unfold Analisis.calcularUtilidades. cbv zeta.
  split.
  - unfold Analisis.calcularUtilidadNeta. cbv zeta. cbn [Analisis.utilidad_neta]. qops.
    apply Qto_fixed2_sub_le.
    + unfold Analisis.calcularUtilidadOperativa. cbv zeta.
      cbn [Analisis.utilidad_operativa]. apply Qto_fixed2_is_cents.
    + apply sumarGastos_nonneg in Hadm, Hven, Hfin. auto with nonneg.
  - unfold Analisis.calcularUtilidadOperativa. cbv zeta.
    cbn [Analisis.utilidad_operativa]. qops.
    apply Qto_fixed2_sub_le.
    + unfold Analisis.calcularUtilidadBruta. cbv zeta.
      cbn [Analisis.utilidad_bruta]. apply Qto_fixed2_is_cents.
    + apply (fold_add_nonneg
               (fun g => Analisis.to_usd (Analisis.moneda g) (Analisis.monto g)));
        [apply Qle_refl |].
      eapply Forall_impl; [| exact Hop]. intros g Hm. cbv beta.
      apply to_usd_nonneg, Hm.
Qed.

Lemma profit_chain_descends_witness :
  gastos_no_negativos trading_expenses
  /\ Analisis.utilidad_operativa
       (snd (fst (Analisis.calcularUtilidades trading_imports trading_exports
                    trading_expenses)))
     <= Analisis.utilidad_bruta
          (fst (fst (Analisis.calcularUtilidades trading_imports trading_exports
                       trading_expenses))).
Proof.
  assert (Hg : gastos_no_negativos trading_expenses)
    by (repeat constructor; vm_compute; discriminate).
  split; [exact Hg |].
  exact (proj2 (profit_chain_descends trading_imports trading_exports Hg)).
Defined.

Lemma math_max_Q (a b : Q) : math_max a b = if Qltb a b then b else a.
Proof.
  unfold math_max. qops.
  assert (Ha : Qle_bool a a = true) by (apply Qle_bool_iff, Qle_refl).
  assert (Hb : Qle_bool b b = true) by (apply Qle_bool_iff, Qle_refl).
  rewrite Ha, Hb. reflexivity.
Qed.

Lemma math_max_bounds (a b : Q) : a <= math_max a b /\ b <= math_max a b.
Proof.
  rewrite math_max_Q. destruct (Qltb a b) eqn:E.
  - apply Qltb_lt in E. split; [apply Qlt_le_weak, E | apply Qle_refl].
  - apply Qltb_ge in E. split; [apply Qle_refl | exact E].
Qed.

Lemma math_min_bounds (a b : Q) : Qmath_min a b <= a /\ Qmath_min a b <= b.
Proof.
  unfold Qmath_min. destruct (Qle_bool a b) eqn:E.
  - apply Qle_bool_iff in E. split; [apply Qle_refl | exact E].
  - split; [| apply Qle_refl].
    destruct (Qlt_le_dec b a) as [Hlt | Hle]; [apply Qlt_le_weak, Hlt |].
    apply Qle_bool_iff in Hle. congruence.
Qed.

Lemma max_of_bounds (xs : list Q) (x : Q) :
  Forall (fun y => y <= Rentabilidad.max_of x xs) (x :: xs).
Proof.
  unfold Rentabilidad.max_of. revert x.
  induction xs as [| y ys IH]; intro x.
  - constructor; [apply Qle_refl | constructor].
  - cbn [fold_left]. specialize (IH (math_max x y)).
    inversion IH as [| ? ? Hm Hys]; subst.
    destruct (math_max_bounds x y) as [Hx Hy].
    constructor; [eapply Qle_trans; eassumption |].
    constructor; [eapply Qle_trans; eassumption | exact Hys].
Qed.

Lemma min_of_bounds (xs : list Q) (x : Q) :
  Forall (fun y => Rentabilidad.min_of x xs <= y) (x :: xs).
Proof.
  unfold Rentabilidad.min_of. qops. revert x.
  induction xs as [| y ys IH]; intro x.
  - constructor; [apply Qle_refl | constructor].
  - cbn [fold_left]. specialize (IH (Qmath_min x y)).
    inversion IH as [| ? ? Hm Hys]; subst.
    destruct (math_min_bounds x y) as [Hx Hy].
    constructor; [eapply Qle_trans; eassumption |].
    constructor; [eapply Qle_trans; eassumption | exact Hys].
Qed.

Lemma max_of_pick (P : Q -> Prop) (xs : list Q) (x : Q) :
  P x -> Forall P xs -> P (Rentabilidad.max_of x xs).
Proof.
  unfold Rentabilidad.max_of. revert x.
  induction xs as [| y ys IH]; intros x Hx Hxs; [exact Hx |].
  inversion Hxs; subst. cbn [fold_left]. apply IH; [| assumption].
  rewrite math_max_Q. destruct (Qltb x y); assumption.
Qed.

Lemma min_of_pick (P : Q -> Prop) (xs : list Q) (x : Q) :
  P x -> Forall P xs -> P (Rentabilidad.min_of x xs).
Proof.
  unfold Rentabilidad.min_of. qops. revert x.
  induction xs as [| y ys IH]; intros x Hx Hxs; [exact Hx |].
  inversion Hxs; subst. cbn [fold_left]. apply IH; [| assumption].
  unfold Qmath_min. destruct (Qle_bool x y); assumption.
Qed.

Lemma fold_add_between (lo hi : Q) (l : list Q) (acc : Q) :
  Forall (fun y => lo <= y <= hi) l ->
  acc + inject_Z (Z.of_nat (length l)) * lo <= fold_left Qplus l acc
  /\ fold_left Qplus l acc <= acc + inject_Z (Z.of_nat (length l)) * hi.
Proof.
  revert acc. induction l as [| y l IH]; intros acc Hl.
  - cbn [fold_left length Z.of_nat]. change (inject_Z 0) with 0.
    rewrite !Qmult_0_l, Qplus_0_r. split; apply Qle_refl.
  - inversion Hl as [| ? ? [Hlo Hhi] Hl']; subst. cbn [fold_left].
    destruct (IH (acc + y) Hl') as [H1 H2].
    cbn [length]. rewrite Nat2Z.inj_succ. unfold Z.succ. rewrite inject_Z_plus.
    change (inject_Z 1) with 1. split.
    + eapply Qle_trans; [| exact H1].
      setoid_replace (acc + (inject_Z (Z.of_nat (length l)) + 1) * lo)
        with (acc + lo + inject_Z (Z.of_nat (length l)) * lo) by ring.
      apply Qplus_le_l, Qplus_le_r, Hlo.
    + eapply Qle_trans; [exact H2 |].
      setoid_replace (acc + (inject_Z (Z.of_nat (length l)) + 1) * hi)
        with (acc + hi + inject_Z (Z.of_nat (length l)) * hi) by ring.
      apply Qplus_le_l, Qplus_le_r, Hhi.
Qed.

Lemma average_between (lo hi : Q) (l : list Q) :
  l <> [] -> Forall (fun y => lo <= y <= hi) l ->
  lo <= fold_left Qplus l 0 / inject_Z (Z.of_nat (length l)) <= hi.
Proof.
  intros Hne Hl. destruct (fold_add_between 0 Hl) as [H1 H2].
  rewrite Qplus_0_l in H1, H2.
  assert (Hn : 0 < inject_Z (Z.of_nat (length l))).
  { change 0 with (inject_Z 0). rewrite <- Zlt_Qlt.
    destruct l; [congruence | cbn [length]; lia]. }
  split.
  - apply Qle_shift_div_l; [exact Hn |]. rewrite Qmult_comm. exact H1.
  - apply Qle_shift_div_r; [exact Hn |]. rewrite Qmult_comm. exact H2.
Qed.

Lemma comparar_caso_margen_cents (caso : Rentabilidad.Caso Q) :
  cents (num_or_zero (Rentabilidad.margen_neto (Rentabilidad.comparar_caso caso))).
Proof.
  assert (Hz : cents 0) by (exists 0%Z; reflexivity).
  assert (Hm : cents (Rentabilidad.margen_neto (Rentabilidad.comparar_caso caso))).
  { unfold Rentabilidad.comparar_caso.
    destruct (Rentabilidad.datos caso) as [[[imps exps] filas] |]; [| exact Hz].
    unfold Analisis.calcularUtilidades. cbv zeta.
    cbn [Rentabilidad.margen_neto]. unfold Analisis.calcularUtilidadNeta. cbv zeta.
    cbn [Analisis.margen_neto_porcentaje]. apply Qto_fixed2_is_cents. }
  unfold num_or_zero. destruct (truthy _); [exact Hm | exact Hz].
Qed.

(** X16. The comparison of study cases: it reports as many cases as it was
    given, in the same order; the worst and best margins bracket the net
    margin of every case, a case whose analysis failed counting with margin
    0; and the average margin, rounded to two decimals, lies between the
    worst and the best. *)
Theorem comparativo_statistics (rows : list (Rentabilidad.Caso Q)) :
  let c := Rentabilidad.obtenerComparativo rows in
  let e := Rentabilidad.estadisticas c in
  Rentabilidad.total_casos c = Z.of_nat (length rows)
  /\ map (@Rentabilidad.caso_id Q) (Rentabilidad.casos c)
     = map (@Rentabilidad.id Q) rows
  /\ Forall (fun cc => Rentabilidad.peor_margen e <= Rentabilidad.margen_neto cc
                       /\ Rentabilidad.margen_neto cc <= Rentabilidad.mejor_margen e)
            (Rentabilidad.casos c)
  /\ Rentabilidad.peor_margen e <= Rentabilidad.promedio_margen e
  /\ Rentabilidad.promedio_margen e <= Rentabilidad.mejor_margen e.
Proof.
  cbv zeta. destruct rows as [| caso rows].
  - cbn. repeat split; try constructor; discriminate.
  - unfold Rentabilidad.obtenerComparativo.
    set (cd := map (@Rentabilidad.comparar_caso Q _) (caso :: rows)).
    assert (Hids : map (@Rentabilidad.caso_id Q) cd = map (@Rentabilidad.id Q) (caso :: rows)).
    { subst cd. rewrite map_map. apply map_ext. intro c.
      unfold Rentabilidad.comparar_caso.
      destruct (Rentabilidad.datos c) as [[[? ?] ?] |]; reflexivity. }
    assert (Hcents : Forall cents
              (map (fun c => num_or_zero (Rentabilidad.margen_neto c)) cd)).
    { subst cd. rewrite map_map. apply Forall_forall. intros x Hx.
      apply in_map_iff in Hx. destruct Hx as (c & <- & _).
      apply comparar_caso_margen_cents. }
    destruct (map (fun c => num_or_zero (Rentabilidad.margen_neto c)) cd)
      as [| m ms] eqn:Em.
    { subst cd. discriminate. }
    cbn [Rentabilidad.total_casos Rentabilidad.casos Rentabilidad.estadisticas
         Rentabilidad.mejor_margen Rentabilidad.peor_margen Rentabilidad.promedio_margen].
    pose proof (max_of_bounds ms m) as Hmax.
    pose proof (min_of_bounds ms m) as Hmin.
    assert (Hboth : Forall (fun y => Rentabilidad.min_of m ms <= y
                                     <= Rentabilidad.max_of m ms) (m :: ms)).
    { apply Forall_forall. intros y Hy. rewrite Forall_forall in Hmax, Hmin.
      split; [apply Hmin | apply Hmax]; exact Hy. }
    split; [reflexivity |]. split; [exact Hids |]. split.
    + apply Forall_forall. intros cc Hcc.
      assert (Hin : In (num_or_zero (Rentabilidad.margen_neto cc)) (m :: ms)).
      { rewrite <- Em. apply in_map_iff. exists cc. split; [reflexivity | exact Hcc]. }
      rewrite Forall_forall in Hboth. specialize (Hboth _ Hin).
      rewrite num_or_zero_Q in Hboth. exact Hboth.
    + inversion Hcents as [| ? ? Hm Hms]; subst.
      pose proof (@average_between _ _ (m :: ms) ltac:(discriminate) Hboth) as [Hlo Hhi].
      unfold zero. qops. change (inject_Z 0) with 0. split.
      * rewrite <- (Qto_fixed2_cents (@min_of_pick cents ms m Hm Hms)).
        apply Qto_fixed2_mono. exact Hlo.
      * rewrite <- (Qto_fixed2_cents (@max_of_pick cents ms m Hm Hms)).
        apply Qto_fixed2_mono. exact Hhi.
Qed.

(* ------------------------------------------------------------------ *)
(** * Tariff codes *)

Lemma normalizeHS_digits (s : string) :
  Forall (fun c => is_digit c = true) (caracteres (normalizeHS s)).
Proof.
  induction s as [| c rest IH]; [constructor |].
  cbn [normalizeHS]. destruct (is_digit c) eqn:E; [| exact IH].
  cbn [caracteres]. constructor; assumption.
Qed.

Lemma normalizeHS_fixed (s : string) :
  Forall (fun c => is_digit c = true) (caracteres s) -> normalizeHS s = s.
Proof.
  induction s as [| c rest IH]; intro Hs; [reflexivity |].
  cbn [caracteres] in Hs. inversion Hs as [| ? ? Hc Hrest]; subst.
  cbn [normalizeHS]. rewrite Hc, (IH Hrest). reflexivity.
Qed.

Lemma normalizeHS_app (a b : string) :
  normalizeHS (a ++ b) = (normalizeHS a ++ normalizeHS b)%string.
Proof.
  induction a as [| c rest IH]; [reflexivity |].
  cbn [String.append normalizeHS]. destruct (is_digit c); [| exact IH].
  cbn [String.append]. rewrite IH. reflexivity.
Qed.

(** X17. The tariff-code key that the routes and both rule loaders build
    with [replace(/\D/g, '')] is canonical: it consists of digits only,
    building it again changes nothing, and a character that is not a digit
    (a dot, a blank) anywhere in the code does not change the key. *)
Theorem normalizeHS_canonical (before after : string) (c : Ascii.ascii) :
  Forall (fun d => is_digit d = true) (caracteres (normalizeHS before))
  /\ normalizeHS (normalizeHS before) = normalizeHS before
  /\ (is_digit c = false ->
      normalizeHS (before ++ String c after) = normalizeHS (before ++ after)).
Proof.
  split; [apply normalizeHS_digits |]. split.
  - apply normalizeHS_fixed, normalizeHS_digits.
  - intro Hc. rewrite !normalizeHS_app. cbn [normalizeHS]. rewrite Hc. reflexivity.
Qed.

Lemma normalizeHS_canonical_witness :
  is_digit (Ascii.ascii_of_nat 46) = false
  /\ normalizeHS ("4819" ++ String (Ascii.ascii_of_nat 46) "10.00.00") = normalizeHS ("4819" ++ "10.00.00").
Proof.
  split; [reflexivity |].
  apply (normalizeHS_canonical "4819" "10.00.00" (Ascii.ascii_of_nat 46)). reflexivity.
Defined.
